(** * realtimesindy: the tool handlers, page state and avatar hook of the
    voice-assistant front end, embedded in Rocq.

    Sources embedded here:
    - [src/pages/ConsolePage.tsx] and [src/pages/Main.tsx]: the six tools
      registered on the RealtimeClient, [formatPhoneNumber],
      [connectConversation], [disconnectConversation] and the
      [realtime.event] log handler;
    - [utils/heygen] (the [useHeygen] hook).

    JavaScript strings are represented by Rocq strings, one [ascii] per
    UTF-16 code unit below 256: the literals of the source lie in that
    range, and the data strings are taken from it. *)

From Stdlib Require Import ZArith Ascii PrimFloat.
From stdpp Require Import base list gmap strings pretty.

#[local] Set Warnings "-register-all,-inexact-float".

Local Open Scope Z_scope.

(** ** JavaScript values *)

Module JS.

(** A string made of one code unit, for the accented letters of the
    Portuguese literals. *)
Definition cu (n : N) : string := String (ascii_of_N n) EmptyString.

(** A code unit above 255, as some literals of ConsolePage.tsx carry:
    the strings here are made of 8-bit characters, so such a unit is held
    as its high and its low byte.  Nothing that is modelled reads the
    inside of these literals; [String.length] counts such a unit twice. *)
Definition cu16 (n : N) : string :=
  String (ascii_of_N (n / 256)) (String (ascii_of_N (n mod 256)) EmptyString).

(** Values as [JSON.parse] produces them, plus [undefined].  An object is
    the list of its own properties in insertion order; [set_assoc] keeps
    the keys distinct and [get_prop] reads the first binding. *)
Inductive JValue : Type :=
| JUndefined
| JNull
| JBool (b : bool)
| JNum (x : float)
| JStr (s : string)
| JArr (xs : list JValue)
| JObj (props : list (string * JValue)).

(** What a handler can throw. [Error] is [new Error(message)]; the other
    three are raised by the platform ([Foreign] by the audio, WebRTC and
    realtime-client libraries), with a text of the platform's choosing. *)
Inductive Exn : Type :=
| Error (message : string)
| TypeError
| SyntaxError
| Foreign (name message : string).

(** [error.message]; the wording of the engine's own TypeError and
    SyntaxError is not modelled. *)
Definition exn_message (e : Exn) : string :=
  match e with
  | Error m => m
  | TypeError => ""
  | SyntaxError => ""
  | Foreign _ m => m
  end.

(** Result of a computation that may throw. *)
Inductive Res (A : Type) : Type :=
| Ok (a : A)
| Raise (e : Exn).
Arguments Ok {A} a.
Arguments Raise {A} e.

Definition bindR {A B} (r : Res A) (f : A -> Res B) : Res B :=
  match r with
  | Ok a => f a
  | Raise e => Raise e
  end.

Fixpoint mapR {A B} (f : A -> Res B) (l : list A) : Res (list B) :=
  match l with
  | [] => Ok []
  | x :: l' =>
      bindR (f x) (fun y => bindR (mapR f l') (fun ys => Ok (y :: ys)))
  end.

(** ToBoolean. *)
Definition truthy (v : JValue) : bool :=
  match v with
  | JUndefined | JNull => false
  | JBool b => b
  | JNum x => negb (PrimFloat.eqb x 0 || negb (PrimFloat.eqb x x))
  | JStr s => negb (String.eqb s "")
  | JArr _ | JObj _ => true
  end.

(** [a === b].  Arrays and objects are compared by identity in
    JavaScript; two values that come out of different messages are never
    the same object, so they compare [false] here. *)
Definition strict_eq (a b : JValue) : bool :=
  match a, b with
  | JUndefined, JUndefined => true
  | JNull, JNull => true
  | JBool x, JBool y => Bool.eqb x y
  | JNum x, JNum y => PrimFloat.eqb x y
  | JStr x, JStr y => String.eqb x y
  | _, _ => false
  end.

(** [v == lit] for a string literal [lit] that is nonempty, has no comma
    and is neither a numeral nor the rendering of a boolean or of a plain
    object ('response.done', 'failed').  A string compares by content, an
    array through its [toString], which for one element is that of the
    element; everything else is unequal to such a literal. *)
Fixpoint loose_eq_lit (v : JValue) (lit : string) : bool :=
  match v with
  | JStr s => String.eqb s lit
  | JArr [x] => loose_eq_lit x lit
  | _ => false
  end.

Fixpoint assoc (k : string) (props : list (string * JValue)) : JValue :=
  match props with
  | [] => JUndefined
  | (k', v) :: rest => if String.eqb k k' then v else assoc k rest
  end.

(** [v.k] for the property names the handlers read; none of them is a
    member of a built-in prototype, so primitives and arrays answer
    [undefined]. *)
Definition get_prop (v : JValue) (k : string) : Res JValue :=
  match v with
  | JUndefined | JNull => Raise TypeError
  | JObj props => Ok (assoc k props)
  | _ => Ok JUndefined
  end.

(** [v?.k]. *)
Definition get_opt (v : JValue) (k : string) : Res JValue :=
  match v with
  | JUndefined | JNull => Ok JUndefined
  | _ => get_prop v k
  end.

(** [o.k = v] on an object under construction. *)
Fixpoint set_assoc (k : string) (v : JValue) (props : list (string * JValue))
  : list (string * JValue) :=
  match props with
  | [] => [(k, v)]
  | (k', v') :: rest =>
      if String.eqb k k' then (k', v) :: rest
      else (k', v') :: set_assoc k v rest
  end.

Fixpoint chars (s : string) : list JValue :=
  match s with
  | EmptyString => []
  | String c s' => JStr (String c EmptyString) :: chars s'
  end.

(** The items [for (const x of v)] visits. *)
Definition iterate (v : JValue) : Res (list JValue) :=
  match v with
  | JArr xs => Ok xs
  | JStr s => Ok (chars s)
  | _ => Raise TypeError
  end.

(** The receiver of [.replace(...)]: only a string has the method. *)
Definition as_string (v : JValue) : Res string :=
  match v with
  | JStr s => Ok s
  | _ => Raise TypeError
  end.

End JS.
Export JS.

Declare Scope res_scope.
Delimit Scope res_scope with res.
Notation "'let?' x ':=' e 'in' k" := (bindR e (fun x => k))
  (at level 10, x name, e at level 100, k at level 200) : res_scope.

(** ** Regular expressions

    The fragment of ECMAScript regular expressions the pages use, with the
    backtracking matcher of the language: a greedy optional tries its body
    first, and a search tries the start positions from left to right. *)

Module Regex.

Inductive cclass : Type :=
| Digit   (* \d *)
| Space.  (* \s *)

Inductive regex : Type :=
| Chr (c : ascii)
| Cls (k : cclass)
| Seq (r1 r2 : regex)
| Opt (r : regex)               (* r?  *)
| Rep (n : nat) (r : regex)     (* r{n} *)
| Cap (i : nat) (r : regex)     (* the i-th capturing group *)
| NonCap (r : regex)            (* (?:r) *)
| EndOfInput.                   (* $ without the m flag *)

Definition is_digit (c : ascii) : bool :=
  let n := N_of_ascii c in ((48 <=? n) && (n <=? 57))%N.

(** WhiteSpace and LineTerminator code units below 256. *)
Definition is_space (c : ascii) : bool :=
  let n := N_of_ascii c in
  (((9 <=? n) && (n <=? 13)) || (n =? 32) || (n =? 160))%N.

Definition in_class (k : cclass) (c : ascii) : bool :=
  match k with
  | Digit => is_digit c
  | Space => is_space c
  end.

Definition Caps := list (nat * string).

Fixpoint cap_get (i : nat) (caps : Caps) : string :=
  match caps with
  | [] => ""
  | (j, s) :: rest => if Nat.eqb i j then s else cap_get i rest
  end.

(** The first [n] code units of [s]. *)
Fixpoint take_str (n : nat) (s : string) : string :=
  match n, s with
  | S n', String c s' => String c (take_str n' s')
  | _, _ => ""
  end.

(** What was consumed between input [s] and its suffix [s']. *)
Definition consumed (s s' : string) : string :=
  take_str (String.length s - String.length s') s.

(** [matches r s caps k]: match [r] at the head of [s], then continue
    with [k] on the rest; [None] makes the caller backtrack. *)
Fixpoint matches {R} (r : regex) (s : string) (caps : Caps)
    (k : string -> Caps -> option R) : option R :=
  match r with
  | Chr c =>
      match s with
      | String c' s' => if Ascii.eqb c c' then k s' caps else None
      | EmptyString => None
      end
  | Cls cl =>
      match s with
      | String c' s' => if in_class cl c' then k s' caps else None
      | EmptyString => None
      end
  | Seq r1 r2 =>
      matches r1 s caps (fun s' caps' => matches r2 s' caps' k)
  | Opt r1 =>
      match matches r1 s caps k with
      | Some x => Some x
      | None => k s caps
      end
  | Rep n r1 =>
      (fix rep (n : nat) (s : string) (caps : Caps) : option R :=
         match n with
         | O => k s caps
         | S n' => matches r1 s caps (fun s' caps' => rep n' s' caps')
         end) n s caps
  | Cap i r1 =>
      matches r1 s caps (fun s' caps' => k s' ((i, consumed s s') :: caps'))
  | NonCap r1 => matches r1 s caps k
  | EndOfInput =>
      match s with
      | EmptyString => k s caps
      | String _ _ => None
      end
  end.

(** A match at the head of [s]: the unmatched rest and the captures. *)
Definition match_here (r : regex) (s : string) : option (string * Caps) :=
  matches r s [] (fun rest caps => Some (rest, caps)).

(** Replacement patterns: literal text and [$n]. *)
Inductive titem : Type :=
| Lit (s : string)
| Group (i : nat).

Fixpoint expand (tpl : list titem) (caps : Caps) : string :=
  match tpl with
  | [] => ""
  | Lit s :: rest => s +:+ expand rest caps
  | Group i :: rest => cap_get i caps +:+ expand rest caps
  end.

(** [s.replace(r, tpl)] for a regex without the g flag: the leftmost
    match is replaced, the text around it is kept. *)
Fixpoint replace (r : regex) (tpl : list titem) (s : string) : string :=
  match match_here r s with
  | Some (rest, caps) => expand tpl caps +:+ rest
  | None =>
      match s with
      | EmptyString => ""
      | String c s' => String c (replace r tpl s')
      end
  end.

End Regex.
Export Regex.

(** ** The platform: fetch, console, clock, external libraries

    A handler is a tree of requests to the platform.  [run] plays it
    against a [World] that answers each request from the history so far,
    and records what the handler did. *)

Module Effects.

Inductive Method : Type := GET | POST.

(** The [body] option of fetch; the handlers only pass [JSON.stringify]
    of a value, kept here as that value. *)
Inductive Body : Type :=
| NoBody
| Stringify (v : JValue).

Record Request : Type := mkRequest {
  url : string;
  method : Method;
  headers : list (string * string);
  body : Body
}.

(** A fetch Response: the fields the handlers read, and what [json()]
    resolves to ([None]: the body is not JSON and [json()] rejects). *)
Record Response : Type := mkResponse {
  ok : bool;
  status : N;
  statusText : string;
  json : option JValue
}.

(** A time value, by the local calendar fields the code reads. *)
Record Date : Type := mkDate {
  getFullYear : Z;
  getMonth : Z;          (* 0 .. 11 *)
  getDate : Z;
  toLocaleTimeString : string;
  toISOString : string
}.

(** [new Date(year, month, day)]: years 0..99 mean 1900..1999 and the
    month index is carried into the year (MakeDay); [day] is taken as a day
    of that month, which holds for the 5 the handlers pass; the time of
    day is midnight and the ISO rendering, which no handler reads from such
    a date, is left empty.  The limit of the time range (year 275760) is
    not modelled. *)
Definition new_Date (year month day : Z) : Date :=
  let yr := if (0 <=? year) && (year <=? 99) then 1900 + year else year in
  {| getFullYear := yr + month / 12;
     getMonth := month mod 12;
     getDate := day;
     toLocaleTimeString := "12:00:00 AM";
     toISOString := "" |}.

(** [d.toLocaleDateString('en-US')]: month/day/year, no padding. *)
Definition toLocaleDateString_enUS (d : Date) : string :=
  pretty (getMonth d + 1) +:+ "/" +:+ pretty (getDate d) +:+ "/" +:+
  pretty (getFullYear d).

Inductive Event : Type :=
| EFetch (req : Request)
| ECall (name : string) (args : list JValue)
| ELog (level : string) (args : list JValue)
| EClock.

Record World : Type := mkWorld {
  fetch_reply : list Event -> Request -> Res Response;
  call_reply : list Event -> string -> list JValue -> Res JValue;
  clock : list Event -> Date
}.

Inductive Prog (S A : Type) : Type :=
| Ret (a : A)
| Throw (e : Exn)
| Fetch (req : Request) (k : Res Response -> Prog S A)
| Call (name : string) (args : list JValue) (k : Res JValue -> Prog S A)
| Log (level : string) (args : list JValue) (k : Prog S A)
| Clock (k : Date -> Prog S A)
| GetState (k : S -> Prog S A)
| SetState (s : S) (k : Prog S A).
Arguments Ret {S A} a.
Arguments Throw {S A} e.
Arguments Fetch {S A} req k.
Arguments Call {S A} name args k.
Arguments Log {S A} level args k.
Arguments Clock {S A} k.
Arguments GetState {S A} k.
Arguments SetState {S A} s k.

Fixpoint bind {S A B} (p : Prog S A) (f : A -> Prog S B) : Prog S B :=
  match p with
  | Ret a => f a
  | Throw e => Throw e
  | Fetch req k => Fetch req (fun r => bind (k r) f)
  | Call n args k => Call n args (fun r => bind (k r) f)
  | Log l args k => Log l args (bind k f)
  | Clock k => Clock (fun d => bind (k d) f)
  | GetState k => GetState (fun s => bind (k s) f)
  | SetState s k => SetState s (bind k f)
  end.

(** [try { p } catch (error) { h error }]. *)
Fixpoint try_catch {S A} (p : Prog S A) (h : Exn -> Prog S A) : Prog S A :=
  match p with
  | Ret a => Ret a
  | Throw e => h e
  | Fetch req k => Fetch req (fun r => try_catch (k r) h)
  | Call n args k => Call n args (fun r => try_catch (k r) h)
  | Log l args k => Log l args (try_catch k h)
  | Clock k => Clock (fun d => try_catch (k d) h)
  | GetState k => GetState (fun s => try_catch (k s) h)
  | SetState s k => SetState s (try_catch k h)
  end.

(** Run a program on a part [T] of the state [S]. *)
Fixpoint zoom {S T A} (get : S -> T) (set : T -> S -> S) (p : Prog T A)
  : Prog S A :=
  match p with
  | Ret a => Ret a
  | Throw e => Throw e
  | Fetch req k => Fetch req (fun r => zoom get set (k r))
  | Call n args k => Call n args (fun r => zoom get set (k r))
  | Log l args k => Log l args (zoom get set k)
  | Clock k => Clock (fun d => zoom get set (k d))
  | GetState k => GetState (fun s => zoom get set (k (get s)))
  | SetState t k => GetState (fun s => SetState (set t s) (zoom get set k))
  end.

Definition lift {S A} (r : Res A) : Prog S A :=
  match r with
  | Ok a => Ret a
  | Raise e => Throw e
  end.

(** [await fetch(url, options)]. *)
Definition fetch {S} (req : Request) : Prog S Response :=
  Fetch req lift.

(** [await result.json()]. *)
Definition response_json {S} (r : Response) : Prog S JValue :=
  match json r with
  | Some v => Ret v
  | None => Throw SyntaxError
  end.

(** A call into an external library, awaited or not: it returns or
    throws as the world decides. *)
Definition call {S} (name : string) (args : list JValue) : Prog S JValue :=
  Call name args lift.

(** A property assignment on an external object. *)
Definition assign {S} (name : string) (args : list JValue) : Prog S unit :=
  Call name args (fun _ => Ret tt).

Definition console_log {S} (args : list JValue) : Prog S unit :=
  Log "log" args (Ret tt).

Definition console_error {S} (args : list JValue) : Prog S unit :=
  Log "error" args (Ret tt).

(** [new Date()]. *)
Definition now {S} : Prog S Date := Clock Ret.

Definition modify {S} (f : S -> S) : Prog S unit :=
  GetState (fun s => SetState (f s) (Ret tt)).

Record Outcome (S A : Type) : Type := mkOutcome {
  trace : list Event;
  final : S;
  result : Res A
}.
Arguments mkOutcome {S A} trace final result.
Arguments trace {S A} o.
Arguments final {S A} o.
Arguments result {S A} o.

Fixpoint run {S A} (w : World) (p : Prog S A) (s : S) (tr : list Event)
  : Outcome S A :=
  match p with
  | Ret a => mkOutcome tr s (Ok a)
  | Throw e => mkOutcome tr s (Raise e)
  | Fetch req k => run w (k (fetch_reply w tr req)) s (tr ++ [EFetch req])
  | Call n args k => run w (k (call_reply w tr n args)) s (tr ++ [ECall n args])
  | Log l args k => run w k s (tr ++ [ELog l args])
  | Clock k => run w (k (clock w tr)) s (tr ++ [EClock])
  | GetState k => run w (k s) s tr
  | SetState s' k => run w k s' tr
  end.

(** The HTTP requests of a trace, in order. *)
Fixpoint requests (tr : list Event) : list Request :=
  match tr with
  | [] => []
  | EFetch req :: tr' => req :: requests tr'
  | _ :: tr' => requests tr'
  end.

End Effects.
Export Effects.

Declare Scope prog_scope.
Delimit Scope prog_scope with prog.
Notation "'let*' x ':=' e 'in' k" := (bind e (fun x => k))
  (at level 10, x name, e at level 100, k at level 200) : prog_scope.
Notation "e ';;' k" := (bind e (fun _ => k))
  (at level 100, k at level 200, right associativity) : prog_scope.

(** ** formatPhoneNumber (ConsolePage.tsx 373-377, Main.tsx 586-590) *)

(** [/(?:\+?55)?(\d{9})$/] *)
Definition phone_regex : regex :=
  Seq (Opt (NonCap (Seq (Opt (Chr "+")) (Seq (Chr "5") (Chr "5")))))
      (Seq (Cap 1 (Rep 9 (Cls Digit))) EndOfInput).

Definition formatPhoneNumber (phone : string) : string :=
  let regex := phone_regex in
  let match_ := replace regex [Group 1] phone in
  match_.

(** ** The tools (ConsolePage.tsx 399-732, Main.tsx 190-517)

    Both pages register the same six handlers; the only difference is that
    ConsolePage's [get_user_data] also stores the rows in the page state
    ([setuserData]).  A handler is applied to arguments of its declared
    schema, which are strings. *)

Module Tools.

Local Open Scope prog_scope.

(** The prefix of the error message, as Main.tsx has it (lines 284, 362,
    448): 'Erro na requisição: '. *)
Definition main_erro_na_requisicao : string :=
  "Erro na requisi" +:+ cu 231 +:+ cu 227 +:+ "o: ".

(** The same prefix as ConsolePage.tsx has it (lines 493, 577, 663): the
    two accented letters are the code units 0xCE5E and 0xCE5A there. *)
Definition console_erro_na_requisicao : string :=
  "Erro na requisi" +:+ cu16 52830 +:+ cu16 52826 +:+ "o: ".

(** The text sent with the one-time code, as Main.tsx has it (line 224). *)
Definition main_otp_message (token : string) : string :=
  "Seu c" +:+ cu 243 +:+ "digo de verifica" +:+ cu 231 +:+ cu 227 +:+
  "o para se autenticar na Sindy " +:+ cu 233 +:+ " " +:+ token +:+
  ". N" +:+ cu 227 +:+ "o compartilhe-o com ningu" +:+ cu 233 +:+ "m.".

(** The same text as ConsolePage.tsx has it (line 433), each accented
    letter one code unit above 255. *)
Definition console_otp_message (token : string) : string :=
  "Seu c" +:+ cu16 52841 +:+ "digo de verifica" +:+ cu16 52830 +:+
  cu16 52826 +:+ "o para se autenticar na Sindy " +:+ cu16 52832 +:+ " " +:+
  token +:+ ". N" +:+ cu16 52826 +:+ "o compartilhe-o com ningu" +:+
  cu16 52832 +:+ "m.".

Definition superlogica_headers : list (string * string) :=
  [("app_token", "6e5ac688-a65e-4f4f-a974-f532a12959dd");
   ("access_token", "e591a511-83c8-43eb-a7d2-71933d7fb6fd")].

(** [/\s\d{2}:\d{2}:\d{2}/] *)
Definition time_regex : regex :=
  Seq (Cls Space)
    (Seq (Rep 2 (Cls Digit))
       (Seq (Chr ":") (Seq (Rep 2 (Cls Digit))
          (Seq (Chr ":") (Rep 2 (Cls Digit)))))).

(** [/(\d{2})\/(\d{2})\/(\d{4})/] *)
Definition date_regex : regex :=
  Seq (Cap 1 (Rep 2 (Cls Digit)))
    (Seq (Chr "/") (Seq (Cap 2 (Rep 2 (Cls Digit)))
       (Seq (Chr "/") (Cap 3 (Rep 4 (Cls Digit)))))).

(** [s.replace(/\s\d{2}:\d{2}:\d{2}/, '')
      .replace(/(\d{2})\/(\d{2})\/(\d{4})/, '$2/$1/$3')] *)
Definition format_date (s : string) : string :=
  replace date_regex [Group 2; Lit "/"; Group 1; Lit "/"; Group 3]
    (replace time_regex [] s).

Section Handlers.

Context {S : Type}.

(** What [get_user_data] does with the rows besides returning them:
    [setuserData] in ConsolePage, nothing in Main. *)
Variable store_rows : JValue -> Prog S unit.

(** The two literals in which the pages differ: the prefix of the error
    message and the text that carries the one-time code. *)
Variable erro_na_requisicao : string.
Variable otp_message : string -> string.

Definition generate_token (phone token : string) : Prog S JValue :=
  let url := "https://api.z-api.io/instances/3CEEA0A6BCD2D0E49FB9D6E96DCD545E/token/ECF5B6F24C278CF3BFB55D3C/send-button-otp" in
  let headers :=
    [("accept", "*/*");
     ("client-token", "F141ea19bb9ca40c981694b3c825d73f6S");
     ("Content-Type", "application/json")] in
  let body :=
    Stringify (JObj [("phone", JStr phone);
                     ("message", JStr (otp_message token));
                     ("code", JStr token)]) in
  let* result := fetch (mkRequest url POST headers body) in
  if negb (ok result) then
    Throw (Error ("Erro ao enviar OTP: " +:+ pretty (status result) +:+ " " +:+
                  statusText result))
  else
    let* json := response_json result in
    console_log [JStr "OTP enviado com sucesso:"; json] ;;
    Ret (JStr "").

(** One row of [get_user_data]. *)
Definition cond_of (telformatado : string) (item : JValue) : Res JValue :=
  (let? nome_condominio := get_prop item "st_fantasia_cond" in
   let? cpf_proprietario := get_prop item "cpf_proprietario" in
   let? email_proprietario := get_prop item "email_proprietario" in
   let? unidade_apartamento := get_prop item "st_unidade_uni" in
   let? id_unidade := get_prop item "id_unidade_uni" in
   let? id_condominio := get_prop item "id_condominio_cond" in
   Ok (JObj [("nome_condominio", nome_condominio);
             ("cpf_proprietario", cpf_proprietario);
             ("email_proprietario", email_proprietario);
             ("unidade_apartamento", unidade_apartamento);
             ("id_unidade", id_unidade);
             ("id_condominio", id_condominio);
             ("telefone", JStr telformatado)]))%res.

Definition get_user_data_url (telformatado : string) : string :=
  "https://api.superlogica.net/v2/condor/unidades/index?" +:+
  "idCondominio=-1&" +:+
  "exibirGruposDasUnidades=0&" +:+
  "itensPorPagina=50&" +:+
  "pagina=1&" +:+
  "exibirDadosDosContatos=1&" +:+
  "pesquisa=" +:+ telformatado.

Definition get_user_data (phone : string) : Prog S JValue :=
  let telformatado := formatPhoneNumber phone in
  let url := get_user_data_url telformatado in
  let headers := superlogica_headers in
  let* result := fetch (mkRequest url GET headers NoBody) in
  if negb (ok result) then
    Throw (Error (erro_na_requisicao +:+ pretty (status result) +:+ " " +:+
                  statusText result))
  else
    let* json := response_json result in
    console_log [JStr "Dados recebidos:"; json] ;;
    let* arrconds :=
      lift (let? items := iterate json in mapR (cond_of telformatado) items)%res in
    store_rows (JArr arrconds) ;;
    Ret (JObj [("data", JArr arrconds)]).

(** [item.json.k] *)
Definition item_json (item : JValue) (k : string) : Res JValue :=
  (let? j := get_prop item "json" in get_prop j k)%res.

(** [v.replace(...).replace(...)] on a field that has to be a string. *)
Definition date_field (v : JValue) : Res JValue :=
  (let? s := as_string v in Ok (JStr (format_date s)))%res.

(** One turn of the loop of [get_payment_link]: the row pushed, if any. *)
Definition cobranca_of (item : JValue) : Res (option JValue) :=
  (let? st := item_json item "status" in
   if negb (strict_eq st JUndefined) then
     let cobranca := [] in
     let? dt_geracao_recb := item_json item "dt_geracao_recb" in
     let? data_boleto := date_field dt_geracao_recb in
     let cobranca := set_assoc "data_boleto" data_boleto cobranca in
     let? dt_vencimento_recb := item_json item "dt_vencimento_recb" in
     let? vencimento := date_field dt_vencimento_recb in
     let cobranca := set_assoc "vencimento" vencimento cobranca in
     let? vl_emitido_recb := item_json item "vl_emitido_recb" in
     let cobranca := set_assoc "valor" vl_emitido_recb cobranca in
     let? nm_txjuros_cond := item_json item "nm_txjuros_cond" in
     let cobranca :=
       if negb (strict_eq nm_txjuros_cond (JStr ""))
       then set_assoc "juros" nm_txjuros_cond cobranca else cobranca in
     let? nm_txmulta_cond := item_json item "nm_txmulta_cond" in
     let cobranca :=
       if negb (strict_eq nm_txmulta_cond (JStr ""))
       then set_assoc "multa" nm_txmulta_cond cobranca else cobranca in
     let? fl_status_recb := item_json item "fl_status_recb" in
     let cobranca :=
       if negb (strict_eq fl_status_recb (JStr ""))
       then set_assoc "status"
              (if strict_eq fl_status_recb (JStr "3")
               then JStr "Pago" else JStr "Pendente") cobranca
       else cobranca in
     let? vl_total_recb := item_json item "vl_total_recb" in
     let cobranca := set_assoc "total" vl_total_recb cobranca in
     let? st_pixqrcode_recb := item_json item "st_pixqrcode_recb" in
     let cobranca := set_assoc "pix" st_pixqrcode_recb cobranca in
     let? link_segundavia := item_json item "link_segundavia" in
     let cobranca := set_assoc "link" link_segundavia cobranca in
     Ok (Some (JObj cobranca))
   else Ok None)%res.

(** The whole loop: the rows pushed, in order. *)
Fixpoint cobrancas (items : list JValue) : Res (list JValue) :=
  match items with
  | [] => Ok []
  | item :: rest =>
      (let? c := cobranca_of item in
       let? cs := cobrancas rest in
       Ok (match c with Some row => row :: cs | None => cs end))%res
  end.

Definition get_payment_link_url (id_condominio dtInicio dtFim id_unidade : string)
  : string :=
  "https://api.superlogica.net/v2/condor/cobranca/index?" +:+
  "status=validos&" +:+
  "apenasColunasPrincipais=1&" +:+
  "exibirPgtoComDiferenca=1&" +:+
  "comContatosDaUnidade=1&" +:+
  "idCondominio=" +:+ id_condominio +:+ "&" +:+
  "dtInicio=" +:+ dtInicio +:+ "&" +:+
  "dtFim=" +:+ dtFim +:+ "&" +:+
  "UNIDADES[0]=" +:+ id_unidade.

Definition get_payment_link (phone id_condominio id_unidade : string)
  : Prog S JValue :=
  let telformatado := formatPhoneNumber phone in
  let* d1 := now in
  let* d2 := now in
  let dtInicio :=
    toLocaleDateString_enUS (new_Date (getFullYear d1) (getMonth d2 - 2) 5) in
  let* d3 := now in
  let* d4 := now in
  let dtFim :=
    toLocaleDateString_enUS (new_Date (getFullYear d3) (getMonth d4 + 1) 5) in
  let url := get_payment_link_url id_condominio dtInicio dtFim id_unidade in
  let headers := superlogica_headers in
  let* result := fetch (mkRequest url GET headers NoBody) in
  if negb (ok result) then
    Throw (Error (erro_na_requisicao +:+ pretty (status result) +:+ " " +:+
                  statusText result))
  else
    let* json := response_json result in
    console_log [JStr "Dados recebidos:"; json] ;;
    let* arrCobrancas :=
      lift (let? items := iterate json in cobrancas items)%res in
    Ret (JObj [("data", JArr arrCobrancas)]).

(** One row of [get_contacts]. *)
Definition contato_of (item : JValue) : Res JValue :=
  (let contato := [] in
   let? st_nome_con := get_prop item "st_nome_con" in
   let contato := set_assoc "nome" st_nome_con contato in
   let? st_nometiporesp_tres := get_prop item "st_nometiporesp_tres" in
   let contato := set_assoc "tipo" st_nometiporesp_tres contato in
   let? st_telefone_con := get_prop item "st_telefone_con" in
   let? telefone :=
     if truthy st_telefone_con then get_prop item "st_telefone_con"
     else
       let? st_fax_con := get_prop item "st_fax_con" in
       if truthy st_fax_con then get_prop item "st_fax_con"
       else Ok (JStr "") in
   let contato := set_assoc "telefone" telefone contato in
   let? st_cpf_con := get_prop item "st_cpf_con" in
   let contato := set_assoc "cpf" st_cpf_con contato in
   Ok (JObj contato))%res.

Definition get_contacts_url (id_condominio telformatado : string) : string :=
  "https://api.superlogica.net/v2/condor/unidades/index?" +:+
  "idCondominio=" +:+ id_condominio +:+ "&" +:+
  "exibirGruposDasUnidades=0&" +:+
  "itensPorPagina=50&" +:+
  "pagina=1&" +:+
  "exibirDadosDosContatos=1&" +:+
  "pesquisa=" +:+ telformatado.

Definition get_contacts (phone id_condominio : string) : Prog S JValue :=
  let telformatado := formatPhoneNumber phone in
  let url := get_contacts_url id_condominio telformatado in
  let headers := superlogica_headers in
  let* result := fetch (mkRequest url GET headers NoBody) in
  if negb (ok result) then
    Throw (Error (erro_na_requisicao +:+ pretty (status result) +:+ " " +:+
                  statusText result))
  else
    let* json := response_json result in
    console_log [JStr "Dados recebidos:"; json] ;;
    let* arrContatos :=
      lift (let? contatos := get_prop json "contatos" in
            let? items := iterate contatos in
            mapR contato_of items)%res in
    Ret (JObj [("data", JArr arrContatos)]).

(** "Esta função invoca uma api externa": the handler is [async () => ""]. *)
Definition get_llmbuilder : Prog S JValue :=
  Ret (JStr "").

(** "Set fluxo no baserow para transbordo de atendimento": the handler is
    [async () => ""]. *)
Definition requestAssistance : Prog S JValue :=
  Ret (JStr "").

(** A call of a registered tool with arguments of its schema. *)
Inductive ToolCall : Type :=
| Call_generate_token (token phone : string)
| Call_get_user_data (phone : string)
| Call_get_payment_link (phone id_condominio id_unidade : string)
| Call_get_contacts (phone id_condominio : string)
| Call_get_llmbuilder (phone condomino : string)
| Call_requestAssistance (phone : string).

Definition tool_name (c : ToolCall) : string :=
  match c with
  | Call_generate_token _ _ => "generate_token"
  | Call_get_user_data _ => "get_user_data"
  | Call_get_payment_link _ _ _ => "get_payment_link"
  | Call_get_contacts _ _ => "get_contacts"
  | Call_get_llmbuilder _ _ => "get_llmbuilder"
  | Call_requestAssistance _ => "requestAssistance"
  end.

(** The handler [client.addTool] registered under that name, applied. *)
Definition handler (c : ToolCall) : Prog S JValue :=
  match c with
  | Call_generate_token token phone => generate_token phone token
  | Call_get_user_data phone => get_user_data phone
  | Call_get_payment_link phone id_condominio id_unidade =>
      get_payment_link phone id_condominio id_unidade
  | Call_get_contacts phone id_condominio => get_contacts phone id_condominio
  | Call_get_llmbuilder _ _ => get_llmbuilder
  | Call_requestAssistance _ => requestAssistance
  end.

End Handlers.

End Tools.
Export Tools.

(** ** The event log (ConsolePage.tsx 739-750, Main.tsx 524-541)

    The entries of [realtimeEvents] are objects shared between successive
    arrays: the handler updates the last one in place.  They live in a
    store and the arrays hold references. *)

Module EventLog.

Abbreviation loc := N (only parsing).

(** [interface RealtimeEvent].  [count] holds a number of events, an
    integer in the range where [+ 1] is exact. *)
Record RealtimeEvent : Type := mkRealtimeEvent {
  time : string;
  source : string;
  count : option N;
  event : JValue
}.

Abbreviation Store := (gmap loc RealtimeEvent) (only parsing).

(** A reference always leads to an object in JavaScript; the model stops
    on one that does not. *)
Definition deref (h : Store) (l : loc) : Res RealtimeEvent :=
  match h !! l with
  | Some e => Ok e
  | None => Raise (Foreign "model" "dangling reference")
  end.

(** [realtimeEvents[realtimeEvents.length - 1]] *)
Definition last_ref (realtimeEvents : list loc) : option loc :=
  last realtimeEvents.

(** [realtimeEvents.slice(0, -1)] *)
Definition slice_0_m1 (realtimeEvents : list loc) : list loc :=
  removelast realtimeEvents.

(** [(lastEvent.count || 0) + 1] *)
Definition next_count (c : option N) : N :=
  (match c with
   | Some n => if (n =? 0)%N then 0 else n
   | None => 0
   end + 1)%N.

Definition set_count (e : RealtimeEvent) (c : N) : RealtimeEvent :=
  {| time := time e; source := source e; count := Some c; event := event e |}.

(** The function passed to [setRealtimeEvents]. *)
Definition log_event (realtimeEvent : loc) (h : Store)
    (realtimeEvents : list loc) : Res (Store * list loc) :=
  (let lastEvent := last_ref realtimeEvents in
   let? last_type :=
     match lastEvent with
     | None => Ok JUndefined                         (* lastEvent?. *)
     | Some l => let? e := deref h l in get_prop (event e) "type"
     end in
   let? incoming := deref h realtimeEvent in
   let? type := get_prop (event incoming) "type" in
   if strict_eq last_type type then
     match lastEvent with
     | None => Raise TypeError                       (* lastEvent.count = ... *)
     | Some l =>
         let? e := deref h l in
         let h' := <[l := set_count e (next_count (count e))]> h in
         Ok (h', slice_0_m1 realtimeEvents ++ [l])
     end
   else Ok (h, realtimeEvents ++ [realtimeEvent]))%res.

(** What Main.tsx does before logging: report a failed response. *)
Definition report_failed_response {S} (h : Store) (realtimeEvent : loc)
  : Prog S unit :=
  (let* ev := lift (deref h realtimeEvent) in
   let* type := lift (get_prop (event ev) "type") in
   if loose_eq_lit type "response.done" then
     let* response := lift (get_prop (event ev) "response") in
     let* status := lift (get_opt response "status") in
     if loose_eq_lit status "failed" then
       let* message :=
         lift (let? status_details := get_opt response "status_details" in
               match status_details with
               | JUndefined | JNull => Ok JUndefined
               | _ =>
                   let? error := get_prop status_details "error" in
                   get_prop error "message"
               end)%res in
       console_error [message]
     else Ret tt
   else Ret tt)%prog.

(** A page as React holds it: mounted with its state, or unmounted after
    a render threw [e].  React runs the function passed to a state setter
    when it next renders the component, not in the handler that called the
    setter; the pages have no error boundary, so an error thrown there
    makes React unmount the whole page. *)
Inductive Mount (S : Type) : Type :=
| Mounted (s : S)
| Unmounted (e : Exn).
Arguments Mounted {S} s.
Arguments Unmounted {S} e.

(** The event types of the entries, in order. *)
Definition entry_type (h : Store) (l : loc) : JValue :=
  match (let? e := deref h l in get_prop (event e) "type")%res with
  | Ok t => t
  | Raise _ => JUndefined
  end.

(** No two consecutive entries have the same [event.type]. *)
Fixpoint no_repeat (types : list JValue) : Prop :=
  match types with
  | [] => True
  | t :: rest =>
      match rest with
      | [] => True
      | t' :: _ => strict_eq t t' = false
      end /\ no_repeat rest
  end.

End EventLog.
Export EventLog.

(** ** The avatar hook (utils/heygen) *)

Module Heygen.

Local Open Scope prog_scope.

(** The [current] of the three refs of the hook. *)
Record Refs : Type := mkRefs {
  sessionInfoRef : JValue;
  peerConnectionRef : JValue;
  mediaElementRef : JValue
}.

Definition initial_refs : Refs := mkRefs JNull JNull JNull.

Definition set_sessionInfoRef (v : JValue) (r : Refs) : Refs :=
  mkRefs v (peerConnectionRef r) (mediaElementRef r).

Definition set_peerConnectionRef (v : JValue) (r : Refs) : Refs :=
  mkRefs (sessionInfoRef r) v (mediaElementRef r).

Definition set_mediaElementRef (v : JValue) (r : Refs) : Refs :=
  mkRefs (sessionInfoRef r) (peerConnectionRef r) v.

(** The ref object itself, as the tests [!sessionInfoRef] see it. *)
Definition ref_object (current : JValue) : JValue :=
  JObj [("current", current)].

(** [obj.m(args)] on an object of the browser: a TypeError when [obj] is
    null or undefined, else whatever the method does. *)
Definition invoke {S} (obj : JValue) (name : string) (args : list JValue)
  : Prog S JValue :=
  match obj with
  | JUndefined | JNull => Throw TypeError
  | _ => call name (obj :: args)
  end.

(** The error object, as it is logged. *)
Definition error_object (e : Exn) : JValue :=
  JObj [("message", JStr (exn_message e))].

Section Hook.

Variables apiKey serverUrl : string.

Definition avatarID : string := "336b72634e644335ad40bd56462fc780".
Definition voiceID : string := "613f8304431144918ed6a83d4b3e3196".

Definition api_headers : list (string * string) :=
  [("Content-Type", "application/json"); ("X-Api-Key", apiKey)].

Definition heygenUpdateStatus (message : string) : Prog Refs unit :=
  let* d := now in
  let timestamp := toLocaleTimeString d in
  console_log [JStr ("[" +:+ timestamp +:+ "] " +:+ message)].

Definition heygenCreateNewSession : Prog Refs unit :=
  try_catch
    (let* response :=
       fetch (mkRequest (serverUrl +:+ "/v1/streaming.new") POST api_headers
                (Stringify
                   (JObj [("quality", JStr "high");
                          ("avatar_name", JStr avatarID);
                          ("voice", JObj [("voice_id", JStr voiceID)]);
                          ("background", JObj [("type", JStr "color");
                                               ("value", JStr "#FAFAFA")])]))) in
     let* data := response_json response in
     let* data_data := lift (get_prop data "data") in
     modify (set_sessionInfoRef data_data) ;;
     let* serverSdp := lift (get_prop data_data "sdp") in
     let* iceServers := lift (get_prop data_data "ice_servers2") in
     let* pc := call "new RTCPeerConnection" [JObj [("iceServers", iceServers)]] in
     assign "pc.ontrack =" [pc] ;;
     let* description := call "new RTCSessionDescription" [serverSdp] in
     invoke pc "setRemoteDescription" [description] ;;
     modify (set_peerConnectionRef pc) ;;
     heygenUpdateStatus "Session created successfully")
    (fun error =>
       heygenUpdateStatus ("Error creating session: " +:+ exn_message error)).

Definition heygenHandleICE (session_id : JValue) (candidate : JValue)
  : Prog Refs unit :=
  try_catch
    (fetch (mkRequest (serverUrl +:+ "/v1/streaming.ice") POST api_headers
              (Stringify (JObj [("session_id", session_id);
                                ("candidate", candidate)]))) ;;
     Ret tt)
    (fun error =>
       heygenUpdateStatus ("Error handling ICE candidate: " +:+ exn_message error)).

Definition heygenStartStreamingSession : Prog Refs unit :=
  let* refs := GetState Ret in
  if negb (truthy (ref_object (peerConnectionRef refs)))
     || negb (truthy (ref_object (sessionInfoRef refs)))
  then Ret tt
  else
    try_catch
      (let* refs := GetState Ret in
       let* localDescription :=
         invoke (peerConnectionRef refs) "createAnswer" [] in
       invoke (peerConnectionRef refs) "setLocalDescription" [localDescription] ;;
       assign "pc.onicecandidate =" [peerConnectionRef refs] ;;
       assign "pc.oniceconnectionstatechange =" [peerConnectionRef refs] ;;
       let* refs := GetState Ret in
       let* session_id := lift (get_prop (sessionInfoRef refs) "session_id") in
       fetch (mkRequest (serverUrl +:+ "/v1/streaming.start") POST api_headers
                (Stringify (JObj [("session_id", session_id);
                                  ("sdp", localDescription)]))) ;;
       heygenUpdateStatus "Streaming started successfully")
      (fun error =>
         heygenUpdateStatus ("Error starting streaming: " +:+ exn_message error)).

Definition heygenSendText (texto : string) : Prog Refs unit :=
  let* refs := GetState Ret in
  if negb (truthy (ref_object (sessionInfoRef refs))) then
    heygenUpdateStatus "No active session"
  else if (String.length texto =? 0)%nat then
    heygenUpdateStatus "No message to be sent"
  else
    try_catch
      (let* refs := GetState Ret in
       let* session_id := lift (get_prop (sessionInfoRef refs) "session_id") in
       fetch (mkRequest (serverUrl +:+ "/v1/streaming.task") POST api_headers
                (Stringify (JObj [("session_id", session_id);
                                  ("text", JStr texto)]))) ;;
       heygenUpdateStatus ("Sent text: " +:+ texto))
      (fun error =>
         heygenUpdateStatus ("Error sending text: " +:+ exn_message error)).

Definition heygenCloseSession : Prog Refs unit :=
  let* refs := GetState Ret in
  if negb (truthy (ref_object (sessionInfoRef refs))) then Ret tt
  else
    try_catch
      (let* refs := GetState Ret in
       let* session_id := lift (get_prop (sessionInfoRef refs) "session_id") in
       fetch (mkRequest (serverUrl +:+ "/v1/streaming.stop") POST api_headers
                (Stringify (JObj [("session_id", session_id)]))) ;;
       let* refs := GetState Ret in
       match peerConnectionRef refs with
       | JUndefined | JNull => Ret tt
       | pc => call "close" [pc] ;; Ret tt
       end ;;
       modify (set_peerConnectionRef JNull) ;;
       modify (set_sessionInfoRef JNull) ;;
       let* refs := GetState Ret in
       (if truthy (mediaElementRef refs)
        then assign "srcObject =" [mediaElementRef refs; JNull]
        else Ret tt) ;;
       heygenUpdateStatus "Session closed")
      (fun error =>
         heygenUpdateStatus ("Error closing session: " +:+ exn_message error)).

Definition heygenStart : Prog Refs unit :=
  try_catch
    (heygenCreateNewSession ;; heygenStartStreamingSession)
    (fun err =>
       console_error [JStr "Error starting session:"; error_object err] ;;
       heygenUpdateStatus ("Error: " +:+ exn_message err)).

Definition heygenEnd : Prog Refs unit :=
  try_catch
    heygenCloseSession
    (fun err =>
       console_error [JStr "Error starting session:"; error_object err] ;;
       heygenUpdateStatus ("Error: " +:+ exn_message err)).

End Hook.

(** Which ref the hook hands out. *)
Inductive RefName : Type := MediaElementRef.

(** What [useHeygen] returns. *)
Record Hook : Type := mkHook {
  hook_heygenStart : Prog Refs unit;
  hook_heygenEnd : Prog Refs unit;
  hook_heygenSendText : string -> Prog Refs unit;
  hook_mediaElementRef : RefName
}.

Definition useHeygen (apiKey serverUrl : string) : Res Hook :=
  if negb (truthy (JStr apiKey)) || negb (truthy (JStr serverUrl)) then
    Raise (Error "Heygen -> Both apiKey and serverUrl are required.")
  else
    Ok {| hook_heygenStart := heygenStart apiKey serverUrl;
          hook_heygenEnd := heygenEnd apiKey serverUrl;
          hook_heygenSendText := heygenSendText apiKey serverUrl;
          hook_mediaElementRef := MediaElementRef |}.

End Heygen.
Export Heygen.

(** ** ConsolePage.tsx: page state, connect and disconnect *)

Module ConsolePage.

Local Open Scope prog_scope.

(** The [useState] cells of the page, the store of event objects and
    [startTimeRef.current]. *)
Record State : Type := mkState {
  heap : Store;
  items : JValue;
  realtimeEvents : list loc;
  expandedEvents : gmap string bool;
  isConnected : bool;
  canPushToTalk : bool;
  isRecording : bool;
  memoryKv : gmap string JValue;
  coords : JValue;
  marker : JValue;
  userData : gmap string JValue;
  startTimeRef : string
}.

Definition initial (startTime : string) : State :=
  {| heap := ∅;
     items := JArr [];
     realtimeEvents := [];
     expandedEvents := ∅;
     isConnected := false;
     canPushToTalk := true;
     isRecording := false;
     memoryKv := ∅;
     coords := JObj [("lat", JNum 37.775593); ("lng", JNum (-122.418137))];
     marker := JNull;
     userData := ∅;
     startTimeRef := startTime |}.

Definition setIsConnected (b : bool) (s : State) : State :=
  mkState (heap s) (items s) (realtimeEvents s) (expandedEvents s) b
    (canPushToTalk s) (isRecording s) (memoryKv s) (coords s) (marker s)
    (userData s) (startTimeRef s).

Definition setRealtimeEvents (h : Store) (evs : list loc) (s : State) : State :=
  mkState h (items s) evs (expandedEvents s) (isConnected s)
    (canPushToTalk s) (isRecording s) (memoryKv s) (coords s) (marker s)
    (userData s) (startTimeRef s).

Definition setItems (v : JValue) (s : State) : State :=
  mkState (heap s) v (realtimeEvents s) (expandedEvents s) (isConnected s)
    (canPushToTalk s) (isRecording s) (memoryKv s) (coords s) (marker s)
    (userData s) (startTimeRef s).

Definition setuserData (f : gmap string JValue -> gmap string JValue)
    (s : State) : State :=
  mkState (heap s) (items s) (realtimeEvents s) (expandedEvents s)
    (isConnected s) (canPushToTalk s) (isRecording s) (memoryKv s) (coords s)
    (marker s) (f (userData s)) (startTimeRef s).

Definition set_startTimeRef (t : string) (s : State) : State :=
  mkState (heap s) (items s) (realtimeEvents s) (expandedEvents s)
    (isConnected s) (canPushToTalk s) (isRecording s) (memoryKv s) (coords s)
    (marker s) (userData s) t.

Definition connectConversation : Prog State unit :=
  let* d := now in
  modify (set_startTimeRef (toISOString d)) ;;
  modify (setIsConnected true) ;;
  GetState (fun s => SetState (setRealtimeEvents (heap s) [] s) (Ret tt)) ;;
  let* its := call "client.conversation.getItems" [] in
  modify (setItems its) ;;
  call "wavRecorder.begin" [] ;;
  call "wavStreamPlayer.connect" [] ;;
  call "client.connect" [] ;;
  call "client.sendUserMessageContent"
    [JArr [JObj [("type", JStr "input_text");
                 ("text", JStr ("Ol" +:+ cu16 52824 +:+ "!"))]]] ;;
  let* turn := call "client.getTurnDetectionType" [] in
  if strict_eq turn (JStr "server_vad") then
    call "wavRecorder.record" [] ;; Ret tt
  else Ret tt.

Definition disconnectConversation : Prog State unit :=
  modify (setIsConnected false) ;;
  GetState (fun s => SetState (setRealtimeEvents (heap s) [] s) (Ret tt)) ;;
  modify (setItems (JArr [])) ;;
  call "client.disconnect" [] ;;
  call "wavRecorder.end" [] ;;
  call "wavStreamPlayer.interrupt" [] ;;
  Ret tt.

(** [setuserData((prev) => ({...prev, phone: arrconds}))] *)
Definition store_rows (arrconds : JValue) : Prog State unit :=
  modify (setuserData (fun prev => <["phone" := arrconds]> prev)).

(** React applies the update that [setRealtimeEvents] was given: the new
    state when the updater returns, the page unmounted when it throws. *)
Definition apply_log_update (realtimeEvent : loc) (s : State) : Mount State :=
  match log_event realtimeEvent (heap s) (realtimeEvents s) with
  | Ok (h', evs') => Mounted (setRealtimeEvents h' evs' s)
  | Raise e => Unmounted e
  end.

(** [client.on('realtime.event', ...)], on the page as React holds it.
    The handler hands the updater to [setRealtimeEvents] and returns; the
    state it leaves is the one React has after applying the update.  On a
    page that is gone a state setter does nothing. *)
Definition on_realtime_event (realtimeEvent : loc)
  : Prog (Mount State) unit :=
  GetState (fun page =>
    match page with
    | Mounted s => SetState (apply_log_update realtimeEvent s) (Ret tt)
    | Unmounted _ => Ret tt
    end).

(** The tools as this page registers them. *)
Definition tool (c : ToolCall) : Prog State JValue :=
  handler store_rows console_erro_na_requisicao console_otp_message c.

End ConsolePage.

(** ** Main.tsx: page state, connect and disconnect *)

Module Main.

Local Open Scope prog_scope.

(** The [useState] cells of the page, the store of event objects and the
    refs of the avatar hook. *)
Record State : Type := mkState {
  heap : Store;
  items : JValue;
  realtimeEvents : list loc;
  expandedEvents : gmap string bool;
  isConnected : bool;
  canPushToTalk : bool;
  isRecording : bool;
  isVideoLoaded : bool;
  heygen : Refs
}.

Definition initial : State :=
  {| heap := ∅;
     items := JArr [];
     realtimeEvents := [];
     expandedEvents := ∅;
     isConnected := false;
     canPushToTalk := true;
     isRecording := false;
     isVideoLoaded := false;
     heygen := initial_refs |}.

Definition setIsConnected (b : bool) (s : State) : State :=
  mkState (heap s) (items s) (realtimeEvents s) (expandedEvents s) b
    (canPushToTalk s) (isRecording s) (isVideoLoaded s) (heygen s).

Definition setRealtimeEvents (h : Store) (evs : list loc) (s : State) : State :=
  mkState h (items s) evs (expandedEvents s) (isConnected s)
    (canPushToTalk s) (isRecording s) (isVideoLoaded s) (heygen s).

Definition setItems (v : JValue) (s : State) : State :=
  mkState (heap s) v (realtimeEvents s) (expandedEvents s) (isConnected s)
    (canPushToTalk s) (isRecording s) (isVideoLoaded s) (heygen s).

Definition setIsVideoLoaded (b : bool) (s : State) : State :=
  mkState (heap s) (items s) (realtimeEvents s) (expandedEvents s)
    (isConnected s) (canPushToTalk s) (isRecording s) b (heygen s).

Definition set_heygen (r : Refs) (s : State) : State :=
  mkState (heap s) (items s) (realtimeEvents s) (expandedEvents s)
    (isConnected s) (canPushToTalk s) (isRecording s) (isVideoLoaded s) r.

Section Page.

(** The hook the page obtained from [useHeygen]. *)
Variable hook : Hook.

Definition heygenStart : Prog State unit :=
  zoom heygen set_heygen (hook_heygenStart hook).

Definition heygenEnd : Prog State unit :=
  zoom heygen set_heygen (hook_heygenEnd hook).

Definition heygenSendText (texto : string) : Prog State unit :=
  zoom heygen set_heygen (hook_heygenSendText hook texto).

Definition connectConversation : Prog State unit :=
  console_log [JStr "Conectando a OpenAI realtime API..."] ;;
  modify (setIsConnected true) ;;
  GetState (fun s => SetState (setRealtimeEvents (heap s) [] s) (Ret tt)) ;;
  let* its := call "client.conversation.getItems" [] in
  modify (setItems its) ;;
  call "wavRecorder.begin" [] ;;
  heygenStart ;;
  call "client.connect" [] ;;
  call "client.sendUserMessageContent"
    [JArr [JObj [("type", JStr "input_text");
                 ("text", JStr ("Ol" +:+ cu 225 +:+ "!"))]]] ;;
  let* turn := call "client.getTurnDetectionType" [] in
  if strict_eq turn (JStr "server_vad") then
    call "wavRecorder.record" [] ;; Ret tt
  else Ret tt.

Definition disconnectConversation : Prog State unit :=
  console_log [JStr "Desconectando a OpenAI realtime API..."] ;;
  modify (setIsConnected false) ;;
  GetState (fun s => SetState (setRealtimeEvents (heap s) [] s) (Ret tt)) ;;
  modify (setItems (JArr [])) ;;
  heygenEnd ;;
  modify (setIsVideoLoaded false) ;;
  call "client.disconnect" [] ;;
  call "wavRecorder.end" [] ;;
  Ret tt.

(** React applies the update that [setRealtimeEvents] was given: the new
    state when the updater returns, the page unmounted when it throws. *)
Definition apply_log_update (realtimeEvent : loc) (s : State) : Mount State :=
  match log_event realtimeEvent (heap s) (realtimeEvents s) with
  | Ok (h', evs') => Mounted (setRealtimeEvents h' evs' s)
  | Raise e => Unmounted e
  end.

(** [client.on('realtime.event', ...)], on the page as React holds it.
    The report of a failed response runs in the handler itself: when it
    throws, the handler throws and [setRealtimeEvents] is not reached.
    Otherwise the handler hands the updater to [setRealtimeEvents] and
    returns; the state it leaves is the one React has after applying the
    update.  The event objects are kept in the page's store here, so the
    handler is not followed on a page that is gone. *)
Definition on_realtime_event (realtimeEvent : loc)
  : Prog (Mount State) unit :=
  GetState (fun page =>
    match page with
    | Mounted s =>
        report_failed_response (heap s) realtimeEvent ;;
        SetState (apply_log_update realtimeEvent s) (Ret tt)
    | Unmounted _ => Ret tt
    end).

End Page.

(** The tools as this page registers them. *)
Definition tool (c : ToolCall) : Prog State JValue :=
  handler (fun _ => Ret tt) main_erro_na_requisicao main_otp_message c.

End Main.

(** A string of decimal digits. *)
Fixpoint all_digits (s : string) : bool :=
  match s with
  | EmptyString => true
  | String c s' => is_digit c && all_digits s'
  end.

Definition nine_digits (d : string) : Prop :=
  String.length d = 9%nat /\ all_digits d = true.

Definition ends_with_plus (p : string) : Prop :=
  exists q, p = q +:+ "+".

(** ** The two pages side by side *)

Inductive Page : Type := Console | MainPage.

Definition PageState (p : Page) : Type :=
  match p with
  | Console => ConsolePage.State
  | MainPage => Main.State
  end.

Definition page_tool (p : Page) : ToolCall -> Prog (PageState p) JValue :=
  match p with
  | Console => ConsolePage.tool
  | MainPage => Main.tool
  end.

(** The literals of each page's handlers. *)
Definition page_erro (p : Page) : string :=
  match p with
  | Console => console_erro_na_requisicao
  | MainPage => main_erro_na_requisicao
  end.

Definition page_otp (p : Page) : string -> string :=
  match p with
  | Console => console_otp_message
  | MainPage => main_otp_message
  end.

(** ** Vocabulary of the statements *)

(** The four tools that call a backend. *)
Definition calls_backend (c : ToolCall) : bool :=
  match c with
  | Call_get_llmbuilder _ _ | Call_requestAssistance _ => false
  | _ => true
  end.

Definition nullish (v : JValue) : bool :=
  match v with
  | JUndefined | JNull => true
  | _ => false
  end.

Definition is_string (v : JValue) : bool :=
  match v with
  | JStr _ => true
  | _ => false
  end.

Definition str_of (v : JValue) : string :=
  match v with
  | JStr s => s
  | _ => ""
  end.

(** The member [k] of a row, [undefined] when the row has none. *)
Definition field (row : JValue) (k : string) : JValue :=
  match row with
  | JObj props => assoc k props
  | _ => JUndefined
  end.

(** [msg] has [sub] somewhere inside. *)
Definition contains (msg sub : string) : Prop :=
  exists pre post, msg = pre +:+ sub +:+ post.

(** The rows of [get_user_data] and [get_contacts] can be read: none is
    null. *)
Definition rows_readable (items : list JValue) : bool :=
  forallb (fun item => negb (nullish item)) items.

(** A billing row can be read: it carries a [json] member that is not
    null, and when that has a [status] its two dates are strings. *)
Definition billing_row_readable (item : JValue) : bool :=
  let j := field item "json" in
  negb (nullish item) && negb (nullish j) &&
  (strict_eq (field j "status") JUndefined ||
   (is_string (field j "dt_geracao_recb") &&
    is_string (field j "dt_vencimento_recb"))).

(** The body of an ok response has the shape the handler of [c] reads. *)
Definition body_readable (c : ToolCall) (r : Response) : bool :=
  match json r with
  | None => false
  | Some v =>
      match c with
      | Call_generate_token _ _ => true
      | Call_get_user_data _ =>
          match iterate v with
          | Ok items => rows_readable items
          | Raise _ => false
          end
      | Call_get_payment_link _ _ _ =>
          match iterate v with
          | Ok items => forallb billing_row_readable items
          | Raise _ => false
          end
      | Call_get_contacts _ _ =>
          match iterate (field v "contatos") with
          | Ok items => negb (nullish v) && rows_readable items
          | Raise _ => false
          end
      | Call_get_llmbuilder _ _ | Call_requestAssistance _ => true
      end
  end.

(** What a tool hands back: the empty string for [generate_token], an
    object [{data: [...]}] for the three Superlogica tools. *)
Definition returns_data (c : ToolCall) (v : JValue) : Prop :=
  match c with
  | Call_generate_token _ _ => v = JStr ""
  | _ => exists arr, v = JObj [("data", JArr arr)]
  end.

(** The row [get_user_data] builds from a response row, in the words of
    the specification. *)
Definition cond_spec (phone : string) (item : JValue) : JValue :=
  JObj [("nome_condominio", field item "st_fantasia_cond");
        ("cpf_proprietario", field item "cpf_proprietario");
        ("email_proprietario", field item "email_proprietario");
        ("unidade_apartamento", field item "st_unidade_uni");
        ("id_unidade", field item "id_unidade_uni");
        ("id_condominio", field item "id_condominio_cond");
        ("telefone", JStr (formatPhoneNumber phone))].

(** A billing row is kept when its [json.status] is defined. *)
Definition has_status (item : JValue) : bool :=
  negb (strict_eq (field (field item "json") "status") JUndefined).

(** The reformatting of a date in the words of the specification,
    written without the matcher. *)

(** [s] begins with a white-space character followed by hh:mm:ss: what
    comes after them. *)
Definition time_prefix (s : string) : option string :=
  match s with
  | String sp (String h1 (String h2 (String c1 (String m1 (String m2
      (String c2 (String s1 (String s2 rest)))))))) =>
      if is_space sp && is_digit h1 && is_digit h2 && Ascii.eqb ":" c1 &&
         is_digit m1 && is_digit m2 && Ascii.eqb ":" c2 &&
         is_digit s1 && is_digit s2
      then Some rest else None
  | _ => None
  end.

(** [s] begins with DD/MM/YYYY: the three groups and what comes after
    them. *)
Definition date_prefix (s : string)
  : option (string * string * string * string) :=
  match s with
  | String d1 (String d2 (String c1 (String m1 (String m2 (String c2
      (String y1 (String y2 (String y3 (String y4 rest))))))))) =>
      if is_digit d1 && is_digit d2 && Ascii.eqb "/" c1 &&
         is_digit m1 && is_digit m2 && Ascii.eqb "/" c2 &&
         is_digit y1 && is_digit y2 && is_digit y3 && is_digit y4
      then Some (String d1 (String d2 ""), String m1 (String m2 ""),
                 String y1 (String y2 (String y3 (String y4 ""))), rest)
      else None
  | _ => None
  end.

(** Delete the first occurrence of a white-space character followed by
    hh:mm:ss, wherever it stands. *)
Fixpoint delete_first_time (s : string) : string :=
  match time_prefix s with
  | Some rest => rest
  | None =>
      match s with
      | EmptyString => ""
      | String c s' => String c (delete_first_time s')
      end
  end.

(** Swap the first two groups of the first DD/MM/YYYY. *)
Fixpoint swap_first_date (s : string) : string :=
  match date_prefix s with
  | Some (dd, mm, yyyy, rest) => mm +:+ "/" +:+ dd +:+ "/" +:+ yyyy +:+ rest
  | None =>
      match s with
      | EmptyString => ""
      | String c s' => String c (swap_first_date s')
      end
  end.

Definition reformat_date (s : string) : string :=
  swap_first_date (delete_first_time s).

(** The row [get_payment_link] builds from [item.json], in the words of
    the specification: the optional members are present exactly when their
    source is not the empty string. *)
Definition cobranca_spec (j : JValue) : JValue :=
  JObj
    ([("data_boleto", JStr (reformat_date (str_of (field j "dt_geracao_recb"))));
      ("vencimento", JStr (reformat_date (str_of (field j "dt_vencimento_recb"))));
      ("valor", field j "vl_emitido_recb")]
     ++ (if strict_eq (field j "nm_txjuros_cond") (JStr "") then []
         else [("juros", field j "nm_txjuros_cond")])
     ++ (if strict_eq (field j "nm_txmulta_cond") (JStr "") then []
         else [("multa", field j "nm_txmulta_cond")])
     ++ (if strict_eq (field j "fl_status_recb") (JStr "") then []
         else [("status",
                if strict_eq (field j "fl_status_recb") (JStr "3")
                then JStr "Pago" else JStr "Pendente")])
     ++ [("total", field j "vl_total_recb");
         ("pix", field j "st_pixqrcode_recb");
         ("link", field j "link_segundavia")]).

(** A two- or four-digit group of a date. *)
Definition digits (n : nat) (s : string) : Prop :=
  String.length s = n /\ all_digits s = true.

(** The part of a URL before its query and fragment: scheme, host and
    path. *)
Fixpoint scheme_host_path (url : string) : string :=
  match url with
  | EmptyString => ""
  | String c rest =>
      if Ascii.eqb c "?" || Ascii.eqb c "#" then ""
      else String c (scheme_host_path rest)
  end.

(** The endpoint of each tool, as the specification names it. *)
Definition endpoint_spec (c : ToolCall) : option (Method * string) :=
  match c with
  | Call_generate_token _ _ =>
      Some (POST, "https://api.z-api.io/instances/3CEEA0A6BCD2D0E49FB9D6E96DCD545E/token/ECF5B6F24C278CF3BFB55D3C/send-button-otp")
  | Call_get_user_data _ | Call_get_contacts _ _ =>
      Some (GET, "https://api.superlogica.net/v2/condor/unidades/index")
  | Call_get_payment_link _ _ _ =>
      Some (GET, "https://api.superlogica.net/v2/condor/cobranca/index")
  | Call_get_llmbuilder _ _ | Call_requestAssistance _ => None
  end.

(** The request each backend tool sends. *)
Definition generate_token_request (otp_message : string -> string)
    (phone token : string) : Request :=
  mkRequest
    "https://api.z-api.io/instances/3CEEA0A6BCD2D0E49FB9D6E96DCD545E/token/ECF5B6F24C278CF3BFB55D3C/send-button-otp"
    POST
    [("accept", "*/*");
     ("client-token", "F141ea19bb9ca40c981694b3c825d73f6S");
     ("Content-Type", "application/json")]
    (Stringify (JObj [("phone", JStr phone);
                      ("message", JStr (otp_message token));
                      ("code", JStr token)])).

Definition get_user_data_request (phone : string) : Request :=
  mkRequest (get_user_data_url (formatPhoneNumber phone)) GET
    superlogica_headers NoBody.

Definition get_contacts_request (phone id_condominio : string) : Request :=
  mkRequest (get_contacts_url id_condominio (formatPhoneNumber phone)) GET
    superlogica_headers NoBody.

(** The billing request, from the four readings of the clock. *)
Definition get_payment_link_request (w : World) (tr : list Event)
    (id_condominio id_unidade : string) : Request :=
  let d1 := clock w tr in
  let d2 := clock w (tr ++ [EClock]) in
  let d3 := clock w ((tr ++ [EClock]) ++ [EClock]) in
  let d4 := clock w (((tr ++ [EClock]) ++ [EClock]) ++ [EClock]) in
  mkRequest
    (get_payment_link_url id_condominio
       (toLocaleDateString_enUS (new_Date (getFullYear d1) (getMonth d2 - 2) 5))
       (toLocaleDateString_enUS (new_Date (getFullYear d3) (getMonth d4 + 1) 5))
       id_unidade)
    GET superlogica_headers NoBody.

(** A world that answers every request with [r], every library call with
    [undefined], and whose clock stands at [d]. *)
Definition replying (r : Response) (d : Date) : World :=
  mkWorld (fun _ _ => Ok r) (fun _ _ _ => Ok JUndefined) (fun _ => d).

(** 5 October 2024. *)
Definition a_date : Date := mkDate 2024 9 5 "10:00:00 AM" "2024-10-05T13:00:00.000Z".

(** Year and month index of the month [k] months after month [m] of year
    [y], carried across the year boundary: the specification's reading of
    "month m-2" and "month m+1". *)
Definition month_shift (y m k : Z) : Z * Z :=
  if m + k <? 0 then (y - 1, m + k + 12)
  else if 11 <? m + k then (y + 1, m + k - 12)
  else (y, m + k).

(** A day of a month as an en-US date: month/day/year, month counted from
    one. *)
Definition render_enUS (ym : Z * Z) (day : Z) : string :=
  pretty (snd ym + 1) +:+ "/" +:+ pretty day +:+ "/" +:+ pretty (fst ym).



(** A world where no backend can be reached: every fetch is rejected. *)
Definition offline (d : Date) : World :=
  mkWorld (fun _ _ => Raise TypeError) (fun _ _ _ => Ok JUndefined) (fun _ => d).

(** An event object without a [type], as [interface RealtimeEvent]
    allows it, and the store that holds it at reference 0. *)
Definition untyped_event : RealtimeEvent :=
  mkRealtimeEvent "2024-10-05T13:00:00.000Z" "server" None
    (JObj [("event_id", JStr "event_1")]).

Definition untyped_store : Store := {[ 0%N := untyped_event ]}.

(** A failed response that reports no error object, and its store. *)
Definition failed_event : RealtimeEvent :=
  mkRealtimeEvent "2024-10-05T13:00:01.000Z" "server" None
    (JObj [("type", JStr "response.done");
           ("response", JObj [("status", JStr "failed");
                              ("status_details", JObj [])])]).

Definition failed_store : Store := {[ 0%N := failed_event ]}.

(** A failed response that reports its error, and one without details,
    with their stores. *)
Definition failed_event_with_error : RealtimeEvent :=
  mkRealtimeEvent "2024-10-05T13:00:02.000Z" "server" None
    (JObj [("type", JStr "response.done");
           ("response",
            JObj [("status", JStr "failed");
                  ("status_details",
                   JObj [("error",
                          JObj [("message", JStr "quota exceeded")])])])]).

Definition failed_event_without_details : RealtimeEvent :=
  mkRealtimeEvent "2024-10-05T13:00:03.000Z" "server" None
    (JObj [("type", JStr "response.done");
           ("response", JObj [("status", JStr "failed")])]).

Definition failed_store_with_error : Store :=
  {[ 0%N := failed_event_with_error ]}.

Definition failed_store_without_details : Store :=
  {[ 0%N := failed_event_without_details ]}.

(** No two consecutive entries of the page's log have the same type. *)
Definition console_log_ok (s : ConsolePage.State) : Prop :=
  no_repeat (map (entry_type (ConsolePage.heap s)) (ConsolePage.realtimeEvents s)).


(** Sample responses. *)

(** 200 OK with a body that is not JSON. *)
Definition ok_without_json : Response := mkResponse true 200 "OK" None.

Definition not_found : Response := mkResponse false 404 "Not Found" None.

(** 200 OK, a JSON array with a null row. *)
Definition ok_with_null_row : Response :=
  mkResponse true 200 "OK" (Some (JArr [JNull])).

(** 200 OK, a JSON array whose row has no [json] member. *)
Definition ok_with_bare_row : Response :=
  mkResponse true 200 "OK" (Some (JArr [JObj [("id_recebimento_recb", JStr "77")]])).

Definition a_unit_row : JValue :=
  JObj [("st_fantasia_cond", JStr "4D imobi");
        ("cpf_proprietario", JStr "83919163753");
        ("email_proprietario", JStr "robert@livingnet.com.br");
        ("st_unidade_uni", JStr "005");
        ("id_unidade_uni", JStr "452");
        ("id_condominio_cond", JStr "3")].

Definition ok_with_unit : Response :=
  mkResponse true 200 "OK" (Some (JArr [a_unit_row])).

Definition a_billing_row : JValue :=
  JObj [("json",
         JObj [("status", JStr "1");
               ("dt_geracao_recb", JStr "05/10/2024 00:00:00");
               ("dt_vencimento_recb", JStr "10/11/2024");
               ("vl_emitido_recb", JStr "350.00");
               ("nm_txjuros_cond", JStr "");
               ("nm_txmulta_cond", JStr "2.00");
               ("fl_status_recb", JStr "3");
               ("vl_total_recb", JStr "357.00");
               ("st_pixqrcode_recb", JStr "00020126");
               ("link_segundavia", JStr "https://example.org/boleto")])].

Definition ok_with_billing : Response :=
  mkResponse true 200 "OK"
    (Some (JArr [a_billing_row; JObj [("json", JObj [])]])).

(** The hook of a page configured with a key and a server. *)
Definition a_hook : Hook :=
  mkHook (heygenStart "key" "https://api.heygen.com")
    (heygenEnd "key" "https://api.heygen.com")
    (heygenSendText "key" "https://api.heygen.com") MediaElementRef.

(** [eat cl n s]: the rest of [s] after [n] code units of class [cl]. *)
Fixpoint eat (cl : cclass) (n : nat) (s : string) : option string :=
  match n with
  | O => Some s
  | S n' =>
      match s with
      | String c s' => if in_class cl c then eat cl n' s' else None
      | EmptyString => None
      end
  end.

(** The tail [(\d{9})$] of the phone pattern, as the matcher runs it. *)
Definition phone_tail (s : string) (caps : Caps) : option (string * Caps) :=
  matches (Seq (Cap 1 (Rep 9 (Cls Digit))) EndOfInput) s caps
    (fun rest caps' => Some (rest, caps')).


(** ** What a program does under every world

    [wp p s R]: whatever the world answers, the run of [p] from state [s]
    emits events [evs] and ends in a state and with a result such that
    [R evs state result]. *)

Fixpoint wp {S A} (p : Prog S A) (s : S)
    (R : list Event -> S -> Res A -> Prop) : Prop :=
  match p with
  | Ret a => R [] s (Ok a)
  | Throw e => R [] s (Raise e)
  | Fetch req k => forall r, wp (k r) s (fun evs => R (EFetch req :: evs))
  | Call n args k => forall r, wp (k r) s (fun evs => R (ECall n args :: evs))
  | Log l args k => wp k s (fun evs => R (ELog l args :: evs))
  | Clock k => forall d, wp (k d) s (fun evs => R (EClock :: evs))
  | GetState k => wp (k s) s R
  | SetState s' k => wp k s' R
  end.

(** The requests the avatar hook may send: a POST to one of the five
    streaming operations of the server, carrying the key. *)
Definition heygen_request (apiKey serverUrl : string) (req : Request) : Prop :=
  Effects.method req = POST /\
  headers req = api_headers apiKey /\
  exists op,
    In op ["new"; "start"; "ice"; "task"; "stop"] /\
    url req = serverUrl +:+ "/v1/streaming." +:+ op.

(** ** formatTime (ConsolePage.tsx 134-150) *)

Module FormatTime.

Section FormatTime.

(** [new Date(s).valueOf()]: the time value of a timestamp in
    milliseconds, [None] when the string is no date and the value is NaN.
    Time values are integers; for two of them less than 2^53 ms apart
    (some 285000 years) the subtraction, the divisions followed by
    [Math.floor] and the remainders below are exact on doubles. *)
Variable valueOf : string -> option Z.

(** [n + ''] for an integer or NaN; [-0] prints as "0". *)
Definition number_to_string (n : option Z) : string :=
  match n with
  | Some z => pretty z
  | None => "NaN"
  end.

(** [while (s.length < 2) s = '0' + s], at most [fuel] turns. *)
Fixpoint pad_loop (fuel : nat) (s : string) : string :=
  match fuel with
  | O => s
  | S fuel' =>
      if (String.length s <? 2)%nat then pad_loop fuel' ("0" +:+ s) else s
  end.

(** [pad]: two turns are enough, each adds a character. *)
Definition pad (n : option Z) : string :=
  let s := number_to_string n in
  pad_loop 2 s.

(** [Math.floor(delta / d) % m] *)
Definition field_of (delta : option Z) (d m : Z) : option Z :=
  match delta with
  | Some x => Some (Z.rem (x / d) m)
  | None => None
  end.

Definition formatTime (startTime timestamp : string) : string :=
  let t0 := valueOf startTime in
  let t1 := valueOf timestamp in
  let delta :=
    match t1, t0 with
    | Some a, Some b => Some (a - b)
    | _, _ => None
    end in
  let hs := field_of delta 10 100 in
  let s := field_of delta 1000 60 in
  let m := field_of delta 60000 60 in
  pad m +:+ ":" +:+ pad s +:+ "." +:+ pad hs.

End FormatTime.

End FormatTime.
Export FormatTime.

(** ** The details toggle of an event (ConsolePage.tsx 932-942) *)

Module Expanded.

Local Open Scope prog_scope.

(** The names a plain object inherits from Object.prototype.  Each of
    them leads to a function or an object, so reading one from an object
    without an own property of that name gives a truthy value. *)
Definition inherited (id : string) : bool :=
  existsb (String.eqb id)
    ["constructor"; "hasOwnProperty"; "isPrototypeOf";
     "propertyIsEnumerable"; "toLocaleString"; "toString"; "valueOf";
     "__proto__"; "__defineGetter__"; "__defineSetter__";
     "__lookupGetter__"; "__lookupSetter__"].

(** [!!expandedEvents[id]]: the own property when the object has one,
    else what Object.prototype gives.  The map holds the own
    properties. *)
Definition is_expanded (id : string) (expandedEvents : gmap string bool) : bool :=
  match expandedEvents !! id with
  | Some b => b
  | None => inherited id
  end.

(** The copy the click handler builds and stores.  The spread copies the
    own properties; [delete] removes an own property and does nothing
    when there is none; the assignment is reached only when the read gave
    a falsy value, which an inherited member never does. *)
Definition toggle (id : string) (expandedEvents : gmap string bool)
  : gmap string bool :=
  let expanded := expandedEvents in
  if is_expanded id expanded then delete id expanded
  else <[id := true]> expanded.

Definition setExpandedEvents (m : gmap string bool) (s : ConsolePage.State)
  : ConsolePage.State :=
  ConsolePage.mkState (ConsolePage.heap s) (ConsolePage.items s)
    (ConsolePage.realtimeEvents s) m (ConsolePage.isConnected s)
    (ConsolePage.canPushToTalk s) (ConsolePage.isRecording s)
    (ConsolePage.memoryKv s) (ConsolePage.coords s) (ConsolePage.marker s)
    (ConsolePage.userData s) (ConsolePage.startTimeRef s).

(** [onClick] of the event summary. *)
Definition on_summary_click (id : string) : Prog ConsolePage.State unit :=
  GetState (fun s =>
    SetState (setExpandedEvents (toggle id (ConsolePage.expandedEvents s)) s)
      (Ret tt)).

(** Every value of the object is [true]. *)
Definition only_true (m : gmap string bool) : Prop :=
  forall k v, m !! k = Some v -> v = true.

End Expanded.

(** ** Push to talk and the turn-detection switch
    (ConsolePage.tsx 233-273 and 752-758, Main.tsx 135-169) *)

Module Controls.

Local Open Scope prog_scope.

Section Controls.

Context {S : Type}.
Variables (setCanPushToTalk setIsRecording : bool -> S -> S).

(** [trackSampleOffset?.trackId] tested, then [cancelResponse]: shared by
    [startRecording] and the [conversation.interrupted] handler of
    ConsolePage. *)
Definition interrupt_and_cancel : Prog S unit :=
  let* trackSampleOffset := call "wavStreamPlayer.interrupt" [] in
  let* has_track := lift (get_opt trackSampleOffset "trackId") in
  if truthy has_track then
    let* trackId := lift (get_prop trackSampleOffset "trackId") in
    let* offset := lift (get_prop trackSampleOffset "offset") in
    call "client.cancelResponse" [trackId; offset] ;; Ret tt
  else Ret tt.

(** ConsolePage.tsx 233-244. *)
Definition console_startRecording : Prog S unit :=
  modify (setIsRecording true) ;;
  interrupt_and_cancel ;;
  call "wavRecorder.record" [] ;; Ret tt.

(** Main.tsx 135-140. *)
Definition main_startRecording : Prog S unit :=
  modify (setIsRecording true) ;;
  call "wavRecorder.record" [] ;; Ret tt.

(** ConsolePage.tsx 249-255, Main.tsx 145-151. *)
Definition stopRecording : Prog S unit :=
  modify (setIsRecording false) ;;
  call "wavRecorder.pause" [] ;;
  call "client.createResponse" [] ;; Ret tt.

(** ConsolePage.tsx 260-273, Main.tsx 156-169. *)
Definition changeTurnEndType (value : string) : Prog S unit :=
  (if String.eqb value "none" then
     let* status := call "wavRecorder.getStatus" [] in
     if strict_eq status (JStr "recording") then
       call "wavRecorder.pause" [] ;; Ret tt
     else Ret tt
   else Ret tt) ;;
  call "client.updateSession"
    [JObj [("turn_detection",
            if String.eqb value "none" then JNull
            else JObj [("type", JStr "server_vad")])]] ;;
  (if String.eqb value "server_vad" then
     let* connected := call "client.isConnected" [] in
     if truthy connected then call "wavRecorder.record" [] ;; Ret tt
     else Ret tt
   else Ret tt) ;;
  modify (setCanPushToTalk (String.eqb value "none")).

End Controls.

Definition console_setCanPushToTalk (b : bool) (s : ConsolePage.State)
  : ConsolePage.State :=
  ConsolePage.mkState (ConsolePage.heap s) (ConsolePage.items s)
    (ConsolePage.realtimeEvents s) (ConsolePage.expandedEvents s)
    (ConsolePage.isConnected s) b (ConsolePage.isRecording s)
    (ConsolePage.memoryKv s) (ConsolePage.coords s) (ConsolePage.marker s)
    (ConsolePage.userData s) (ConsolePage.startTimeRef s).

Definition console_setIsRecording (b : bool) (s : ConsolePage.State)
  : ConsolePage.State :=
  ConsolePage.mkState (ConsolePage.heap s) (ConsolePage.items s)
    (ConsolePage.realtimeEvents s) (ConsolePage.expandedEvents s)
    (ConsolePage.isConnected s) (ConsolePage.canPushToTalk s) b
    (ConsolePage.memoryKv s) (ConsolePage.coords s) (ConsolePage.marker s)
    (ConsolePage.userData s) (ConsolePage.startTimeRef s).

Definition main_setCanPushToTalk (b : bool) (s : Main.State) : Main.State :=
  Main.mkState (Main.heap s) (Main.items s) (Main.realtimeEvents s)
    (Main.expandedEvents s) (Main.isConnected s) b (Main.isRecording s)
    (Main.isVideoLoaded s) (Main.heygen s).

Definition main_setIsRecording (b : bool) (s : Main.State) : Main.State :=
  Main.mkState (Main.heap s) (Main.items s) (Main.realtimeEvents s)
    (Main.expandedEvents s) (Main.isConnected s) (Main.canPushToTalk s) b
    (Main.isVideoLoaded s) (Main.heygen s).

End Controls.

(** ** More vocabulary *)

(** The contact [get_contacts] builds from a row, in words: the phone is
    the row's telephone when it has one, else its fax, else the empty
    string. *)
Definition contato_spec (item : JValue) : JValue :=
  JObj [("nome", field item "st_nome_con");
        ("tipo", field item "st_nometiporesp_tres");
        ("telefone",
         if truthy (field item "st_telefone_con")
         then field item "st_telefone_con"
         else if truthy (field item "st_fax_con")
              then field item "st_fax_con"
              else JStr "");
        ("cpf", field item "st_cpf_con")].

(** The events an entry of the log stands for: itself and the [count]
    events folded into it. *)
Definition entry_events (h : Store) (l : loc) : N :=
  match h !! l with
  | Some e => (1 + default 0 (count e))%N
  | None => 0%N
  end.

(** The events the whole log stands for. *)
Definition log_events (h : Store) (evs : list loc) : N :=
  fold_right (fun l n => (entry_events h l + n)%N) 0%N evs.







(** ** The avatar hook seen from outside *)

(** The asynchronous functions of the hook. *)
Inductive hook_function (apiKey serverUrl : string) : Prog Refs unit -> Prop :=
| hook_start : hook_function apiKey serverUrl (heygenStart apiKey serverUrl)
| hook_end : hook_function apiKey serverUrl (heygenEnd apiKey serverUrl)
| hook_create :
    hook_function apiKey serverUrl (heygenCreateNewSession apiKey serverUrl)
| hook_start_streaming :
    hook_function apiKey serverUrl (heygenStartStreamingSession apiKey serverUrl)
| hook_ice session_id candidate :
    hook_function apiKey serverUrl
      (heygenHandleICE apiKey serverUrl session_id candidate)
| hook_send texto :
    hook_function apiKey serverUrl (heygenSendText apiKey serverUrl texto)
| hook_close :
    hook_function apiKey serverUrl (heygenCloseSession apiKey serverUrl).

(** What each of them guarantees: it returns, and every request it sent
    is one of the avatar service's. *)
Definition heygen_post (apiKey serverUrl : string)
    (evs : list Event) (s : Refs) (r : Res unit) : Prop :=
  r = Ok tt /\ Forall (heygen_request apiKey serverUrl) (requests evs).

Definition new_request (apiKey serverUrl : string) : Request :=
  mkRequest (serverUrl +:+ "/v1/streaming.new") POST (api_headers apiKey)
    (Stringify
       (JObj [("quality", JStr "high");
              ("avatar_name", JStr avatarID);
              ("voice", JObj [("voice_id", JStr voiceID)]);
              ("background", JObj [("type", JStr "color");
                                   ("value", JStr "#FAFAFA")])])).

Definition start_request (apiKey serverUrl : string) (session sdp : JValue)
  : Request :=
  mkRequest (serverUrl +:+ "/v1/streaming.start") POST (api_headers apiKey)
    (Stringify (JObj [("session_id", field session "session_id");
                      ("sdp", sdp)])).

Definition task_request (apiKey serverUrl : string) (session : JValue)
    (texto : string) : Request :=
  mkRequest (serverUrl +:+ "/v1/streaming.task") POST (api_headers apiKey)
    (Stringify (JObj [("session_id", field session "session_id");
                      ("text", JStr texto)])).

Definition stop_request (apiKey serverUrl : string) (session : JValue)
  : Request :=
  mkRequest (serverUrl +:+ "/v1/streaming.stop") POST (api_headers apiKey)
    (Stringify (JObj [("session_id", field session "session_id")])).

(** The refs after a session was closed. *)
Definition closed_refs (refs : Refs) : Refs :=
  mkRefs JNull JNull (mediaElementRef refs).

(** What a run of [heygenStart] has sent when it is over: the request for
    a new session alone, or that and then the request that starts the
    stream, for the session and with a peer connection the refs hold. *)
Definition start_post (apiKey serverUrl : string)
    (evs : list Event) (s : Refs) (r : Res unit) : Prop :=
  requests evs = [new_request apiKey serverUrl] \/
  (nullish (peerConnectionRef s) = false /\
   nullish (sessionInfoRef s) = false /\
   exists sdp,
     requests evs =
     [new_request apiKey serverUrl;
      start_request apiKey serverUrl (sessionInfoRef s) sdp]).

(** The console lines of a trace, in order. *)
Fixpoint console_lines (tr : list Event) : list (string * list JValue) :=
  match tr with
  | [] => []
  | ELog l args :: tr' => (l, args) :: console_lines tr'
  | _ :: tr' => console_lines tr'
  end.

(** What a tool call may do to the state of ConsolePage: nothing, except
    that a [get_user_data] that returns has stored the rows it returns
    under [phone] in [userData]. *)
Definition console_tool_effect (c : ToolCall) (s s' : ConsolePage.State)
    (r : Res JValue) : Prop :=
  match c, r with
  | Call_get_user_data _, Ok v =>
      exists rows,
        v = JObj [("data", rows)] /\
        s' = ConsolePage.setuserData (fun prev => <["phone" := rows]> prev) s
  | _, _ => s' = s
  end.

(** 200 OK with an empty JSON array. *)
Definition ok_with_no_rows : Response :=
  mkResponse true 200 "OK" (Some (JArr [])).

(** A contact with a fax and no telephone, and the response carrying it. *)
Definition a_contact_row : JValue :=
  JObj [("st_nome_con", JStr "Roberto");
        ("st_nometiporesp_tres", JStr "Proprietario");
        ("st_telefone_con", JStr "");
        ("st_fax_con", JStr "11987654321");
        ("st_cpf_con", JStr "83919163753")].

Definition ok_with_contacts : Response :=
  mkResponse true 200 "OK" (Some (JObj [("contatos", JArr [a_contact_row])])).

(** Every entry of the log leads to an event object that is not null. *)
Definition entries_readable (h : Store) (evs : list loc) : Prop :=
  Forall (fun l => exists e, h !! l = Some e /\ nullish (event e) = false) evs.

(** Two events in a row of type [t], then the store holding them at
    references 0 and 1. *)
Definition typed_event (time t : string) : RealtimeEvent :=
  mkRealtimeEvent time "server" None (JObj [("type", JStr t)]).

Definition two_deltas : Store :=
  <[ 1%N := typed_event "2024-10-05T13:00:01.000Z" "response.audio.delta" ]>
    {[ 0%N := typed_event "2024-10-05T13:00:00.000Z" "response.audio.delta" ]}.

(** The log after an event of type [t] arrived, in words: folded into the
    last entry when that has the same type, appended otherwise. *)
Definition log_after (h : Store) (evs : list loc) (r : loc) (t : JValue)
  : Store * list loc :=
  match last evs with
  | Some l =>
      if strict_eq (entry_type h l) t then
        (match h !! l with
         | Some e => <[l := set_count e (next_count (count e))]> h
         | None => h
         end, evs)
      else (h, evs ++ [r])
  | None => (h, evs ++ [r])
  end.

(** No decimal digit occurs in [s]. *)
Fixpoint digit_free (s : string) : bool :=
  match s with
  | EmptyString => true
  | String c s' => negb (is_digit c) && digit_free s'
  end.



(** What a run of [changeTurnEndType value] comes to: the push-to-talk
    flag says whether the value is 'none' when the run returns and is
    untouched when it throws; recording is started only for 'server_vad'
    and paused only for 'none'. *)
Definition turn_end_outcome {S} (setCanPushToTalk : bool -> S -> S)
    (value : string) (s : S) (o : Outcome S unit) : Prop :=
  match result o with
  | Ok _ => final o = setCanPushToTalk (String.eqb value "none") s
  | Raise _ => final o = s
  end /\
  (In (ECall "wavRecorder.record" []) (trace o) -> value = "server_vad") /\
  (In (ECall "wavRecorder.pause" []) (trace o) -> value = "none").

(** What every run of Main's [connectConversation] comes to, with the
    hook of [useHeygen apiKey serverUrl]: its requests are the avatar
    service's, and once one was sent the realtime client is connected. *)
Definition connect_post (apiKey serverUrl : string)
    (evs : list Event) (s : Main.State) (r : Res unit) : Prop :=
  Forall (heygen_request apiKey serverUrl) (requests evs) /\
  (requests evs <> [] -> In (ECall "client.connect" []) evs).

(** The same for [disconnectConversation]: the client is always
    disconnected. *)
Definition disconnect_post (apiKey serverUrl : string)
    (evs : list Event) (s : Main.State) (r : Res unit) : Prop :=
  Forall (heygen_request apiKey serverUrl) (requests evs) /\
  In (ECall "client.disconnect" []) evs /\
  Main.isVideoLoaded s = false.

(** ** StreamingSession.tsx: the stand-alone avatar page *)

Module StreamingSession.

Local Open Scope prog_scope.

(** The [useState] cells and the refs of the component. *)
Record State : Type := mkState {
  status : list string;
  avatarID : string;
  voiceID : string;
  taskInput : string;
  refs : Refs
}.

Definition initial : State :=
  {| status := [];
     avatarID := "";
     voiceID := "613f8304431144918ed6a83d4b3e3196";
     taskInput := "";
     refs := initial_refs |}.

Definition setStatus (f : list string -> list string) (s : State) : State :=
  mkState (f (status s)) (avatarID s) (voiceID s) (taskInput s) (refs s).

Definition setAvatarID (v : string) (s : State) : State :=
  mkState (status s) v (voiceID s) (taskInput s) (refs s).

Definition setVoiceID (v : string) (s : State) : State :=
  mkState (status s) (avatarID s) v (taskInput s) (refs s).

Definition setTaskInput (v : string) (s : State) : State :=
  mkState (status s) (avatarID s) (voiceID s) v (refs s).

Definition set_refs (f : Refs -> Refs) (s : State) : State :=
  mkState (status s) (avatarID s) (voiceID s) (taskInput s) (f (refs s)).

Section Page.

Variables apiKey serverUrl : string.

Definition updateStatus (message : string) : Prog State unit :=
  let* d := now in
  let timestamp := toLocaleTimeString d in
  modify (setStatus (fun prev =>
            prev ++ ["[" +:+ timestamp +:+ "] " +:+ message])).




Definition sendText (texto : string) : Prog State unit :=
  let* s := GetState Ret in
  if negb (truthy (ref_object (sessionInfoRef (refs s)))) then
    updateStatus "No active session"
  else
    try_catch
      (let* s := GetState Ret in
       let* session_id :=
         lift (get_prop (sessionInfoRef (refs s)) "session_id") in
       fetch (mkRequest (serverUrl +:+ "/v1/streaming.task") POST
                (api_headers apiKey)
                (Stringify (JObj [("session_id", session_id);
                                  ("text", JStr texto)]))) ;;
       updateStatus ("Sent text: " +:+ texto) ;;
       modify (setTaskInput ""))
      (fun error =>
         updateStatus ("Error sending text: " +:+ exn_message error)).




(** [onClick] of the Talk button. *)
Definition on_talk_click : Prog State unit :=
  sendText "".

End Page.

End StreamingSession.



(** What a click on Talk comes to, from a state [s]: without a session in
    the ref nothing is sent and the typed text stays; with one, exactly the
    task request with the empty text is sent, and the typed text stays or
    is cleared.  Either way the refs are as before and one status line is
    added. *)
Definition talk_post (apiKey serverUrl : string)
    (s : StreamingSession.State)
    (evs : list Event) (s' : StreamingSession.State) (r : Res unit) : Prop :=
  let session := sessionInfoRef (StreamingSession.refs s) in
  r = Ok tt /\
  StreamingSession.refs s' = StreamingSession.refs s /\
  (exists line,
      StreamingSession.status s' = StreamingSession.status s ++ [line]) /\
  requests evs =
    (if nullish session then []
     else [task_request apiKey serverUrl session ""]) /\
  (if nullish session
   then StreamingSession.taskInput s' = StreamingSession.taskInput s
   else StreamingSession.taskInput s' = StreamingSession.taskInput s \/
        StreamingSession.taskInput s' = "").

(** ** Button.tsx *)

Module Button.

Inductive IconPosition : Type := start | end_.

Inductive IconColor : Type := red | green | grey.

Inductive ButtonStyle : Type :=
  regular | action | alert | flush | style_green | info.

Definition color_name (c : IconColor) : string :=
  match c with
  | red => "red"
  | green => "green"
  | grey => "grey"
  end.

Definition style_name (b : ButtonStyle) : string :=
  match b with
  | regular => "regular"
  | action => "action"
  | alert => "alert"
  | flush => "flush"
  | style_green => "green"
  | info => "info"
  end.

Section Button.

(** The icon components of react-feather. *)
Variable Icon : Type.

(** [interface ButtonProps]: [None] is a prop that was not passed. *)
Record ButtonProps : Type := mkProps {
  label : option string;
  icon : option Icon;
  iconPosition : option IconPosition;
  iconColor : option IconColor;
  iconFill : option bool;
  buttonStyle : option ButtonStyle;
  iconOnly : option bool
}.

(** The element children of the button. *)
Inductive Child : Type :=
| IconSpan (i : Icon)       (* <span className="icon"><I /></span> *)
| LabelSpan (l : string).   (* <span className="label">{l}</span> *)

Record Rendered : Type := mkRendered {
  classList : list string;
  children : list Child
}.

(** [classList.join(' ')] *)
Fixpoint join (sep : string) (l : list string) : string :=
  match l with
  | [] => ""
  | [x] => x
  | x :: rest => x +:+ sep +:+ join sep rest
  end.

Definition className (r : Rendered) : string := join " " (classList r).

Definition Button (props : ButtonProps) : Rendered :=
  let label := default "Okay" (label props) in
  let icon := icon props in
  let iconPosition := default start (iconPosition props) in
  let iconColor := iconColor props in
  let iconFill := default false (iconFill props) in
  let buttonStyle := default regular (buttonStyle props) in
  let iconOnly := default false (iconOnly props) in
  let StartIcon :=
    match iconPosition with start => icon | end_ => None end in
  let EndIcon :=
    match iconPosition with end_ => icon | start => None end in
  let classList := [] in
  let classList :=
    match iconColor with
    | Some c => classList ++ ["icon-" +:+ color_name c]
    | None => classList
    end in
  let classList :=
    if iconFill then classList ++ ["icon-fill"] else classList in
  let classList :=
    if iconOnly then classList ++ ["button-icon-only"] else classList in
  let classList := classList ++ ["button-style-" +:+ style_name buttonStyle] in
  mkRendered classList
    ((match StartIcon with Some i => [IconSpan i] | None => [] end) ++
     (if negb iconOnly && negb (String.eqb label "")
      then [LabelSpan label] else []) ++
     (match EndIcon with Some i => [IconSpan i] | None => [] end)).

Definition is_icon (c : Child) : bool :=
  match c with
  | IconSpan _ => true
  | LabelSpan _ => false
  end.

End Button.

Arguments mkProps {Icon}.
Arguments IconSpan {Icon}.
Arguments LabelSpan {Icon}.

End Button.

(** * Facts about strings and the matcher *)

Section StringFacts.

Lemma append_cons c (s t : string) : String c s +:+ t = String c (s +:+ t).
Proof. reflexivity. Qed.

Lemma append_nil_l (t : string) : "" +:+ t = t.
Proof. reflexivity. Qed.

Lemma append_nil_r (s : string) : s +:+ "" = s.
Proof. induction s as [|c s IH]; [reflexivity|]. rewrite append_cons, IH. reflexivity. Qed.

Lemma append_assoc (s t u : string) : (s +:+ t) +:+ u = s +:+ (t +:+ u).
Proof.
  induction s as [|c s IH]; [reflexivity|].
  rewrite !append_cons, IH. reflexivity.
Qed.

Lemma length_append (s t : string) :
  String.length (s +:+ t) = (String.length s + String.length t)%nat.
Proof.
  induction s as [|c s IH]; [reflexivity|].
  rewrite append_cons. simpl. rewrite IH. reflexivity.
Qed.

Lemma take_str_all (s : string) : take_str (String.length s) s = s.
Proof. induction s as [|c s IH]; simpl; [reflexivity|]. rewrite IH. reflexivity. Qed.

Lemma consumed_all (s : string) : consumed s "" = s.
Proof. unfold consumed. simpl. rewrite Nat.sub_0_r. apply take_str_all. Qed.

End StringFacts.

Section MatcherFacts.

Lemma matches_rep_cls {R} cl n s caps (k : string -> Caps -> option R) :
  matches (Rep n (Cls cl)) s caps k =
  match eat cl n s with
  | Some s' => k s' caps
  | None => None
  end.
Proof.
  revert s. induction n as [|n IH]; intros s; [reflexivity|].
  simpl. destruct s as [|c s]; [reflexivity|].
  destruct (in_class cl c); [|reflexivity].
  apply IH.
Qed.

Lemma matches_seq {R} r1 r2 s caps (k : string -> Caps -> option R) :
  matches (Seq r1 r2) s caps k =
  matches r1 s caps (fun s' caps' => matches r2 s' caps' k).
Proof. reflexivity. Qed.

Lemma matches_cap {R} i r s caps (k : string -> Caps -> option R) :
  matches (Cap i r) s caps k =
  matches r s caps (fun s' caps' => k s' ((i, consumed s s') :: caps')).
Proof. reflexivity. Qed.

Lemma eat_digits_all n s :
  eat Digit n s = Some "" <-> String.length s = n /\ all_digits s = true.
Proof.
  revert s. induction n as [|n IH]; intros s; simpl.
  - destruct s; simpl; split; [intros _; auto | auto | discriminate | intros [? _]; discriminate].
  - destruct s as [|c s]; simpl.
    + split; [discriminate | intros [? _]; discriminate].
    + destruct (is_digit c); simpl.
      * rewrite IH. split; intros [? ?]; split; auto.
      * split; [discriminate | intros [_ ?]; discriminate].
Qed.

End MatcherFacts.

(** * Facts about running programs *)

Section RunFacts.

Context {S : Type}.

Lemma run_bind {A B} w (p : Prog S A) (f : A -> Prog S B) s tr :
  run w (bind p f) s tr =
  match result (run w p s tr) with
  | Ok a => run w (f a) (final (run w p s tr)) (trace (run w p s tr))
  | Raise e => mkOutcome (trace (run w p s tr)) (final (run w p s tr)) (Raise e)
  end.
Proof. revert s tr; induction p; intros; cbn; auto. Qed.

Lemma requests_app tr1 tr2 :
  requests (tr1 ++ tr2) = requests tr1 ++ requests tr2.
Proof. induction tr1 as [|[] tr1 IH]; cbn; rewrite ?IH; reflexivity. Qed.

(** A [try] whose [catch] block returns, returns. *)
Lemma try_catch_returns (p : Prog S unit) (h : Exn -> Prog S unit) :
  (forall e w s tr, result (run w (h e) s tr) = Ok tt) ->
  forall w s tr, result (run w (try_catch p h) s tr) = Ok tt.
Proof.
  intros Hh. induction p as [[]| | | | | | |]; intros w st tr; cbn; auto.
Qed.

End RunFacts.

(** A program run on a part of the state changes that part only. *)
Section Zoom.

Context {S T : Type} (get : S -> T) (set : T -> S -> S).
Hypothesis get_set : forall t s, get (set t s) = t.
Hypothesis set_get : forall s, set (get s) s = s.
Hypothesis set_set : forall t t' s, set t (set t' s) = set t s.


End Zoom.

(** One step of symbolic execution: compute as far as the next answer of
    the world, then split on that answer. *)
Ltac exec_step :=
  first
    [ progress cbn [run bind fetch lift call assign console_log console_error
                    now modify negb trace result final]
    | progress unfold response_json
    | match goal with
      | |- context [fetch_reply ?w ?tr ?req] =>
          let E := fresh "Efetch" in
          destruct (fetch_reply w tr req) as [?r|?e] eqn:E
      | |- context [ok ?r] =>
          let E := fresh "Eok" in destruct (ok r) eqn:E
      | |- context [json ?r] =>
          let E := fresh "Ejson" in destruct (json r) as [?body|] eqn:E
      | |- context [lift ?x] =>
          let E := fresh "Elift" in destruct x as [?a|?e] eqn:E
      | |- context [call_reply ?w ?tr ?n ?args] =>
          let E := fresh "Ecall" in
          destruct (call_reply w tr n args) as [?v|?e] eqn:E
      end ].
Ltac exec := repeat exec_step.

Ltac trace_done :=
  rewrite ?requests_app; cbn [requests]; rewrite ?app_nil_r; try reflexivity.

Section PhoneRegex.

Lemma phone_tail_some s caps rest caps' :
  phone_tail s caps = Some (rest, caps') ->
  nine_digits s /\ rest = "" /\ caps' = (1%nat, s) :: caps.
Proof.
  unfold phone_tail. rewrite matches_seq, matches_cap, matches_rep_cls.
  destruct (eat Digit 9 s) as [s'|] eqn:E; [|discriminate].
  cbn [matches].
  destruct s' as [|c s']; [|discriminate].
  intros H. injection H as <- <-.
  apply eat_digits_all in E. rewrite consumed_all. auto.
Qed.

Lemma phone_tail_digits s caps :
  nine_digits s -> phone_tail s caps = Some ("", (1%nat, s) :: caps).
Proof.
  intros Hd. unfold phone_tail. rewrite matches_seq, matches_cap, matches_rep_cls.
  apply eat_digits_all in Hd. rewrite Hd, consumed_all. reflexivity.
Qed.

Lemma phone_tail_length s caps : String.length s <> 9%nat -> phone_tail s caps = None.
Proof.
  intros Hn. destruct (phone_tail s caps) as [[rest caps']|] eqn:E; [|reflexivity].
  apply phone_tail_some in E as [[Hl _] _]. contradiction.
Qed.

(** The pattern unfolds to: "+55" then the tail, else "55" then the tail,
    else the tail alone. *)
Lemma match_here_phone s :
  match_here phone_regex s =
  match
    match
      match s with
      | String c s1 =>
          if Ascii.eqb "+" c then
            match s1 with
            | String c1 (String c2 s2) =>
                if Ascii.eqb "5" c1 then
                  if Ascii.eqb "5" c2 then phone_tail s2 [] else None
                else None
            | _ => None
            end
          else None
      | EmptyString => None
      end
    with
    | Some x => Some x
    | None =>
        match s with
        | String c1 (String c2 s2) =>
            if Ascii.eqb "5" c1 then
              if Ascii.eqb "5" c2 then phone_tail s2 [] else None
            else None
        | _ => None
        end
    end
  with
  | Some x => Some x
  | None => phone_tail s []
  end.
Proof.
  unfold match_here, phone_regex, phone_tail.
  destruct s as [|c [|c1 [|c2 s2]]]; cbn [matches];
    repeat match goal with
           | |- context [Ascii.eqb ?a ?b] => destruct (Ascii.eqb a b)
           end; reflexivity.
Qed.

(** Every match of the phone pattern is the whole input, in one of three
    shapes, and captures the nine digits. *)
Lemma match_here_phone_inv s rest caps :
  match_here phone_regex s = Some (rest, caps) ->
  exists d, nine_digits d /\ rest = "" /\ caps = [(1%nat, d)] /\
            (s = "+55" +:+ d \/ s = "55" +:+ d \/ s = d).
Proof.
  rewrite match_here_phone. intros H.
  assert (phone_tail s [] = Some (rest, caps) \/
          (exists s2, s = "55" +:+ s2 /\ phone_tail s2 [] = Some (rest, caps)) \/
          (exists s2, s = "+55" +:+ s2 /\ phone_tail s2 [] = Some (rest, caps)))
    as Hcases.
  { pose proof phone_tail_some as TS.
    generalize dependent phone_tail. intros tail9 H TS.
    destruct s as [|c [|c1 [|c2 s2]]];
      repeat match type of H with
             | context [Ascii.eqb ?a ?b] =>
                 destruct (Ascii.eqb_spec a b); subst
             | context [match tail9 ?x ?y with _ => _ end] =>
                 destruct (tail9 x y) as [[? ?]|] eqn:?
             end;
      try discriminate; try injection H as <- <-; eauto. }
  destruct Hcases as [E|[(s2 & -> & E)|(s2 & -> & E)]];
    apply phone_tail_some in E as (Hd & -> & ->);
    eexists; eauto 6.
Qed.

End PhoneRegex.

(** Refute or use an equation between strings through their lengths. *)
Ltac by_length H :=
  let Hn := fresh "Hn" in
  pose proof (f_equal String.length H) as Hn;
  cbv [String.append] in Hn; fold String.append in Hn;
  cbn [String.length] in Hn; rewrite ?length_append in Hn;
  cbn [String.length] in Hn.

Section FormatPhoneNumber.

Lemma match_here_phone_plus55 d :
  nine_digits d ->
  match_here phone_regex ("+55" +:+ d) = Some ("", [(1%nat, d)]).
Proof.
  intros Hd. rewrite match_here_phone.
  change ("+55" +:+ d) with (String "+" (String "5" (String "5" d))).
  cbv iota beta. rewrite !Ascii.eqb_refl, phone_tail_digits by exact Hd.
  reflexivity.
Qed.

Lemma match_here_phone_55 d :
  nine_digits d ->
  match_here phone_regex ("55" +:+ d) = Some ("", [(1%nat, d)]).
Proof.
  intros Hd. rewrite match_here_phone.
  change ("55" +:+ d) with (String "5" (String "5" d)).
  cbv iota beta. destruct (Ascii.eqb_spec "+" "5"); [discriminate|].
  rewrite !Ascii.eqb_refl, phone_tail_digits by exact Hd.
  reflexivity.
Qed.

Lemma match_here_phone_long s :
  (12 < String.length s)%nat -> match_here phone_regex s = None.
Proof.
  intros Hlen.
  destruct (match_here phone_regex s) as [[rest caps]|] eqn:E; [|reflexivity].
  apply match_here_phone_inv in E as (d & [Hl Hd] & _ & _ & Hs).
  destruct Hs as [->|[->| ->]]; cbn [String.length] in Hlen;
    rewrite ?length_append in Hlen; cbn [String.length] in Hlen; lia.
Qed.

Lemma replace_phone_hit s d :
  match_here phone_regex s = Some ("", [(1%nat, d)]) ->
  formatPhoneNumber s = d.
Proof.
  intros E. unfold formatPhoneNumber.
  destruct s; cbn [replace]; rewrite E; cbn [expand cap_get Nat.eqb];
    rewrite !append_nil_r; reflexivity.
Qed.

Lemma replace_phone_miss c s :
  match_here phone_regex (String c s) = None ->
  formatPhoneNumber (String c s) = String c (formatPhoneNumber s).
Proof. intros E. unfold formatPhoneNumber. cbn [replace]. rewrite E. reflexivity. Qed.

(** The country code written with a plus sign is deleted. *)
Lemma formatPhoneNumber_plus55 p d :
  nine_digits d -> formatPhoneNumber (p +:+ "+55" +:+ d) = p +:+ d.
Proof.
  intros Hd. induction p as [|c p IH].
  - apply replace_phone_hit, match_here_phone_plus55, Hd.
  - rewrite !(append_cons c p), replace_phone_miss, IH; [reflexivity|].
    apply match_here_phone_long. destruct Hd as [Hl _].
    cbn [String.length]. rewrite !length_append, Hl. cbn. lia.
Qed.

(** The bare country code is deleted, unless a plus sign precedes it. *)
Lemma formatPhoneNumber_55 p d :
  nine_digits d -> ~ ends_with_plus p ->
  formatPhoneNumber (p +:+ "55" +:+ d) = p +:+ d.
Proof.
  intros Hd. induction p as [|c p IH]; intros Hp.
  - apply replace_phone_hit, match_here_phone_55, Hd.
  - rewrite !(append_cons c p), replace_phone_miss, IH; [reflexivity| |].
    + intros [q ->]. apply Hp. exists (String c q). reflexivity.
    + destruct (match_here phone_regex (String c (p +:+ "55" +:+ d)))
        as [[rest caps]|] eqn:E; [|reflexivity].
      exfalso.
      apply match_here_phone_inv in E as (d' & [Hl' _] & _ & _ & Hs).
      destruct Hd as [Hl _].
      destruct Hs as [Hs|[Hs|Hs]].
      * by_length Hs.
        destruct p; [|cbn [String.length] in Hn; lia].
        cbv [String.append] in Hs.
        injection Hs as -> _. apply Hp. exists "". reflexivity.
      * by_length Hs. lia.
      * by_length Hs. lia.
Qed.

(** Any other phone is returned as it is. *)
Lemma formatPhoneNumber_other phone :
  (forall p d, nine_digits d -> phone <> p +:+ "55" +:+ d) ->
  formatPhoneNumber phone = phone.
Proof.
  induction phone as [|c s IH]; intros Hno.
  - reflexivity.
  - destruct (match_here phone_regex (String c s)) as [[rest caps]|] eqn:E.
    + apply match_here_phone_inv in E as HE.
      destruct HE as (d & Hd & -> & -> & Hs).
      destruct Hs as [Hs|[Hs|Hs]].
      * exfalso. apply (Hno "+" d Hd). exact Hs.
      * exfalso. apply (Hno "" d Hd). exact Hs.
      * rewrite (replace_phone_hit _ _ E). symmetry. exact Hs.
    + rewrite replace_phone_miss by exact E. f_equal. apply IH.
      intros p d Hd ->. apply (Hno (String c p) d Hd). reflexivity.
Qed.

(** C4. [formatPhoneNumber] returns the phone unchanged unless it ends
    with nine decimal digits preceded by "55" or "+55"; then exactly that
    country code is deleted and everything else, the nine digits
    included, is kept.  An eleven-digit number whose area code is not 55
    comes back whole. *)
Theorem formatPhoneNumber_strips_only_country_code :
  (forall p d, nine_digits d ->
     formatPhoneNumber (p +:+ "+55" +:+ d) = p +:+ d) /\
  (forall p d, nine_digits d -> ~ ends_with_plus p ->
     formatPhoneNumber (p +:+ "55" +:+ d) = p +:+ d) /\
  (forall phone,
     (forall p d, nine_digits d -> phone <> p +:+ "55" +:+ d) ->
     formatPhoneNumber phone = phone) /\
  formatPhoneNumber "21974894586" = "21974894586".
Proof.
  split; [exact formatPhoneNumber_plus55|].
  split; [exact formatPhoneNumber_55|].
  split; [exact formatPhoneNumber_other|].
  reflexivity.
Qed.

End FormatPhoneNumber.

(** C4 at a number with "+55" and at one with "55" after an area code. *)
Lemma formatPhoneNumber_strips_only_country_code_witness :
  nine_digits "974894586" /\ ~ ends_with_plus "021" /\
  formatPhoneNumber "+55974894586" = "974894586" /\
  formatPhoneNumber "02155974894586" = "021974894586".
Proof.
  assert (Hd : nine_digits "974894586") by (split; reflexivity).
  assert (Hp : ~ ends_with_plus "021").
  { intros [q Hq]. destruct q as [|a [|b [|c [|e q]]]]; cbv [String.append] in Hq;
      discriminate Hq. }
  split; [exact Hd|]. split; [exact Hp|]. split.
  - exact (proj1 formatPhoneNumber_strips_only_country_code "" "974894586" Hd).
  - exact (proj1 (proj2 formatPhoneNumber_strips_only_country_code)
             "021" "974894586" Hd Hp).
Defined.

(** * The date formatting against its description *)

Section DateRefinement.

Lemma take_str_append p s : take_str (String.length p) (p +:+ s) = p.
Proof.
  induction p as [|c p IH]; cbn [String.length take_str].
  - destruct s; reflexivity.
  - rewrite append_cons. cbn [take_str]. rewrite IH. reflexivity.
Qed.

Lemma consumed_append p s : consumed (p +:+ s) s = p.
Proof.
  unfold consumed. rewrite length_append.
  replace (String.length p + String.length s - String.length s)%nat
    with (String.length p) by lia.
  apply take_str_append.
Qed.

Lemma consumed_2 a b s :
  consumed (String a (String b s)) s = String a (String b "").
Proof. apply (consumed_append (String a (String b "")) s). Qed.

Lemma consumed_4 a b c d s :
  consumed (String a (String b (String c (String d s)))) s =
  String a (String b (String c (String d ""))).
Proof.
  apply (consumed_append (String a (String b (String c (String d "")))) s).
Qed.

Ltac split_tests :=
  repeat match goal with
         | |- context [if is_space ?c then _ else _] =>
             destruct (is_space c); cbn [andb]
         | |- context [if is_digit ?c then _ else _] =>
             destruct (is_digit c); cbn [andb]
         | |- context [if Ascii.eqb ?a ?c then _ else _] =>
             destruct (Ascii.eqb a c); cbn [andb]
         | |- context [is_space ?c && _] => destruct (is_space c); cbn [andb]
         | |- context [is_digit ?c && _] => destruct (is_digit c); cbn [andb]
         | |- context [Ascii.eqb ?a ?c && _] =>
             destruct (Ascii.eqb a c); cbn [andb]
         end.

(** The time pattern matches at the head of [s] exactly when [s] begins
    with a blank and hh:mm:ss. *)
Lemma match_here_time s :
  match_here time_regex s =
  match time_prefix s with
  | Some rest => Some (rest, [])
  | None => None
  end.
Proof.
  unfold match_here, time_regex, time_prefix.
  destruct s as [|c0 [|c1 [|c2 [|c3 [|c4 [|c5 [|c6 [|c7 [|c8 rest]]]]]]]]];
    cbn [matches in_class]; split_tests; reflexivity.
Qed.

(** The date pattern matches at the head of [s] exactly when [s] begins
    with DD/MM/YYYY, and captures the three groups. *)
Lemma match_here_date s :
  match_here date_regex s =
  match date_prefix s with
  | Some (dd, mm, yyyy, rest) =>
      Some (rest, [(3%nat, yyyy); (2%nat, mm); (1%nat, dd)])
  | None => None
  end.
Proof.
  unfold match_here, date_regex, date_prefix.
  destruct s
    as [|c0 [|c1 [|c2 [|c3 [|c4 [|c5 [|c6 [|c7 [|c8 [|c9 rest]]]]]]]]]];
    cbn [matches in_class]; split_tests; try reflexivity.
  rewrite !consumed_2, consumed_4. reflexivity.
Qed.

Lemma replace_time s : replace time_regex [] s = delete_first_time s.
Proof.
  induction s as [|c s IH].
  - reflexivity.
  - cbn [replace delete_first_time]. rewrite match_here_time.
    destruct (time_prefix (String c s)) as [rest|]; [reflexivity|].
    rewrite IH. reflexivity.
Qed.

Lemma replace_date s :
  replace date_regex [Group 2; Lit "/"; Group 1; Lit "/"; Group 3] s =
  swap_first_date s.
Proof.
  induction s as [|c s IH].
  - reflexivity.
  - cbn [replace swap_first_date]. rewrite match_here_date.
    destruct (date_prefix (String c s)) as [[[[dd mm] yyyy] rest]|].
    + cbn [expand cap_get Nat.eqb].
      rewrite append_nil_r, !append_assoc. reflexivity.
    + rewrite IH. reflexivity.
Qed.

(** The two [replace] calls do what the description says, on every
    string. *)
Lemma format_date_refines s : format_date s = reformat_date s.
Proof.
  unfold format_date, reformat_date. rewrite replace_time. apply replace_date.
Qed.

End DateRefinement.

(** * The loops of the handlers on rows that can be read *)

Section Rows.

Lemma get_prop_field v k : nullish v = false -> get_prop v k = Ok (field v k).
Proof. destruct v; try discriminate; reflexivity. Qed.

Lemma cond_of_readable phone item :
  nullish item = false ->
  cond_of (formatPhoneNumber phone) item = Ok (cond_spec phone item).
Proof.
  intros H. unfold cond_of. rewrite !get_prop_field by exact H. reflexivity.
Qed.

Lemma mapR_cond_of phone items :
  rows_readable items = true ->
  mapR (cond_of (formatPhoneNumber phone)) items = Ok (map (cond_spec phone) items).
Proof.
  induction items as [|item items IH]; cbn [rows_readable forallb]; intros H.
  - reflexivity.
  - apply andb_prop in H as [Hi Hrest].
    cbn [mapR map]. rewrite cond_of_readable by (destruct (nullish item); auto).
    cbn [bindR]. rewrite (IH Hrest). reflexivity.
Qed.

Lemma contato_of_readable item :
  nullish item = false -> exists row, contato_of item = Ok row.
Proof.
  intros H. unfold contato_of. rewrite !get_prop_field by exact H.
  cbn [bindR].
  destruct (truthy (field item "st_telefone_con")); cbn [bindR];
    [eauto|].
  destruct (truthy (field item "st_fax_con")); cbn [bindR]; eauto.
Qed.

Lemma mapR_contato_of items :
  rows_readable items = true -> exists arr, mapR contato_of items = Ok arr.
Proof.
  induction items as [|item items IH]; cbn [rows_readable forallb]; intros H.
  - eexists; reflexivity.
  - apply andb_prop in H as [Hi Hrest].
    destruct (contato_of_readable item) as [row Hrow];
      [destruct (nullish item); auto|].
    destruct (IH Hrest) as [arr Harr].
    cbn [mapR]. rewrite Hrow. cbn [bindR]. rewrite Harr. eexists; reflexivity.
Qed.

Lemma item_json_readable item k :
  nullish item = false -> nullish (field item "json") = false ->
  item_json item k = Ok (field (field item "json") k).
Proof.
  intros Hi Hj. unfold item_json. rewrite (get_prop_field item) by exact Hi.
  cbn [bindR]. apply get_prop_field, Hj.
Qed.

Lemma date_field_string v :
  is_string v = true -> date_field v = Ok (JStr (format_date (str_of v))).
Proof. destruct v; try discriminate; reflexivity. Qed.

Lemma cobranca_of_readable item :
  billing_row_readable item = true ->
  cobranca_of item =
  Ok (if has_status item then Some (cobranca_spec (field item "json")) else None).
Proof.
  unfold billing_row_readable, has_status. intros H.
  apply andb_prop in H as [H Hdates]. apply andb_prop in H as [Hi Hj].
  apply negb_true_iff in Hi, Hj.
  unfold cobranca_of. rewrite !item_json_readable by assumption.
  cbn [bindR].
  destruct (strict_eq (field (field item "json") "status") JUndefined) eqn:Est;
    cbn [negb]; [reflexivity|].
  cbn [orb] in Hdates. apply andb_prop in Hdates as [Hd1 Hd2].
  rewrite !date_field_string by assumption. cbn [bindR].
  rewrite !format_date_refines.
  unfold cobranca_spec.
  destruct (strict_eq (field (field item "json") "nm_txjuros_cond") (JStr ""));
    destruct (strict_eq (field (field item "json") "nm_txmulta_cond") (JStr ""));
    destruct (strict_eq (field (field item "json") "fl_status_recb") (JStr ""));
    reflexivity.
Qed.

Lemma cobrancas_readable items :
  forallb billing_row_readable items = true ->
  cobrancas items =
  Ok (map (fun item => cobranca_spec (field item "json"))
        (List.filter has_status items)).
Proof.
  induction items as [|item items IH]; cbn [forallb]; intros H.
  - reflexivity.
  - apply andb_prop in H as [Hi Hrest].
    cbn [cobrancas List.filter]. rewrite (cobranca_of_readable _ Hi).
    cbn [bindR]. rewrite (IH Hrest). cbn [bindR].
    destruct (has_status item); reflexivity.
Qed.

(** Rows that cannot be read make the loops throw a TypeError. *)

Lemma cond_of_nullish t item :
  nullish item = true -> cond_of t item = Raise TypeError.
Proof. destruct item; try discriminate; reflexivity. Qed.

Lemma cond_of_returns t item :
  nullish item = false -> exists row, cond_of t item = Ok row.
Proof.
  intros H. unfold cond_of. rewrite !get_prop_field by exact H.
  eexists. reflexivity.
Qed.

Lemma mapR_cond_of_unreadable t items :
  rows_readable items = false -> mapR (cond_of t) items = Raise TypeError.
Proof.
  induction items as [|item items IH]; cbn [rows_readable forallb];
    [discriminate|].
  destruct (nullish item) eqn:Hi; cbn [negb andb]; intros H.
  - cbn [mapR]. rewrite (cond_of_nullish t item Hi). reflexivity.
  - destruct (cond_of_returns t item Hi) as [row Hrow].
    cbn [mapR]. rewrite Hrow. cbn [bindR]. rewrite (IH H). reflexivity.
Qed.

Lemma contato_of_nullish item :
  nullish item = true -> contato_of item = Raise TypeError.
Proof. destruct item; try discriminate; reflexivity. Qed.

Lemma mapR_contato_of_unreadable items :
  rows_readable items = false -> mapR contato_of items = Raise TypeError.
Proof.
  induction items as [|item items IH]; cbn [rows_readable forallb];
    [discriminate|].
  destruct (nullish item) eqn:Hi; cbn [negb andb]; intros H.
  - cbn [mapR]. rewrite (contato_of_nullish item Hi). reflexivity.
  - destruct (contato_of_readable item Hi) as [row Hrow].
    cbn [mapR]. rewrite Hrow. cbn [bindR]. rewrite (IH H). reflexivity.
Qed.

Lemma date_field_not_string v :
  is_string v = false -> date_field v = Raise TypeError.
Proof. destruct v; try discriminate; reflexivity. Qed.

Lemma cobranca_of_unreadable item :
  billing_row_readable item = false -> cobranca_of item = Raise TypeError.
Proof.
  unfold billing_row_readable, cobranca_of, item_json.
  destruct (nullish item) eqn:Hi; cbn [negb andb].
  - intros _. destruct item; try discriminate Hi; reflexivity.
  - rewrite !(get_prop_field item) by exact Hi. cbn [bindR].
    destruct (nullish (field item "json")) eqn:Hj; cbn [negb andb].
    + intros _. destruct (field item "json"); try discriminate Hj; reflexivity.
    + rewrite !(get_prop_field (field item "json")) by exact Hj. cbn [bindR].
      destruct (strict_eq (field (field item "json") "status") JUndefined);
        cbn [orb negb]; [discriminate|].
      destruct (is_string (field (field item "json") "dt_geracao_recb"))
        eqn:H1; cbn [andb].
      * intros H2. rewrite (date_field_string _ H1). cbn [bindR].
        rewrite (date_field_not_string _ H2). reflexivity.
      * intros _. rewrite (date_field_not_string _ H1). reflexivity.
Qed.

Lemma cobranca_of_returns item :
  billing_row_readable item = true -> exists c, cobranca_of item = Ok c.
Proof. intros H. rewrite (cobranca_of_readable item H). eauto. Qed.

Lemma cobrancas_unreadable items :
  forallb billing_row_readable items = false ->
  cobrancas items = Raise TypeError.
Proof.
  induction items as [|item items IH]; cbn [forallb]; [discriminate|].
  destruct (billing_row_readable item) eqn:Hi; cbn [andb]; intros H.
  - destruct (cobranca_of_returns item Hi) as [c Hc].
    cbn [cobrancas]. rewrite Hc. cbn [bindR]. rewrite (IH H). reflexivity.
  - cbn [cobrancas]. rewrite (cobranca_of_unreadable item Hi). reflexivity.
Qed.

End Rows.

(** * The tool handlers *)

Section ToolFacts.

Context {S : Type} (store_rows : JValue -> Prog S unit).
Context {erro_na_requisicao : string} {otp_message : string -> string}.

(** [store_rows] only touches the page state. *)
Hypothesis store_rows_quiet :
  forall v w s tr, exists s', run w (store_rows v) s tr = mkOutcome tr s' (Ok tt).

Ltac quiet :=
  rewrite ?run_bind;
  try match goal with
      | |- context [run ?w (store_rows ?v) ?s ?tr] =>
          let s' := fresh "s'" in
          destruct (store_rows_quiet v w s tr) as [s' ->]
      end.

Lemma requests_generate_token w s tr phone token :
  requests (trace (run w (generate_token (S:=S) otp_message phone token) s tr)) =
  requests tr ++ [generate_token_request otp_message phone token].
Proof. unfold generate_token. exec; trace_done. Qed.

Lemma requests_get_user_data w s tr phone :
  requests (trace (run w (get_user_data store_rows erro_na_requisicao phone) s tr)) =
  requests tr ++ [get_user_data_request phone].
Proof. unfold get_user_data. exec; quiet; exec; trace_done. Qed.

Lemma requests_get_contacts w s tr phone id_condominio :
  requests (trace (run w (get_contacts (S:=S) erro_na_requisicao phone id_condominio) s tr)) =
  requests tr ++ [get_contacts_request phone id_condominio].
Proof. unfold get_contacts. exec; trace_done. Qed.

Lemma requests_get_payment_link w s tr phone id_condominio id_unidade :
  requests
    (trace (run w (get_payment_link (S:=S) erro_na_requisicao phone id_condominio id_unidade) s tr)) =
  requests tr ++ [get_payment_link_request w tr id_condominio id_unidade].
Proof. unfold get_payment_link. exec; trace_done. Qed.

(** What each handler hands back when the world answers every request
    with the response [r]. *)
Section OneResponse.

Variables (w : World) (r : Response).
Hypothesis reply : forall tr req, fetch_reply w tr req = Ok r.

Lemma result_generate_token s tr phone token :
  result (run w (generate_token (S:=S) otp_message phone token) s tr) =
  if ok r then
    match json r with
    | Some _ => Ok (JStr "")
    | None => Raise SyntaxError
    end
  else Raise (Error ("Erro ao enviar OTP: " +:+ pretty (status r) +:+ " " +:+
                     statusText r)).
Proof.
  unfold generate_token. cbn [run bind fetch]. rewrite reply.
  exec; reflexivity.
Qed.

Lemma result_get_user_data s tr phone :
  result (run w (get_user_data store_rows erro_na_requisicao phone) s tr) =
  if ok r then
    match json r with
    | Some v =>
        match (let? items := iterate v in
               mapR (cond_of (formatPhoneNumber phone)) items)%res with
        | Ok arr => Ok (JObj [("data", JArr arr)])
        | Raise e => Raise e
        end
    | None => Raise SyntaxError
    end
  else Raise (Error (erro_na_requisicao +:+ pretty (status r) +:+ " " +:+
                     statusText r)).
Proof.
  unfold get_user_data. cbn [run bind fetch]. rewrite reply.
  exec; quiet; exec; reflexivity.
Qed.

Lemma result_get_payment_link s tr phone id_condominio id_unidade :
  result (run w (get_payment_link (S:=S) erro_na_requisicao phone id_condominio id_unidade) s tr) =
  if ok r then
    match json r with
    | Some v =>
        match (let? items := iterate v in cobrancas items)%res with
        | Ok arr => Ok (JObj [("data", JArr arr)])
        | Raise e => Raise e
        end
    | None => Raise SyntaxError
    end
  else Raise (Error (erro_na_requisicao +:+ pretty (status r) +:+ " " +:+
                     statusText r)).
Proof.
  unfold get_payment_link. cbn [run bind fetch now]. rewrite reply.
  exec; reflexivity.
Qed.

Lemma result_get_contacts s tr phone id_condominio :
  result (run w (get_contacts (S:=S) erro_na_requisicao phone id_condominio) s tr) =
  if ok r then
    match json r with
    | Some v =>
        match (let? contatos := get_prop v "contatos" in
               let? items := iterate contatos in
               mapR contato_of items)%res with
        | Ok arr => Ok (JObj [("data", JArr arr)])
        | Raise e => Raise e
        end
    | None => Raise SyntaxError
    end
  else Raise (Error (erro_na_requisicao +:+ pretty (status r) +:+ " " +:+
                     statusText r)).
Proof.
  unfold get_contacts. cbn [run bind fetch]. rewrite reply.
  exec; reflexivity.
Qed.

End OneResponse.

End ToolFacts.

(** * Dates *)

Section Dates.

Lemma digit_not_space c : is_digit c = true -> is_space c = false.
Proof.
  unfold is_digit, is_space. intros H.
  apply andb_prop in H as [H1 H2].
  apply N.leb_le in H1, H2.
  repeat match goal with
         | |- context [(?a <=? ?b)%N] => destruct (N.leb_spec a b)
         | |- context [(?a =? ?b)%N] => destruct (N.eqb_spec a b)
         end; cbn; try reflexivity; lia.
Qed.

Lemma space_not_digit c : is_space c = true -> is_digit c = false.
Proof.
  intros H. destruct (is_digit c) eqn:E; [|reflexivity].
  rewrite (digit_not_space c E) in H. discriminate.
Qed.

Lemma digit_not_colon c : is_digit c = true -> Ascii.eqb ":" c = false.
Proof.
  intros H. destruct (Ascii.eqb_spec ":" c) as [<-|]; [discriminate H|reflexivity].
Qed.

Lemma digit_not_slash c : is_digit c = true -> Ascii.eqb "/" c = false.
Proof.
  intros H. destruct (Ascii.eqb_spec "/" c) as [<-|]; [discriminate H|reflexivity].
Qed.

Lemma digits_2 s : digits 2 s -> exists a b, s = String a (String b "") /\ is_digit a = true /\ is_digit b = true.
Proof.
  intros [Hl Hd]. destruct s as [|a [|b [|c s]]]; try discriminate Hl.
  cbn in Hd. rewrite andb_true_r in Hd. apply andb_prop in Hd as [? ?]. eauto.
Qed.

Lemma digits_4 s : digits 4 s -> exists a b c d, s = String a (String b (String c (String d ""))) /\ is_digit a = true /\ is_digit b = true /\ is_digit c = true /\ is_digit d = true.
Proof.
  intros [Hl Hd]. destruct s as [|a [|b [|c [|d [|e s]]]]]; try discriminate Hl.
  cbn in Hd. rewrite andb_true_r in Hd. 
  apply andb_prop in Hd as [? Hd]. apply andb_prop in Hd as [? Hd]. apply andb_prop in Hd as [? ?].
  eauto 10.
Qed.

Ltac char_facts :=
  repeat match goal with
         | H : is_digit ?c = true |- context [is_space ?c] =>
             rewrite (digit_not_space c H)
         | H : is_digit ?c = true |- context [is_digit ?c] => rewrite H
         | H : is_space ?c = true |- context [is_space ?c] => rewrite H
         | H : is_space ?c = true |- context [is_digit ?c] =>
             rewrite (space_not_digit c H)
         | H : is_digit ?c = true |- context [Ascii.eqb ":" ?c] =>
             rewrite (digit_not_colon c H)
         | H : is_digit ?c = true |- context [Ascii.eqb "/" ?c] =>
             rewrite (digit_not_slash c H)
         | |- context [is_space (Ascii ?a ?b ?c ?d ?e ?f ?g ?h)] =>
             let t := constr:(is_space (Ascii a b c d e f g h)) in
             let v := eval vm_compute in t in change t with v
         | |- context [is_digit (Ascii ?a ?b ?c ?d ?e ?f ?g ?h)] =>
             let t := constr:(is_digit (Ascii a b c d e f g h)) in
             let v := eval vm_compute in t in change t with v
         | |- context [Ascii.eqb (Ascii ?a ?b ?c ?d ?e ?f ?g ?h)
                         (Ascii ?a' ?b' ?c' ?d' ?e' ?f' ?g' ?h')] =>
             let t := constr:(Ascii.eqb (Ascii a b c d e f g h)
                                (Ascii a' b' c' d' e' f' g' h')) in
             let v := eval vm_compute in t in change t with v
         end.

Ltac date_crunch :=
  repeat (progress (cbn [replace match_here matches in_class expand cap_get
               consumed take_str String.length Nat.sub Nat.eqb];
          char_facts)).

Lemma format_date_with_time dd mm yyyy sp hh mi ss :
  digits 2 dd -> digits 2 mm -> digits 4 yyyy -> is_space sp = true ->
  digits 2 hh -> digits 2 mi -> digits 2 ss ->
  format_date (dd +:+ "/" +:+ mm +:+ "/" +:+ yyyy +:+
               String sp (hh +:+ ":" +:+ mi +:+ ":" +:+ ss)) =
  mm +:+ "/" +:+ dd +:+ "/" +:+ yyyy.
Proof.
  intros Hdd Hmm Hyy Hsp Hhh Hmi Hss.
  apply digits_2 in Hdd as (d1 & d2 & -> & ? & ?).
  apply digits_2 in Hmm as (m1 & m2 & -> & ? & ?).
  apply digits_4 in Hyy as (y1 & y2 & y3 & y4 & -> & ? & ? & ? & ?).
  apply digits_2 in Hhh as (h1 & h2 & -> & ? & ?).
  apply digits_2 in Hmi as (i1 & i2 & -> & ? & ?).
  apply digits_2 in Hss as (s1 & s2 & -> & ? & ?).
  unfold format_date, time_regex, date_regex.
  cbv [String.append].
  date_crunch.
  reflexivity.
Qed.

Lemma format_date_without_time dd mm yyyy :
  digits 2 dd -> digits 2 mm -> digits 4 yyyy ->
  format_date (dd +:+ "/" +:+ mm +:+ "/" +:+ yyyy) =
  mm +:+ "/" +:+ dd +:+ "/" +:+ yyyy.
Proof.
  intros Hdd Hmm Hyy.
  apply digits_2 in Hdd as (d1 & d2 & -> & ? & ?).
  apply digits_2 in Hmm as (m1 & m2 & -> & ? & ?).
  apply digits_4 in Hyy as (y1 & y2 & y3 & y4 & -> & ? & ? & ? & ?).
  unfold format_date, time_regex, date_regex.
  cbv [String.append].
  date_crunch.
  reflexivity.
Qed.
(** The time is deleted where it stands: what follows it is kept. *)
Lemma format_date_with_time_then dd mm yyyy sp hh mi ss rest :
  digits 2 dd -> digits 2 mm -> digits 4 yyyy -> is_space sp = true ->
  digits 2 hh -> digits 2 mi -> digits 2 ss ->
  format_date (dd +:+ "/" +:+ mm +:+ "/" +:+ yyyy +:+
               String sp (hh +:+ ":" +:+ mi +:+ ":" +:+ ss +:+ rest)) =
  mm +:+ "/" +:+ dd +:+ "/" +:+ yyyy +:+ rest.
Proof.
  intros Hdd Hmm Hyy Hsp Hhh Hmi Hss.
  apply digits_2 in Hdd as (d1 & d2 & -> & ? & ?).
  apply digits_2 in Hmm as (m1 & m2 & -> & ? & ?).
  apply digits_4 in Hyy as (y1 & y2 & y3 & y4 & -> & ? & ? & ? & ?).
  apply digits_2 in Hhh as (h1 & h2 & -> & ? & ?).
  apply digits_2 in Hmi as (i1 & i2 & -> & ? & ?).
  apply digits_2 in Hss as (s1 & s2 & -> & ? & ?).
  rewrite format_date_refines. unfold reformat_date.
  cbv [String.append]. fold String.append.
  repeat (progress (cbn [delete_first_time time_prefix andb]; char_facts)).
  repeat (progress (cbn [swap_first_date date_prefix andb]; char_facts)).
  reflexivity.
Qed.

End Dates.

(** * The tools of the two pages *)

Section PageTools.

Lemma console_store_rows_quiet v w s tr :
  exists s', run w (ConsolePage.store_rows v) s tr = mkOutcome tr s' (Ok tt).
Proof. eexists. reflexivity. Qed.

Lemma main_store_rows_quiet v w (s : Main.State) tr :
  exists s', run w ((fun _ : JValue => Ret tt) v) s tr = mkOutcome tr s' (Ok tt).
Proof. eexists. reflexivity. Qed.

(** Each page registers the shared handlers, with a quiet [store_rows]. *)
Lemma page_tool_handler (p : Page) :
  exists store_rows : JValue -> Prog (PageState p) unit,
    (forall v w s tr,
        exists s', run w (store_rows v) s tr = mkOutcome tr s' (Ok tt)) /\
    page_tool p = handler store_rows (page_erro p) (page_otp p).
Proof.
  destruct p.
  - exists ConsolePage.store_rows. split; [apply console_store_rows_quiet|reflexivity].
  - exists (fun _ => Ret tt). split; [apply main_store_rows_quiet|reflexivity].
Qed.

(** C1. The handlers of [get_llmbuilder] and [requestAssistance] return the
    empty string at once: on both pages, for every argument, the run ends
    with an empty trace, so without any HTTP request. *)
Theorem stub_tools_issue_no_request :
  forall (p : Page) (w : World) (s : PageState p) (phone condomino : string),
    run w (page_tool p (Call_get_llmbuilder phone condomino)) s [] =
      mkOutcome [] s (Ok (JStr "")) /\
    run w (page_tool p (Call_requestAssistance phone)) s [] =
      mkOutcome [] s (Ok (JStr "")).
Proof. intros [] w s phone condomino; split; reflexivity. Qed.

Lemma requests_page_tool (p : Page) (c : ToolCall) w s :
  requests (trace (run w (page_tool p c) s [])) =
  match c with
  | Call_generate_token token phone =>
      [generate_token_request (page_otp p) phone token]
  | Call_get_user_data phone => [get_user_data_request phone]
  | Call_get_payment_link phone id_condominio id_unidade =>
      [get_payment_link_request w [] id_condominio id_unidade]
  | Call_get_contacts phone id_condominio =>
      [get_contacts_request phone id_condominio]
  | Call_get_llmbuilder _ _ | Call_requestAssistance _ => []
  end.
Proof.
  destruct (page_tool_handler p) as (store_rows & Hq & ->).
  destruct c; cbn [handler].
  - apply (requests_generate_token (otp_message:=page_otp p) w s []).
  - apply (requests_get_user_data store_rows Hq).
  - apply requests_get_payment_link.
  - apply requests_get_contacts.
  - reflexivity.
  - reflexivity.
Qed.

(** C5. Whatever the arguments and whatever the world answers, a call of
    a tool for which the specification names an endpoint sends one request
    and no more, and that request has the method named there and goes to
    the URL named there: the scheme, host and path of the URL do not
    depend on the arguments.  The two tools without an endpoint send
    nothing. *)
Theorem tool_endpoints_are_fixed :
  forall (p : Page) (c : ToolCall) (w : World) (s : PageState p),
    match endpoint_spec c with
    | Some (m, endpoint) =>
        exists req,
          requests (trace (run w (page_tool p c) s [])) = [req] /\
          Effects.method req = m /\
          scheme_host_path (url req) = endpoint
    | None => requests (trace (run w (page_tool p c) s [])) = []
    end /\
    Forall
      (fun req =>
         Some (Effects.method req, scheme_host_path (url req)) = endpoint_spec c)
      (requests (trace (run w (page_tool p c) s []))).
Proof.
  intros p c w s. rewrite requests_page_tool.
  destruct c; cbn [endpoint_spec]; split; try reflexivity;
    try (eexists; split; [reflexivity|split; reflexivity]);
    repeat constructor.
Qed.

Lemma result_page_tool_not_ok (p : Page) (c : ToolCall) w s r :
  (forall tr req, fetch_reply w tr req = Ok r) ->
  calls_backend c = true -> ok r = false ->
  exists msg,
    result (run w (page_tool p c) s []) = Raise (Error msg) /\
    contains msg (pretty (status r)).
Proof.
  intros Hr Hc Hok.
  destruct (page_tool_handler p) as (store_rows & Hq & ->).
  destruct c; try discriminate Hc; cbn [handler].
  - rewrite (result_generate_token w r Hr), Hok.
    eexists; split; [reflexivity|]. exists "Erro ao enviar OTP: ". eexists. reflexivity.
  - rewrite (result_get_user_data store_rows Hq w r Hr), Hok.
    eexists; split; [reflexivity|]. eexists. eexists. reflexivity.
  - rewrite (result_get_payment_link w r Hr), Hok.
    eexists; split; [reflexivity|]. eexists. eexists. reflexivity.
  - rewrite (result_get_contacts w r Hr), Hok.
    eexists; split; [reflexivity|]. eexists. eexists. reflexivity.
Qed.

Lemma result_page_tool_ok (p : Page) (c : ToolCall) w s r :
  (forall tr req, fetch_reply w tr req = Ok r) ->
  calls_backend c = true -> ok r = true -> body_readable c r = true ->
  exists v, result (run w (page_tool p c) s []) = Ok v /\ returns_data c v.
Proof.
  intros Hr Hc Hok Hbody.
  destruct (page_tool_handler p) as (store_rows & Hq & ->).
  unfold body_readable in Hbody.
  destruct (json r) as [v|] eqn:Ejson; [|discriminate].
  destruct c; try discriminate Hc; cbn [handler returns_data].
  - rewrite (result_generate_token w r Hr), Hok, Ejson. eauto.
  - rewrite (result_get_user_data store_rows Hq w r Hr), Hok, Ejson.
    destruct (iterate v) as [items|] eqn:Eit; [|discriminate].
    cbn [bindR]. rewrite (mapR_cond_of _ _ Hbody). eauto.
  - rewrite (result_get_payment_link w r Hr), Hok, Ejson.
    destruct (iterate v) as [items|] eqn:Eit; [|discriminate].
    cbn [bindR]. rewrite (cobrancas_readable _ Hbody). eauto.
  - rewrite (result_get_contacts w r Hr), Hok, Ejson.
    destruct (iterate (field v "contatos")) as [items|] eqn:Eit; [|discriminate].
    apply andb_prop in Hbody as [Hv Hrows]. apply negb_true_iff in Hv.
    rewrite (get_prop_field v) by exact Hv. cbn [bindR]. rewrite Eit. cbn [bindR].
    destruct (mapR_contato_of _ Hrows) as [arr ->]. eauto.
Qed.

Lemma result_page_tool_unreadable (p : Page) (c : ToolCall) w s r :
  (forall tr req, fetch_reply w tr req = Ok r) ->
  calls_backend c = true -> ok r = true -> body_readable c r = false ->
  result (run w (page_tool p c) s []) =
  Raise (match json r with
         | None => SyntaxError
         | Some _ => TypeError
         end).
Proof.
  intros Hr Hc Hok Hbody.
  destruct (page_tool_handler p) as (store_rows & Hq & ->).
  unfold body_readable in Hbody.
  destruct c; try discriminate Hc; cbn [handler].
  - rewrite (result_generate_token w r Hr), Hok.
    destruct (json r); [discriminate Hbody|reflexivity].
  - rewrite (result_get_user_data store_rows Hq w r Hr), Hok.
    destruct (json r) as [v|]; [|reflexivity].
    destruct (iterate v) as [items|e] eqn:Eit; cbn [bindR].
    + rewrite (mapR_cond_of_unreadable _ _ Hbody). reflexivity.
    + destruct v; try discriminate Eit; injection Eit as <-; reflexivity.
  - rewrite (result_get_payment_link w r Hr), Hok.
    destruct (json r) as [v|]; [|reflexivity].
    destruct (iterate v) as [items|e] eqn:Eit; cbn [bindR].
    + rewrite (cobrancas_unreadable _ Hbody). reflexivity.
    + destruct v; try discriminate Eit; injection Eit as <-; reflexivity.
  - rewrite (result_get_contacts w r Hr), Hok.
    destruct (json r) as [v|]; [|reflexivity].
    destruct (nullish v) eqn:Hv.
    + destruct v; try discriminate Hv; reflexivity.
    + rewrite (get_prop_field v "contatos" Hv). cbn [bindR].
      destruct (iterate (field v "contatos")) as [items|e] eqn:Eit;
        cbn [bindR negb andb] in Hbody |- *.
      * rewrite (mapR_contato_of_unreadable _ Hbody). reflexivity.
      * destruct (field v "contatos"); try discriminate Eit;
          injection Eit as <-; reflexivity.
Qed.

(** C2, as the code has it.  For each of the four backend tools, on either
    page, and for every response with which the world answers.  When the
    response is not ok the handler raises an Error whose message contains
    the status.  When it is ok and its body has the shape the handler
    reads, the handler returns normally, the empty string for
    [generate_token] and an object [{data: [...]}] for the three
    Superlogica tools.  When it is ok and its body is not JSON, the
    handler raises a SyntaxError; when it is ok and its body is JSON of
    another shape, the handler raises a TypeError.  So the handler raises
    an Error that carries the status exactly when the response is not ok,
    but it does not return on every ok response. *)
Theorem tool_raises_iff_response_not_ok :
  forall (p : Page) (c : ToolCall) (w : World) (s : PageState p) (r : Response),
    calls_backend c = true ->
    (forall tr req, fetch_reply w tr req = Ok r) ->
    let out := result (run w (page_tool p c) s []) in
    (ok r = false ->
     exists msg, out = Raise (Error msg) /\ contains msg (pretty (status r))) /\
    (ok r = true -> body_readable c r = true ->
     exists v, out = Ok v /\ returns_data c v) /\
    (ok r = true -> json r = None -> out = Raise SyntaxError) /\
    (ok r = true -> json r <> None -> body_readable c r = false ->
     out = Raise TypeError) /\
    ((exists msg, out = Raise (Error msg)) <-> ok r = false).
Proof.
  intros p c w s r Hc Hr out. subst out.
  assert (Hnot : ok r = false ->
                 exists msg,
                   result (run w (page_tool p c) s []) = Raise (Error msg) /\
                   contains msg (pretty (status r))).
  { intros Hok. apply (result_page_tool_not_ok p c w s r); auto. }
  assert (Hread : ok r = true -> body_readable c r = true ->
                  exists v,
                    result (run w (page_tool p c) s []) = Ok v /\
                    returns_data c v).
  { intros Hok Hb. apply (result_page_tool_ok p c w s r); auto. }
  assert (Hsyn : ok r = true -> json r = None ->
                 result (run w (page_tool p c) s []) = Raise SyntaxError).
  { intros Hok Hj.
    rewrite (result_page_tool_unreadable p c w s r Hr Hc Hok).
    - rewrite Hj. reflexivity.
    - unfold body_readable. rewrite Hj. reflexivity. }
  assert (Htyp : ok r = true -> json r <> None -> body_readable c r = false ->
                 result (run w (page_tool p c) s []) = Raise TypeError).
  { intros Hok Hj Hb.
    rewrite (result_page_tool_unreadable p c w s r Hr Hc Hok Hb).
    destruct (json r); [reflexivity|contradiction]. }
  split; [exact Hnot|]. split; [exact Hread|]. split; [exact Hsyn|].
  split; [exact Htyp|].
  split.
  - intros [msg Hmsg]. destruct (ok r) eqn:Hok; [|reflexivity].
    destruct (body_readable c r) eqn:Hb.
    + destruct (Hread eq_refl eq_refl) as (v & Hv & _). congruence.
    + destruct (json r) as [v|] eqn:Hj.
      * rewrite (Htyp eq_refl) in Hmsg; [discriminate|discriminate|reflexivity].
      * rewrite (Hsyn eq_refl eq_refl) in Hmsg. discriminate.
  - intros Hok. destruct (Hnot Hok) as (msg & Hmsg & _). eauto.
Qed.

(** C7, as the code has it.  When the unidades endpoint answers ok with a
    JSON array none of whose rows is null, [get_user_data] returns
    [{data: arr}] with one element per response row, in response order,
    built from the row as the specification says and carrying
    [formatPhoneNumber(phone)] as [telefone]. *)
Theorem get_user_data_maps_rows :
  forall (p : Page) (phone : string) (w : World) (s : PageState p)
         (r : Response) (items : list JValue),
    (forall tr req, fetch_reply w tr req = Ok r) ->
    ok r = true ->
    json r = Some (JArr items) ->
    rows_readable items = true ->
    result (run w (page_tool p (Call_get_user_data phone)) s []) =
    Ok (JObj [("data", JArr (map (cond_spec phone) items))]).
Proof.
  intros p phone w s r items Hr Hok Hjson Hrows.
  destruct (page_tool_handler p) as (store_rows & Hq & ->). cbn [handler].
  rewrite (result_get_user_data store_rows Hq w r Hr), Hok, Hjson.
  cbn [iterate bindR]. rewrite (mapR_cond_of _ _ Hrows). reflexivity.
Qed.

(** C3, as the code has it.  When the billing endpoint answers ok with a
    JSON array whose rows can be read, [get_payment_link] returns
    [{data: arr}] where [arr] holds, in input order, one row for each input
    row whose [json.status] is defined, built as [cobranca_spec] says: the
    two dates reformatted, [valor], [total], [pix] and [link] copied, and
    [juros], [multa] and [status] present exactly when their source is not
    the empty string, [status] being "Pago" exactly for the source "3".
    On an array with a row that cannot be read the handler throws a
    TypeError.  The reformatting of the code is, on every string, the one
    [reformat_date] describes: it deletes the first white-space character
    followed by hh:mm:ss, wherever it stands, and then swaps the first
    two groups of the first DD/MM/YYYY; so DD/MM/YYYY, alone or followed
    by a blank and hh:mm:ss and then by anything, becomes MM/DD/YYYY
    followed by that. *)
Theorem get_payment_link_rows :
  (forall (p : Page) (phone id_condominio id_unidade : string) (w : World)
          (s : PageState p) (r : Response) (items : list JValue),
      (forall tr req, fetch_reply w tr req = Ok r) ->
      ok r = true ->
      json r = Some (JArr items) ->
      (forallb billing_row_readable items = true ->
       result (run w (page_tool p
                        (Call_get_payment_link phone id_condominio id_unidade))
                 s []) =
       Ok (JObj [("data",
                  JArr (map (fun item => cobranca_spec (field item "json"))
                          (List.filter has_status items)))])) /\
      (forallb billing_row_readable items = false ->
       result (run w (page_tool p
                        (Call_get_payment_link phone id_condominio id_unidade))
                 s []) = Raise TypeError)) /\
  (forall s : string, format_date s = reformat_date s) /\
  (forall dd mm yyyy sp hh mi ss rest,
      digits 2 dd -> digits 2 mm -> digits 4 yyyy -> is_space sp = true ->
      digits 2 hh -> digits 2 mi -> digits 2 ss ->
      format_date (dd +:+ "/" +:+ mm +:+ "/" +:+ yyyy +:+
                   String sp (hh +:+ ":" +:+ mi +:+ ":" +:+ ss +:+ rest)) =
      mm +:+ "/" +:+ dd +:+ "/" +:+ yyyy +:+ rest) /\
  (forall dd mm yyyy sp hh mi ss,
      digits 2 dd -> digits 2 mm -> digits 4 yyyy -> is_space sp = true ->
      digits 2 hh -> digits 2 mi -> digits 2 ss ->
      format_date (dd +:+ "/" +:+ mm +:+ "/" +:+ yyyy +:+
                   String sp (hh +:+ ":" +:+ mi +:+ ":" +:+ ss)) =
      mm +:+ "/" +:+ dd +:+ "/" +:+ yyyy) /\
  (forall dd mm yyyy,
      digits 2 dd -> digits 2 mm -> digits 4 yyyy ->
      format_date (dd +:+ "/" +:+ mm +:+ "/" +:+ yyyy) =
      mm +:+ "/" +:+ dd +:+ "/" +:+ yyyy).
Proof.
  split; [|split; [|split; [|split]]].
  - intros p phone idc idu w s r items Hr Hok Hjson.
    destruct (page_tool_handler p) as (store_rows & Hq & ->). cbn [handler].
    rewrite (result_get_payment_link w r Hr), Hok, Hjson.
    cbn [iterate bindR]. split; intros Hrows.
    + rewrite (cobrancas_readable _ Hrows). reflexivity.
    + rewrite (cobrancas_unreadable _ Hrows). reflexivity.
  - exact format_date_refines.
  - exact format_date_with_time_then.
  - exact format_date_with_time.
  - exact format_date_without_time.
Qed.



End PageTools.

(** * The avatar hook *)

Section HeygenFacts.

Variables apiKey serverUrl : string.

Lemma run_heygenUpdateStatus w refs tr message :
  run w (heygenUpdateStatus message) refs tr =
  mkOutcome
    ((tr ++ [EClock]) ++
     [ELog "log"
        [JStr ("[" +:+ toLocaleTimeString (clock w tr) +:+ "] " +:+ message)]])
    refs (Ok tt).
Proof. reflexivity. Qed.

(** With an empty text [heygenSendText] only logs. *)
Lemma run_heygenSendText_empty w refs tr :
  run w (heygenSendText apiKey serverUrl "") refs tr =
  mkOutcome
    ((tr ++ [EClock]) ++
     [ELog "log"
        [JStr ("[" +:+ toLocaleTimeString (clock w tr) +:+ "] " +:+
               "No message to be sent")]])
    refs (Ok tt).
Proof. reflexivity. Qed.

Lemma heygenCloseSession_returns w refs tr :
  result (run w (heygenCloseSession apiKey serverUrl) refs tr) = Ok tt.
Proof.
  unfold heygenCloseSession.
  cbn [bind run ref_object truthy negb].
  apply try_catch_returns. intros e w' s' tr'. reflexivity.
Qed.


End HeygenFacts.

(** C10. [useHeygen] throws "Heygen -> Both apiKey and serverUrl are
    required." exactly when one of its two arguments is the empty string.
    With both nonempty it returns its four members, and the
    [heygenSendText] it returns, called with an empty text, adds no HTTP
    request to the trace. *)
Theorem useHeygen_requires_both :
  forall apiKey serverUrl : string,
    (useHeygen apiKey serverUrl =
       Raise (Error "Heygen -> Both apiKey and serverUrl are required.") <->
     apiKey = "" \/ serverUrl = "") /\
    (apiKey <> "" -> serverUrl <> "" ->
     exists hook,
       useHeygen apiKey serverUrl = Ok hook /\
       hook = mkHook (heygenStart apiKey serverUrl) (heygenEnd apiKey serverUrl)
                (heygenSendText apiKey serverUrl) MediaElementRef /\
       forall w refs tr,
         result (run w (hook_heygenSendText hook "") refs tr) = Ok tt /\
         requests (trace (run w (hook_heygenSendText hook "") refs tr)) =
         requests tr).
Proof.
  intros apiKey serverUrl. unfold useHeygen. cbn [truthy].
  destruct (String.eqb_spec apiKey "") as [->|Hk];
    destruct (String.eqb_spec serverUrl "") as [->|Hu]; cbn [negb orb].
  - split; [tauto|]. intros H; contradiction.
  - split; [tauto|]. intros H; contradiction.
  - split; [tauto|]. intros _ H; contradiction.
  - split.
    + split; [discriminate|]. intros [H|H]; contradiction.
    + intros _ _. eexists. split; [reflexivity|]. split; [reflexivity|].
      intros w refs tr. cbn [hook_heygenSendText].
      rewrite run_heygenSendText_empty. cbn [result trace].
      split; [reflexivity|].
      rewrite !requests_app. cbn [requests]. rewrite !app_nil_r. reflexivity.
Qed.

(** * Connecting and disconnecting *)

Section Connection.

Lemma heygen_set_get s : Main.set_heygen (Main.heygen s) s = s.
Proof. destruct s; reflexivity. Qed.








End Connection.

(** * The event log *)

Section EventLogFacts.

Lemma removelast_last (evs : list loc) l :
  last evs = Some l -> removelast evs ++ [l] = evs.
Proof.
  induction evs as [|x evs IH]; [discriminate|].
  destruct evs as [|y evs]; cbn [last removelast].
  - intros H. injection H as ->. reflexivity.
  - intros H. cbn [app]. f_equal. apply IH. exact H.
Qed.




(** Same type as the last entry: the array keeps its entries and the last
    object gets the next count. *)
Lemma log_event_same_type (h : Store) evs l e r ev :
  last evs = Some l -> h !! l = Some e -> h !! r = Some ev ->
  (let? t := get_prop (event e) "type" in
   let? t' := get_prop (event ev) "type" in
   Ok (strict_eq t t'))%res = Ok true ->
  log_event r h evs =
  Ok (<[l := set_count e (next_count (count e))]> h, evs).
Proof.
  intros Hlast Hl Hr Ht. unfold log_event, last_ref, slice_0_m1, deref.
  rewrite Hlast, Hl, Hr. cbn [bindR].
  destruct (get_prop (event e) "type") as [t|]; [|discriminate].
  cbn [bindR] in Ht |- *.
  destruct (get_prop (event ev) "type") as [t'|]; [|discriminate].
  cbn [bindR] in Ht |- *. injection Ht as ->.
  rewrite (removelast_last _ _ Hlast). reflexivity.
Qed.

(** Another type than the last entry: the event is appended as it is. *)
Lemma log_event_other_type (h : Store) evs l e r ev :
  last evs = Some l -> h !! l = Some e -> h !! r = Some ev ->
  (let? t := get_prop (event e) "type" in
   let? t' := get_prop (event ev) "type" in
   Ok (strict_eq t t'))%res = Ok false ->
  log_event r h evs = Ok (h, evs ++ [r]).
Proof.
  intros Hlast Hl Hr Ht. unfold log_event, last_ref, deref.
  rewrite Hlast, Hl, Hr. cbn [bindR].
  destruct (get_prop (event e) "type") as [t|]; [|discriminate].
  cbn [bindR] in Ht |- *.
  destruct (get_prop (event ev) "type") as [t'|]; [|discriminate].
  cbn [bindR] in Ht |- *. injection Ht as ->. reflexivity.
Qed.

(** The entry is updated in place: whoever holds its reference, the
    previous array included, reads the new count. *)
Lemma log_event_updates_shared_entry (h h' : Store) evs evs' l e r ev :
  last evs = Some l -> h !! l = Some e -> h !! r = Some ev ->
  (let? t := get_prop (event e) "type" in
   let? t' := get_prop (event ev) "type" in
   Ok (strict_eq t t'))%res = Ok true ->
  log_event r h evs = Ok (h', evs') ->
  evs' = evs /\
  count <$> h' !! l = Some (Some (next_count (count e))).
Proof.
  intros Hlast Hl Hr Ht.
  rewrite (log_event_same_type h evs l e r ev Hlast Hl Hr Ht).
  intros H. injection H as <- <-. split; [reflexivity|].
  rewrite lookup_insert_eq. reflexivity.
Qed.

(** The first event is appended when it has a type. *)
Lemma log_event_first (h : Store) r ev t :
  h !! r = Some ev -> get_prop (event ev) "type" = Ok t ->
  strict_eq JUndefined t = false ->
  log_event r h [] = Ok (h, [r]).
Proof.
  intros Hr Ht Hne. unfold log_event, last_ref, deref.
  cbn [last bindR]. rewrite Hr. cbn [bindR]. rewrite Ht. cbn [bindR].
  rewrite Hne. reflexivity.
Qed.

(** [(count || 0) + 1]: one more than the count, one when there was none. *)
Lemma next_count_spec c :
  next_count c = match c with Some n => (n + 1)%N | None => 1%N end.
Proof.
  destruct c as [n|]; [|reflexivity]. unfold next_count.
  destruct (N.eqb_spec n 0) as [->|]; reflexivity.
Qed.


(** The invariant of the log, on both pages: it holds of the empty log
    and every event keeps it for as long as the page is mounted. *)
Lemma console_log_ok_initial t : console_log_ok (ConsolePage.initial t).
Proof. exact I. Qed.

(** The handler of ConsolePage returns at once; the page is what React
    makes of the update. *)
Lemma run_console_event w r s :
  run w (ConsolePage.on_realtime_event r) (Mounted s) [] =
  mkOutcome [] (ConsolePage.apply_log_update r s) (Ok tt).
Proof. reflexivity. Qed.


Lemma report_failed_response_state {S} w (h : Store) r (s : S) tr :
  final (run w (report_failed_response h r) s tr) = s.
Proof.
  unfold report_failed_response. exec;
    repeat (try destruct (loose_eq_lit _ _); exec); reflexivity.
Qed.

(** The handler of Main: when the report throws, so does the handler and
    the page is as before; else the page is what React makes of the
    update. *)
Lemma run_main_event w r s :
  run w (Main.on_realtime_event r) (Mounted s) [] =
  let report :=
    run w (report_failed_response (Main.heap s) r) (Mounted s) [] in
  match result report with
  | Ok _ => mkOutcome (trace report) (Main.apply_log_update r s) (Ok tt)
  | Raise e => mkOutcome (trace report) (Mounted s) (Raise e)
  end.
Proof.
  unfold Main.on_realtime_event. cbn [run]. rewrite run_bind.
  rewrite report_failed_response_state.
  destruct (result (run w (report_failed_response _ _) _ [])); reflexivity.
Qed.


(** C9 at its failing input.  The log is empty and the incoming event has
    no [type]: the comparison [undefined === undefined] succeeds and the
    updater goes on to write the count of a last entry that does not
    exist, which throws.  The handler itself has returned by then; React
    runs the updater when it renders, the render throws and the page is
    unmounted: the event is not appended and the log is gone.  On both
    pages. *)
Theorem first_untyped_event_is_not_logged :
  log_event 0%N untyped_store [] = Raise TypeError /\
  (forall w,
      let s := ConsolePage.setRealtimeEvents untyped_store []
                 (ConsolePage.initial "") in
      run w (ConsolePage.on_realtime_event 0%N) (Mounted s) [] =
      mkOutcome [] (Unmounted TypeError) (Ok tt)) /\
  (forall w,
      let s := Main.setRealtimeEvents untyped_store [] Main.initial in
      run w (Main.on_realtime_event 0%N) (Mounted s) [] =
      mkOutcome [] (Unmounted TypeError) (Ok tt)).
Proof.
  assert (H : log_event 0%N untyped_store [] = Raise TypeError)
    by (vm_compute; reflexivity).
  split; [exact H|]. split.
  - intros w s. rewrite run_console_event.
    unfold ConsolePage.apply_log_update. subst s.
    cbn [ConsolePage.heap ConsolePage.realtimeEvents
         ConsolePage.setRealtimeEvents].
    rewrite H. reflexivity.
  - intros w s. vm_compute. reflexivity.
Qed.

End EventLogFacts.

(** * The statements at concrete inputs *)

Section Instances.

(** C2 fails as stated: an ok response whose body is not JSON makes
    [generate_token] raise, a SyntaxError, although the response is ok. *)
Lemma ok_response_can_raise :
  ok ok_without_json = true /\
  result (run (replying ok_without_json a_date)
            (page_tool MainPage (Call_generate_token "123456" "21974894586"))
            Main.initial []) = Raise SyntaxError.
Proof. split; reflexivity. Qed.

(** C2 at a 404, at a 200 with one row, at a 200 whose body is not JSON
    and at a 200 with a null row. *)
Lemma tool_raises_iff_response_not_ok_witness :
  (exists msg,
      result (run (replying not_found a_date)
                (page_tool Console (Call_get_user_data "21974894586"))
                (ConsolePage.initial "") []) = Raise (Error msg) /\
      contains msg "404") /\
  (exists v,
      result (run (replying ok_with_unit a_date)
                (page_tool Console (Call_get_user_data "21974894586"))
                (ConsolePage.initial "") []) = Ok v /\
      returns_data (Call_get_user_data "21974894586") v) /\
  result (run (replying ok_without_json a_date)
            (page_tool Console (Call_get_user_data "21974894586"))
            (ConsolePage.initial "") []) = Raise SyntaxError /\
  result (run (replying ok_with_null_row a_date)
            (page_tool Console (Call_get_user_data "21974894586"))
            (ConsolePage.initial "") []) = Raise TypeError.
Proof.
  split; [|split; [|split]].
  - destruct (tool_raises_iff_response_not_ok Console
                (Call_get_user_data "21974894586") (replying not_found a_date)
                (ConsolePage.initial "") not_found) as (H & _).
    + reflexivity.
    + intros tr req. reflexivity.
    + apply H. reflexivity.
  - destruct (tool_raises_iff_response_not_ok Console
                (Call_get_user_data "21974894586") (replying ok_with_unit a_date)
                (ConsolePage.initial "") ok_with_unit) as (_ & H & _).
    + reflexivity.
    + intros tr req. reflexivity.
    + apply H; reflexivity.
  - destruct (tool_raises_iff_response_not_ok Console
                (Call_get_user_data "21974894586")
                (replying ok_without_json a_date)
                (ConsolePage.initial "") ok_without_json) as (_ & _ & H & _).
    + reflexivity.
    + intros tr req. reflexivity.
    + apply H; reflexivity.
  - destruct (tool_raises_iff_response_not_ok Console
                (Call_get_user_data "21974894586")
                (replying ok_with_null_row a_date)
                (ConsolePage.initial "") ok_with_null_row)
      as (_ & _ & _ & H & _).
    + reflexivity.
    + intros tr req. reflexivity.
    + apply H; [reflexivity|discriminate|reflexivity].
Defined.

(** C3 fails as stated: a row without [json] makes [get_payment_link]
    throw instead of returning, and the time that is deleted need not be
    at the end of the date. *)
Lemma billing_row_without_json_throws :
  result (run (replying ok_with_bare_row a_date)
            (page_tool MainPage (Call_get_payment_link "21974894586" "3" "452"))
            Main.initial []) = Raise TypeError /\
  format_date "05/10/2024 08:30:00 (BRT)" = "10/05/2024 (BRT)".
Proof. split; vm_compute; reflexivity. Qed.

(** C3 at a response with a dated row and a row without status, and at
    a date whose time is followed by more text. *)
Lemma get_payment_link_rows_witness :
  result (run (replying ok_with_billing a_date)
            (page_tool MainPage (Call_get_payment_link "21974894586" "3" "452"))
            Main.initial []) =
  Ok (JObj [("data",
             JArr (map (fun item => cobranca_spec (field item "json"))
                     (List.filter has_status
                        [a_billing_row; JObj [("json", JObj [])]])))]) /\
  format_date ("05" +:+ "/" +:+ "10" +:+ "/" +:+ "2024" +:+
               String " " ("08" +:+ ":" +:+ "30" +:+ ":" +:+ "00" +:+ " (BRT)")) =
  "10" +:+ "/" +:+ "05" +:+ "/" +:+ "2024" +:+ " (BRT)" /\
  format_date ("05" +:+ "/" +:+ "10" +:+ "/" +:+ "2024" +:+
               String " " ("00" +:+ ":" +:+ "00" +:+ ":" +:+ "00")) =
  "10" +:+ "/" +:+ "05" +:+ "/" +:+ "2024" /\
  format_date ("10" +:+ "/" +:+ "11" +:+ "/" +:+ "2024") =
  "11" +:+ "/" +:+ "10" +:+ "/" +:+ "2024".
Proof.
  split; [|split; [|split]].
  - apply (proj1 get_payment_link_rows MainPage "21974894586" "3" "452"
             (replying ok_with_billing a_date) Main.initial ok_with_billing
             [a_billing_row; JObj [("json", JObj [])]]).
    + intros tr req. reflexivity.
    + reflexivity.
    + reflexivity.
    + reflexivity.
  - apply (proj1 (proj2 (proj2 get_payment_link_rows))); try split;
      reflexivity.
  - apply (proj1 (proj2 (proj2 (proj2 get_payment_link_rows)))); try split;
      reflexivity.
  - apply (proj2 (proj2 (proj2 (proj2 get_payment_link_rows)))); split;
      reflexivity.
Defined.

(** The rows that request returns, written out. *)
Example billing_rows_written_out :
  map (fun item => cobranca_spec (field item "json"))
    (List.filter has_status [a_billing_row; JObj [("json", JObj [])]]) =
  [JObj [("data_boleto", JStr "10/05/2024");
         ("vencimento", JStr "11/10/2024");
         ("valor", JStr "350.00");
         ("multa", JStr "2.00");
         ("status", JStr "Pago");
         ("total", JStr "357.00");
         ("pix", JStr "00020126");
         ("link", JStr "https://example.org/boleto")]].
Proof. vm_compute. reflexivity. Qed.



(** C7 fails as stated: a null row makes [get_user_data] throw. *)
Lemma null_row_throws :
  result (run (replying ok_with_null_row a_date)
            (page_tool Console (Call_get_user_data "21974894586"))
            (ConsolePage.initial "") []) = Raise TypeError.
Proof. vm_compute. reflexivity. Qed.

(** C7 at a response with one row. *)
Lemma get_user_data_maps_rows_witness :
  result (run (replying ok_with_unit a_date)
            (page_tool Console (Call_get_user_data "+5521974894586"))
            (ConsolePage.initial "") []) =
  Ok (JObj [("data", JArr (map (cond_spec "+5521974894586") [a_unit_row]))]).
Proof.
  apply (get_user_data_maps_rows Console "+5521974894586"
           (replying ok_with_unit a_date) (ConsolePage.initial "")
           ok_with_unit [a_unit_row]).
  - intros tr req. reflexivity.
  - reflexivity.
  - reflexivity.
  - reflexivity.
Defined.


(** C10 at a key and a server address. *)
Lemma useHeygen_requires_both_witness :
  exists hook,
    useHeygen "key" "https://api.heygen.com" = Ok hook /\
    hook = a_hook /\
    forall w refs tr,
      result (run w (hook_heygenSendText hook "") refs tr) = Ok tt /\
      requests (trace (run w (hook_heygenSendText hook "") refs tr)) =
      requests tr.
Proof.
  apply (proj2 (useHeygen_requires_both "key" "https://api.heygen.com")).
  - discriminate.
  - discriminate.
Defined.

(** In Main the report of a failed response reads
    [status_details?.error.message]: without an error object the handler
    throws, and the event is not logged either; ConsolePage logs it. *)
Example failed_response_without_error :
  (forall w,
      let s := Main.setRealtimeEvents failed_store [] Main.initial in
      run w (Main.on_realtime_event 0%N) (Mounted s) [] =
      mkOutcome [] (Mounted s) (Raise TypeError)) /\
  (forall w,
      let s := ConsolePage.setRealtimeEvents failed_store []
                 (ConsolePage.initial "") in
      final (run w (ConsolePage.on_realtime_event 0%N) (Mounted s) []) =
      Mounted (ConsolePage.setRealtimeEvents failed_store [0%N]
                 (ConsolePage.initial ""))).
Proof. split; intros w s; vm_compute; reflexivity. Qed.

(** The window in October 2024, in January and in December. *)
Example window_october :
  render_enUS (month_shift 2024 9 (-2)) 5 = "8/5/2024" /\
  render_enUS (month_shift 2024 9 1) 5 = "11/5/2024".
Proof. split; vm_compute; reflexivity. Qed.

Example window_january :
  render_enUS (month_shift 2025 0 (-2)) 5 = "11/5/2024" /\
  render_enUS (month_shift 2025 0 1) 5 = "2/5/2025".
Proof. split; vm_compute; reflexivity. Qed.

Example window_december :
  render_enUS (month_shift 2024 11 (-2)) 5 = "10/5/2024" /\
  render_enUS (month_shift 2024 11 1) 5 = "1/5/2025".
Proof. split; vm_compute; reflexivity. Qed.

End Instances.

(** * Reasoning under every world *)

Section WpFacts.

Context {S : Type}.

Lemma wp_mono {A} (p : Prog S A) s (R R' : list Event -> S -> Res A -> Prop) :
  (forall evs s' r, R evs s' r -> R' evs s' r) ->
  wp p s R -> wp p s R'.
Proof.
  revert s R R'.
  induction p as [a|e|req k IH|n args k IH|l args k IH|k IH|k IH|s' k IH];
    intros s0 R R' HR; cbn [wp]; eauto.
  - intros H r. eapply IH; [|apply H]. cbn. eauto.
  - intros H r. eapply IH; [|apply H]. cbn. eauto.
  - apply IH. cbn. eauto.
  - intros H d. eapply IH; [|apply H]. cbn. eauto.
Qed.

(** [wp] is sound for [run]. *)
Lemma wp_run {A} (p : Prog S A) s R :
  wp p s R ->
  forall w tr,
  exists evs,
    trace (run w p s tr) = tr ++ evs /\
    R evs (final (run w p s tr)) (result (run w p s tr)).
Proof.
  revert s R.
  induction p as [a|e|req k IH|n args k IH|l args k IH|k IH|k IH|s' k IH];
    intros s0 R Hwp w tr; cbn [wp run] in *.
  - exists []. rewrite app_nil_r. auto.
  - exists []. rewrite app_nil_r. auto.
  - destruct (IH _ s0 _ (Hwp (fetch_reply w tr req)) w (tr ++ [EFetch req]))
      as (evs & Ht & HR).
    exists (EFetch req :: evs). rewrite Ht, <- app_assoc. auto.
  - destruct (IH _ s0 _ (Hwp (call_reply w tr n args)) w
                (tr ++ [ECall n args])) as (evs & Ht & HR).
    exists (ECall n args :: evs). rewrite Ht, <- app_assoc. auto.
  - destruct (IH s0 _ Hwp w (tr ++ [ELog l args])) as (evs & Ht & HR).
    exists (ELog l args :: evs). rewrite Ht, <- app_assoc. auto.
  - destruct (IH _ s0 _ (Hwp (clock w tr)) w (tr ++ [EClock])) as (evs & Ht & HR).
    exists (EClock :: evs). rewrite Ht, <- app_assoc. auto.
  - apply IH, Hwp.
  - apply IH, Hwp.
Qed.

Lemma wp_bind {A B} (p : Prog S A) (f : A -> Prog S B) s R :
  wp p s (fun evs s' r =>
            match r with
            | Ok a => wp (f a) s' (fun evs' => R (evs ++ evs'))
            | Raise e => R evs s' (Raise e)
            end) ->
  wp (bind p f) s R.
Proof.
  revert s R.
  induction p as [a|e|req k IH|n args k IH|l args k IH|k IH|k IH|s' k IH];
    intros s0 R; cbn [wp bind]; eauto.
Qed.

Lemma wp_try_catch {A} (p : Prog S A) (h : Exn -> Prog S A) s R :
  wp p s (fun evs s' r =>
            match r with
            | Ok a => R evs s' (Ok a)
            | Raise e => wp (h e) s' (fun evs' => R (evs ++ evs'))
            end) ->
  wp (try_catch p h) s R.
Proof.
  revert s R.
  induction p as [a|e|req k IH|n args k IH|l args k IH|k IH|k IH|s' k IH];
    intros s0 R; cbn [wp try_catch]; eauto.
Qed.

End WpFacts.

Section WpZoom.

Context {S T : Type} (get : S -> T) (set : T -> S -> S).
Hypothesis get_set : forall t s, get (set t s) = t.
Hypothesis set_get : forall s, set (get s) s = s.
Hypothesis set_set : forall t t' s, set t (set t' s) = set t s.

Lemma wp_zoom {A} (p : Prog T A) s (R : list Event -> S -> Res A -> Prop) :
  wp p (get s) (fun evs t r => R evs (set t s) r) ->
  wp (zoom get set p) s R.
Proof.
  revert s R.
  induction p as [a|e|req k IH|n args k IH|l args k IH|k IH|k IH|s' k IH];
    intros s0 R; cbn [wp zoom]; rewrite ?set_get; eauto.
  intros Hwp. apply IH. rewrite get_set.
  eapply wp_mono; [|exact Hwp]. cbn. intros evs t r. rewrite set_set. auto.
Qed.

End WpZoom.

(** * The avatar hook under every world *)

Ltac wp_step :=
  first
    [ progress cbn [wp bind try_catch lift fetch call assign console_log
                    console_error now modify negb orb andb truthy
                    ref_object requests get_prop
                    sessionInfoRef peerConnectionRef mediaElementRef
                    set_sessionInfoRef set_peerConnectionRef
                    set_mediaElementRef]
    | progress unfold response_json, invoke, heygenUpdateStatus
    | match goal with
      | |- forall _, _ => intro
      | |- context [lift ?x] => destruct x
      | |- context [match ?x with Ok _ => _ | Raise _ => _ end] =>
          is_var x; destruct x
      | |- context [json ?r] => destruct (json r)
      | |- context [match ?v with JUndefined => _ | _ => _ end] =>
          destruct v
      | |- context [if truthy ?v then _ else _] => destruct (truthy v)
      end ].
Ltac wp_go := repeat wp_step.

Ltac heygen_request_tac :=
  repeat match goal with
         | |- _ /\ _ => split
         | |- Forall _ [] => constructor
         | |- Forall _ (_ :: _) => constructor
         | |- heygen_request _ _ _ =>
             split; [reflexivity|split; [reflexivity|eexists; split;
                     [|reflexivity]; cbn; tauto]]
         | |- _ = _ => reflexivity
         end.

Section HeygenWp.

Variables apiKey serverUrl : string.

Lemma wp_heygenCreateNewSession refs :
  wp (heygenCreateNewSession apiKey serverUrl) refs
    (heygen_post apiKey serverUrl).
Proof.
  unfold heygenCreateNewSession, heygen_post. wp_go.
  all: heygen_request_tac.
Qed.

Lemma wp_heygenStartStreamingSession refs :
  wp (heygenStartStreamingSession apiKey serverUrl) refs
    (heygen_post apiKey serverUrl).
Proof.
  unfold heygenStartStreamingSession, heygen_post. wp_go.
  all: heygen_request_tac.
Qed.

Lemma wp_heygenSendText texto refs :
  wp (heygenSendText apiKey serverUrl texto) refs
    (heygen_post apiKey serverUrl).
Proof.
  unfold heygenSendText, heygen_post. wp_go.
  destruct (String.length texto =? 0)%nat; wp_go. all: heygen_request_tac.
Qed.

Lemma wp_heygenCloseSession refs :
  wp (heygenCloseSession apiKey serverUrl) refs
    (heygen_post apiKey serverUrl).
Proof.
  unfold heygenCloseSession, heygen_post. wp_go.
  all: heygen_request_tac.
Qed.

Lemma wp_heygenHandleICE session_id candidate refs :
  wp (heygenHandleICE apiKey serverUrl session_id candidate) refs
    (heygen_post apiKey serverUrl).
Proof.
  unfold heygenHandleICE, heygen_post. wp_go. all: heygen_request_tac.
Qed.

Lemma wp_heygenStart refs :
  wp (heygenStart apiKey serverUrl) refs (heygen_post apiKey serverUrl).
Proof.
  unfold heygenStart. apply wp_try_catch, wp_bind.
  eapply wp_mono; [|apply wp_heygenCreateNewSession].
  intros evs s r [-> Hevs].
  eapply wp_mono; [|apply wp_heygenStartStreamingSession].
  intros evs' s' r' [-> Hevs']. split; [reflexivity|].
  rewrite requests_app. apply Forall_app; auto.
Qed.

Lemma wp_heygenEnd refs :
  wp (heygenEnd apiKey serverUrl) refs (heygen_post apiKey serverUrl).
Proof.
  unfold heygenEnd. apply wp_try_catch.
  eapply wp_mono; [|apply wp_heygenCloseSession].
  intros evs s r [-> Hevs]. split; auto.
Qed.

Lemma wp_hook_function p refs :
  hook_function apiKey serverUrl p ->
  wp p refs (heygen_post apiKey serverUrl).
Proof.
  intros [].
  - apply wp_heygenStart.
  - apply wp_heygenEnd.
  - apply wp_heygenCreateNewSession.
  - apply wp_heygenStartStreamingSession.
  - apply wp_heygenHandleICE.
  - apply wp_heygenSendText.
  - apply wp_heygenCloseSession.
Qed.

End HeygenWp.





(** Symbolic execution that keeps what was read from a value. *)
Ltac wp_step_exact :=
  first
    [ progress cbn [wp bind try_catch lift fetch call assign console_log
                    console_error now modify negb orb andb truthy
                    ref_object requests get_prop
                    sessionInfoRef peerConnectionRef mediaElementRef
                    set_sessionInfoRef set_peerConnectionRef
                    set_mediaElementRef nullish field]
    | progress unfold response_json, invoke, heygenUpdateStatus
    | match goal with
      | |- forall _, _ => intro
      | |- context [get_prop ?v _] => is_var v; destruct v
      | |- context [lift (get_prop ?v _)] =>
          let x := fresh "v" in set (x := v) in *; clearbody x; destruct x
      | |- context [lift ?x] => is_var x; destruct x
      | |- context [match ?x with Ok _ => _ | Raise _ => _ end] =>
          is_var x; destruct x
      | |- context [json ?r] => destruct (json r)
      | |- context [match ?v with JUndefined => _ | _ => _ end] =>
          is_var v; destruct v
      | |- context [if truthy ?v then _ else _] => destruct (truthy v)
      end ].
Ltac wp_go_exact := repeat wp_step_exact.

(** The same on a run, splitting on the answers of the world. *)
Ltac hrun_step :=
  first
    [ progress cbn [run bind try_catch fetch lift call assign console_log
                    console_error now modify negb orb andb truthy
                    ref_object get_prop trace result final
                    sessionInfoRef peerConnectionRef mediaElementRef
                    set_sessionInfoRef set_peerConnectionRef
                    set_mediaElementRef nullish field closed_refs]
    | progress unfold response_json, invoke, heygenUpdateStatus
    | match goal with
      | |- context [fetch_reply ?w ?tr ?req] =>
          let E := fresh "Efetch" in
          destruct (fetch_reply w tr req) as [?r|?e] eqn:E
      | |- context [call_reply ?w ?tr ?n ?args] =>
          let E := fresh "Ecall" in
          destruct (call_reply w tr n args) as [?v|?e] eqn:E
      | |- context [match ?v with JUndefined => _ | _ => _ end] =>
          is_var v; destruct v
      | |- context [if truthy ?v then _ else _] => destruct (truthy v)
      end ].
Ltac hrun := repeat hrun_step.

Ltac hrun_done :=
  repeat match goal with
         | |- _ /\ _ => split
         | |- _ <-> _ => split
         | |- _ -> _ => intro
         | H : _ /\ _ |- _ => destruct H
         | H : exists _, _ |- _ => destruct H
         | H : _ \/ _ |- _ => destruct H
         end;
  try discriminate; try congruence;
  rewrite ?requests_app; cbn [requests]; rewrite ?app_nil_r;
  eauto.

Section HeygenRuns.

Variables apiKey serverUrl : string.

Lemma wp_heygenSendText_exact texto refs :
  wp (heygenSendText apiKey serverUrl texto) refs
    (fun evs s r =>
       s = refs /\
       requests evs =
       if nullish (sessionInfoRef refs) || String.eqb texto ""
       then []
       else [task_request apiKey serverUrl (sessionInfoRef refs) texto]).
Proof.
  unfold heygenSendText, task_request.
  destruct texto as [|c texto]; cbn [String.length Nat.eqb String.eqb].
  - rewrite orb_true_r. wp_go. auto.
  - rewrite orb_false_r. destruct refs as [[] pc media];
      cbn [sessionInfoRef nullish field]; wp_go; auto.
Qed.

Lemma wp_create_requests refs :
  wp (heygenCreateNewSession apiKey serverUrl) refs
    (fun evs s r => r = Ok tt /\ requests evs = [new_request apiKey serverUrl]).
Proof.
  unfold heygenCreateNewSession, new_request.
  destruct refs as [session pc media].
  wp_go_exact. all: split; reflexivity.
Qed.

Lemma wp_start_streaming_requests refs :
  wp (heygenStartStreamingSession apiKey serverUrl) refs
    (fun evs s r =>
       r = Ok tt /\
       (requests evs = [] \/
        (nullish (peerConnectionRef s) = false /\
         nullish (sessionInfoRef s) = false /\
         exists sdp,
           requests evs =
           [start_request apiKey serverUrl (sessionInfoRef s) sdp]))).
Proof.
  unfold heygenStartStreamingSession, start_request.
  destruct refs as [session pc media].
  destruct pc; destruct session; wp_go_exact.
  all: split; [reflexivity|].
  all: try (left; reflexivity).
  all: right; split; [reflexivity|split; [reflexivity|eexists; reflexivity]].
Qed.

Lemma wp_heygenStart_order refs :
  wp (heygenStart apiKey serverUrl) refs (start_post apiKey serverUrl).
Proof.
  unfold heygenStart. apply wp_try_catch, wp_bind.
  eapply wp_mono; [|apply wp_create_requests].
  intros evs s r [-> Hevs].
  eapply wp_mono; [|apply wp_start_streaming_requests].
  intros evs' s' r' [-> Hevs']. unfold start_post.
  rewrite requests_app, Hevs.
  destruct Hevs' as [->|(Hpc & Hs & sdp & ->)]; [left; reflexivity|].
  right. split; [exact Hpc|split; [exact Hs|exists sdp; reflexivity]].
Qed.

End HeygenRuns.

(** X3. [heygenSendText] never touches the refs.  It sends nothing when
    the session ref holds null or undefined (reading [session_id] fails
    and is caught) or when the text is empty; in every other case it sends
    exactly one request, the POST to [streaming.task] whose body carries
    the [session_id] of the session the ref holds and the text as given. *)
Theorem heygenSendText_sends_one_task :
  forall apiKey serverUrl texto w refs tr,
    final (run w (heygenSendText apiKey serverUrl texto) refs tr) = refs /\
    requests (trace (run w (heygenSendText apiKey serverUrl texto) refs tr)) =
    requests tr ++
    (if nullish (sessionInfoRef refs) || String.eqb texto ""
     then []
     else [task_request apiKey serverUrl (sessionInfoRef refs) texto]).
Proof.
  intros apiKey serverUrl texto w refs tr.
  destruct (wp_run _ refs _ (wp_heygenSendText_exact apiKey serverUrl texto refs)
              w tr) as (evs & Ht & Hs & Hreq).
  split; [exact Hs|]. rewrite Ht, requests_app, Hreq. reflexivity.
Qed.

(** X4. [heygenEnd] and the session refs.  While the session ref holds
    null or undefined it sends nothing and changes nothing.  Otherwise it
    sends exactly one request, the POST to [streaming.stop] with the
    session's id, and the refs end either untouched or with the session
    and the peer connection both null and the media element kept.  They
    are cleared exactly when the stop request was answered, with whatever
    status, and [close()] of the peer connection, if there is one, did not
    throw. *)
Theorem heygenEnd_closes_after_any_response :
  forall apiKey serverUrl w refs tr,
    let out := run w (heygenEnd apiKey serverUrl) refs tr in
    let stop := stop_request apiKey serverUrl (sessionInfoRef refs) in
    (nullish (sessionInfoRef refs) = true ->
       final out = refs /\ requests (trace out) = requests tr) /\
    (nullish (sessionInfoRef refs) = false ->
       requests (trace out) = requests tr ++ [stop] /\
       (final out = refs \/ final out = closed_refs refs) /\
       (final out = closed_refs refs <->
          (exists r, fetch_reply w tr stop = Ok r) /\
          (nullish (peerConnectionRef refs) = true \/
           exists v,
             call_reply w (tr ++ [EFetch stop]) "close"
               [peerConnectionRef refs] = Ok v))).
Proof.
  intros apiKey serverUrl w [session pc media] tr out stop.
  subst out stop. unfold heygenEnd, heygenCloseSession, stop_request.
  destruct session; hrun.
  all: hrun_done.
Qed.

(** X5. Whatever happens during [heygenStart], the requests it sends are
    the POST to [streaming.new] and nothing else, or that followed by one
    POST to [streaming.start]; the second is sent only when the refs hold
    a peer connection and a session at the end, and it carries the
    [session_id] of that session. *)
Theorem heygenStart_requests_in_order :
  forall apiKey serverUrl w refs,
    let out := run w (heygenStart apiKey serverUrl) refs [] in
    requests (trace out) = [new_request apiKey serverUrl] \/
    (nullish (peerConnectionRef (final out)) = false /\
     nullish (sessionInfoRef (final out)) = false /\
     exists sdp,
       requests (trace out) =
       [new_request apiKey serverUrl;
        start_request apiKey serverUrl (sessionInfoRef (final out)) sdp]).
Proof.
  intros apiKey serverUrl w refs out. subst out.
  destruct (wp_run _ refs _ (wp_heygenStart_order apiKey serverUrl refs) w [])
    as (evs & Ht & H).
  cbn [app] in Ht. rewrite Ht. exact H.
Qed.

(** * More on the tools *)

Ltac wp_tool_step :=
  first
    [ progress cbn [wp bind lift fetch call console_log now modify negb
                    requests handler]
    | progress unfold response_json
    | match goal with
      | |- forall _, _ => intro
      | |- context [lift ?x] => destruct x
      | |- context [if negb (ok ?r) then _ else _] => destruct (ok r)
      | |- context [json ?r] => destruct (json r)
      end ].
Ltac wp_tool := repeat wp_tool_step.

Section ToolEffects.

Lemma wp_main_tool c s :
  wp (Main.tool c) s (fun _ s' _ => s' = s).
Proof.
  unfold Main.tool.
  destruct c; cbn [handler];
    unfold generate_token, get_user_data, get_payment_link, get_contacts,
      get_llmbuilder, requestAssistance;
    wp_tool; reflexivity.
Qed.

Lemma wp_console_tool c s :
  wp (ConsolePage.tool c) s (fun _ s' r => console_tool_effect c s s' r).
Proof.
  unfold ConsolePage.tool, console_tool_effect.
  destruct c; cbn [handler];
    unfold generate_token, get_user_data, get_payment_link, get_contacts,
      get_llmbuilder, requestAssistance, ConsolePage.store_rows;
    wp_tool; try reflexivity.
  eexists. split; reflexivity.
Qed.

End ToolEffects.

(** X6. A tool call never changes the state of Main.  In ConsolePage the
    only change a tool call can make is the one of a [get_user_data] that
    returns: [userData.phone] then holds the very rows it returned, and
    every other cell is as before; a call that throws, and every call of
    another tool, leaves the state as it was. *)
Theorem tools_change_only_userData :
  forall (c : ToolCall) (w : World),
    (forall s : Main.State, final (run w (Main.tool c) s []) = s) /\
    (forall s : ConsolePage.State,
        console_tool_effect c s
          (final (run w (ConsolePage.tool c) s []))
          (result (run w (ConsolePage.tool c) s []))).
Proof.
  intros c w. split; intros s.
  - destruct (wp_run _ s _ (wp_main_tool c s) w []) as (evs & _ & H). exact H.
  - destruct (wp_run _ s _ (wp_console_tool c s) w []) as (evs & _ & H). exact H.
Qed.

(** X7. Each call of one of the four backend tools sends exactly one HTTP
    request, whatever the answer: there is no retry after a failure and no
    second request after a success.  The two other tools send none. *)
Theorem backend_tools_send_one_request :
  forall (p : Page) (c : ToolCall) (w : World) (s : PageState p),
    length (requests (trace (run w (page_tool p c) s []))) =
    if calls_backend c then 1%nat else 0%nat.
Proof.
  intros p c w s. rewrite requests_page_tool. destruct c; reflexivity.
Qed.

(** X8. When the fetch of a backend tool is rejected (no network, CORS),
    the handler rejects with that same error: it is not wrapped, nothing
    is written to the console and the page state is untouched. *)
Theorem rejected_fetch_is_rethrown :
  forall (p : Page) (c : ToolCall) (w : World) (s : PageState p) (e : Exn),
    calls_backend c = true ->
    (forall tr req, fetch_reply w tr req = Raise e) ->
    result (run w (page_tool p c) s []) = Raise e /\
    final (run w (page_tool p c) s []) = s /\
    console_lines (trace (run w (page_tool p c) s [])) = [].
Proof.
  intros p c w s e Hc Hr.
  destruct p; destruct c; try discriminate Hc;
    cbn [page_tool ConsolePage.tool Main.tool handler];
    unfold generate_token, get_user_data, get_payment_link, get_contacts;
    cbn [run bind fetch now lift]; rewrite Hr; cbn; auto.
Qed.

Lemma rejected_fetch_is_rethrown_witness :
  result (run (offline a_date)
            (page_tool Console (Call_get_user_data "+5511987654321"))
            (ConsolePage.initial "") []) = Raise TypeError /\
  final (run (offline a_date)
           (page_tool Console (Call_get_user_data "+5511987654321"))
           (ConsolePage.initial "") []) = ConsolePage.initial "" /\
  console_lines
    (trace (run (offline a_date)
              (page_tool Console (Call_get_user_data "+5511987654321"))
              (ConsolePage.initial "") [])) = [].
Proof.
  apply (rejected_fetch_is_rethrown Console
           (Call_get_user_data "+5511987654321") (offline a_date)
           (ConsolePage.initial "") TypeError).
  - reflexivity.
  - intros tr req. reflexivity.
Defined.

Section ContactRows.

Lemma contato_of_spec item :
  nullish item = false -> contato_of item = Ok (contato_spec item).
Proof.
  intros H. unfold contato_of, contato_spec.
  rewrite !get_prop_field by exact H. cbn [bindR].
  destruct (truthy (field item "st_telefone_con")); cbn [bindR];
    [reflexivity|].
  destruct (truthy (field item "st_fax_con")); reflexivity.
Qed.

Lemma mapR_contato_spec items :
  rows_readable items = true ->
  mapR contato_of items = Ok (map contato_spec items).
Proof.
  induction items as [|item items IH]; cbn [rows_readable forallb]; intros H.
  - reflexivity.
  - apply andb_prop in H as [Hi Hrest]. apply negb_true_iff in Hi.
    cbn [mapR map]. rewrite (contato_of_spec item Hi). cbn [bindR].
    rewrite (IH Hrest). reflexivity.
Qed.

Lemma telefone_of_contato_spec item :
  let telefone := field (contato_spec item) "telefone" in
  truthy telefone = true \/ telefone = JStr "".
Proof.
  unfold contato_spec. cbn [field assoc String.eqb Ascii.eqb Bool.eqb].
  destruct (truthy (field item "st_telefone_con")) eqn:E1; [auto|].
  destruct (truthy (field item "st_fax_con")) eqn:E2; auto.
Qed.

End ContactRows.

(** X9. The rows of [get_contacts].  When the endpoint answers ok with a
    JSON value whose [contatos] member is an array without null entries,
    the handler returns [{data: rows}] with one row per contact, in
    order, with the members nome, tipo, telefone and cpf in that order;
    nome, tipo and cpf are copied from st_nome_con, st_nometiporesp_tres
    and st_cpf_con, and telefone is the contact's st_telefone_con when
    that is truthy, else its st_fax_con when that is truthy, else the
    empty string, so it is never null, undefined, 0 or false. *)
Theorem get_contacts_maps_rows :
  forall (p : Page) (phone id_condominio : string) (w : World)
         (s : PageState p) (r : Response) (v : JValue) (items : list JValue),
    (forall tr req, fetch_reply w tr req = Ok r) ->
    ok r = true -> json r = Some v ->
    field v "contatos" = JArr items ->
    rows_readable items = true ->
    result (run w (page_tool p (Call_get_contacts phone id_condominio)) s []) =
      Ok (JObj [("data", JArr (map contato_spec items))]) /\
    Forall (fun row =>
              truthy (field row "telefone") = true \/
              field row "telefone" = JStr "")
           (map contato_spec items).
Proof.
  intros p phone id_condominio w s r v items Hr Hok Hjson Hv Hrows.
  split.
  - destruct (page_tool_handler p) as (store_rows & Hq & ->). cbn [handler].
    rewrite (result_get_contacts w r Hr), Hok, Hjson.
    assert (Hn : nullish v = false) by (destruct v; try discriminate; reflexivity).
    rewrite (get_prop_field v "contatos" Hn), Hv. cbn [bindR iterate].
    rewrite (mapR_contato_spec items Hrows). reflexivity.
  - clear. induction items as [|item items IH]; cbn [map]; constructor;
      [apply telefone_of_contato_spec|exact IH].
Qed.

Lemma get_contacts_maps_rows_witness :
  result (run (replying ok_with_contacts a_date)
            (page_tool MainPage (Call_get_contacts "+5511987654321" "3"))
            Main.initial []) =
    Ok (JObj [("data", JArr (map contato_spec [a_contact_row]))]) /\
  Forall (fun row =>
            truthy (field row "telefone") = true \/
            field row "telefone" = JStr "")
         (map contato_spec [a_contact_row]).
Proof.
  apply (get_contacts_maps_rows MainPage "+5511987654321" "3"
           (replying ok_with_contacts a_date) Main.initial ok_with_contacts
           (JObj [("contatos", JArr [a_contact_row])]) [a_contact_row]).
  - intros tr req. reflexivity.
  - reflexivity.
  - reflexivity.
  - reflexivity.
  - reflexivity.
Defined.

(** X10. [get_user_data] and [get_contacts] query the same endpoint, and
    with [id_condominio] "-1" [get_contacts] sends the very request of
    [get_user_data]; yet they read the answer differently, the first as an
    array of rows and the second as an object with a [contatos] array.  So
    a response on which [get_user_data] returns is one on which
    [get_contacts] throws, on either page and for any arguments. *)
Theorem get_user_data_and_get_contacts_disagree :
  forall (p p' : Page) (phone phone' id_condominio : string) (w : World)
         (s : PageState p) (s' : PageState p') (r : Response) (v : JValue),
    (forall tr req, fetch_reply w tr req = Ok r) ->
    result (run w (page_tool p (Call_get_user_data phone)) s []) = Ok v ->
    get_contacts_request phone "-1" = get_user_data_request phone /\
    result (run w (page_tool p' (Call_get_contacts phone' id_condominio)) s' [])
    = Raise TypeError.
Proof.
  intros p p' phone phone' id_condominio w s s' r v Hr Hv.
  split; [reflexivity|].
  destruct (page_tool_handler p) as (store_rows & Hq & Hp).
  rewrite Hp in Hv. cbn [handler] in Hv.
  rewrite (result_get_user_data store_rows Hq w r Hr) in Hv.
  destruct (page_tool_handler p') as (store_rows' & Hq' & ->). cbn [handler].
  rewrite (result_get_contacts w r Hr).
  destruct (ok r); [|discriminate Hv].
  destruct (json r) as [j|]; [|discriminate Hv].
  destruct j; try discriminate Hv; reflexivity.
Qed.

Lemma get_user_data_and_get_contacts_disagree_witness :
  get_contacts_request "+5511987654321" "-1" =
    get_user_data_request "+5511987654321" /\
  result (run (replying ok_with_unit a_date)
            (page_tool Console (Call_get_contacts "11987654321" "3"))
            (ConsolePage.initial "") []) = Raise TypeError.
Proof.
  apply (get_user_data_and_get_contacts_disagree MainPage Console
           "+5511987654321" "11987654321" "3" (replying ok_with_unit a_date)
           Main.initial (ConsolePage.initial "") ok_with_unit
           (JObj [("data", JArr [cond_spec "+5511987654321" a_unit_row])])).
  - intros tr req. reflexivity.
  - vm_compute. reflexivity.
Defined.

(** * More on the event log *)

Section EventLogCounts.

Lemma log_events_app h evs evs' :
  log_events h (evs ++ evs') = (log_events h evs + log_events h evs')%N.
Proof.
  induction evs as [|l evs IH]; cbn [app log_events fold_right].
  - rewrite N.add_0_l. reflexivity.
  - fold (log_events h (evs ++ evs')). fold (log_events h evs).
    rewrite IH. lia.
Qed.

Lemma log_events_insert_other h l x evs :
  ~ In l evs -> log_events (<[l := x]> h) evs = log_events h evs.
Proof.
  induction evs as [|y evs IH]; cbn [log_events fold_right]; [reflexivity|].
  intros Hnin.
  fold (log_events (<[l := x]> h) evs). fold (log_events h evs).
  rewrite IH by (intros H; apply Hnin; right; exact H).
  unfold entry_events. rewrite lookup_insert_ne; [reflexivity|].
  intros ->. apply Hnin. left. reflexivity.
Qed.

Lemma NoDup_snoc_inv (evs : list loc) l :
  List.NoDup (evs ++ [l]) -> ~ In l evs.
Proof.
  intros H Hin. apply List.NoDup_remove_2 in H. rewrite app_nil_r in H.
  contradiction.
Qed.

(** What [log_event] does when it returns. *)
Lemma log_event_cases (h h' : Store) evs evs' r :
  log_event r h evs = Ok (h', evs') ->
  (h' = h /\ evs' = evs ++ [r]) \/
  (exists l e,
      last evs = Some l /\ h !! l = Some e /\ evs' = evs /\
      h' = <[l := set_count e (next_count (count e))]> h).
Proof.
  unfold log_event, last_ref.
  destruct (last evs) as [l|] eqn:Hlast.
  - unfold deref at 1. destruct (h !! l) as [e|] eqn:Hl; [|discriminate].
    cbn [bindR].
    destruct (get_prop (event e) "type") as [t|]; [|discriminate].
    cbn [bindR].
    destruct (deref h r) as [ev|]; [|discriminate]. cbn [bindR].
    destruct (get_prop (event ev) "type") as [t'|]; [|discriminate].
    cbn [bindR].
    destruct (strict_eq t t').
    + unfold deref. rewrite Hl. cbn [bindR]. intros H. injection H as <- <-.
      right. exists l, e. unfold slice_0_m1.
      rewrite (removelast_last _ _ Hlast). auto.
    + intros H. injection H as <- <-. auto.
  - cbn [bindR].
    destruct (deref h r) as [ev|]; [|discriminate]. cbn [bindR].
    destruct (get_prop (event ev) "type") as [t'|]; [|discriminate].
    cbn [bindR].
    destruct (strict_eq JUndefined t'); [discriminate|].
    intros H. injection H as <- <-. auto.
Qed.

End EventLogCounts.

(** X11. The log never loses an event.  Each entry stands for itself and
    for the [count] events folded into it.  If the entries of the log are
    distinct objects and the incoming event is a new object without a
    count, then a run of the handler's update that returns leaves a log
    that stands for exactly one event more, whose entries are still
    distinct objects, and whose earlier entries are the same references in
    the same order. *)
Theorem log_event_counts_every_event :
  forall (h h' : Store) (evs evs' : list loc) (r : loc) (ev : RealtimeEvent),
    List.NoDup evs -> ~ In r evs ->
    h !! r = Some ev -> count ev = None ->
    log_event r h evs = Ok (h', evs') ->
    log_events h' evs' = (log_events h evs + 1)%N /\
    List.NoDup evs' /\
    (evs' = evs \/ evs' = evs ++ [r]).
Proof.
  intros h h' evs evs' r ev Hnd Hnin Hr Hc Hlog.
  apply log_event_cases in Hlog
    as [[-> ->]|(l & e & Hlast & Hl & -> & ->)].
  - split; [|split; [|auto]].
    + rewrite log_events_app. cbn [log_events fold_right].
      unfold entry_events. rewrite Hr, Hc. cbn. lia.
    + apply List.NoDup_app; repeat split; auto.
      * constructor; [intros []|constructor].
      * intros x Hx [<-|[]]. contradiction.
  - split; [|split; [exact Hnd|auto]].
    pose proof (removelast_last _ _ Hlast) as Hevs.
    remember (removelast evs) as pre eqn:Hpre. clear Hpre Hlast Hnin.
    subst evs.
    rewrite !log_events_app.
    rewrite log_events_insert_other by (apply NoDup_snoc_inv; exact Hnd).
    cbn [log_events fold_right]. unfold entry_events.
    rewrite lookup_insert_eq, Hl. cbn [count set_count default].
    rewrite next_count_spec. destruct (count e); cbn [default]; unfold id; lia.
Qed.

Lemma log_event_counts_every_event_witness :
  log_events
    (<[0%N := set_count
                (typed_event "2024-10-05T13:00:00.000Z" "response.audio.delta")
                1]> two_deltas) [0%N] =
    (log_events two_deltas [0%N] + 1)%N /\
  List.NoDup [0%N] /\
  ([0%N] = [0%N] \/ [0%N] = [0%N] ++ [1%N]).
Proof.
  apply (log_event_counts_every_event two_deltas
           (<[0%N := set_count
                       (typed_event "2024-10-05T13:00:00.000Z"
                          "response.audio.delta") 1]> two_deltas)
           [0%N] [0%N] 1%N
           (typed_event "2024-10-05T13:00:01.000Z" "response.audio.delta")).
  - repeat constructor. intros [].
  - intros [H|[]]. discriminate H.
  - reflexivity.
  - reflexivity.
  - vm_compute. reflexivity.
Defined.

Section EventLogRuns.









End EventLogRuns.

Section TypedEvents.

Lemma entries_readable_last h evs l :
  entries_readable h evs -> last evs = Some l ->
  exists e, h !! l = Some e /\ nullish (event e) = false.
Proof.
  intros Hall Hlast. rewrite <- (removelast_last _ _ Hlast) in Hall.
  apply Forall_app in Hall as [_ Hl]. inversion Hl; subst. assumption.
Qed.

Lemma log_event_typed h evs r ev t :
  h !! r = Some ev -> get_prop (event ev) "type" = Ok t ->
  strict_eq JUndefined t = false ->
  entries_readable h evs ->
  log_event r h evs = Ok (log_after h evs r t).
Proof.
  intros Hr Ht Hne Hall. unfold log_event, log_after, last_ref.
  destruct (last evs) as [l|] eqn:Hlast.
  - destruct (entries_readable_last h evs l Hall Hlast) as (e & Hl & He).
    unfold entry_type, deref. rewrite Hl, Hr. cbn [bindR].
    rewrite (get_prop_field _ "type" He), Ht. cbn [bindR].
    destruct (strict_eq (field (event e) "type") t); [|reflexivity].
    unfold slice_0_m1. rewrite (removelast_last _ _ Hlast). reflexivity.
  - unfold deref. cbn [bindR]. rewrite Hr. cbn [bindR]. rewrite Ht.
    cbn [bindR]. rewrite Hne. reflexivity.
Qed.








End TypedEvents.





(** * More on the two string functions *)

(** X14. [formatPhoneNumber] only ever deletes, and only a country code:
    for every string at all, the result is the input with one piece cut
    out, and that piece is empty, "55" or "+55".  No character is added,
    changed or reordered, and the result is at most three characters
    shorter. *)
Theorem formatPhoneNumber_only_deletes :
  forall phone : string,
    exists pre mid rest,
      phone = pre +:+ mid +:+ rest /\
      formatPhoneNumber phone = pre +:+ rest /\
      (mid = "" \/ mid = "55" \/ mid = "+55").
Proof.
  induction phone as [|c s IH].
  - exists "", "", "". auto.
  - destruct (match_here phone_regex (String c s)) as [[rest caps]|] eqn:E.
    + apply match_here_phone_inv in E as HE.
      destruct HE as (d & Hd & -> & -> & Hs).
      rewrite (replace_phone_hit _ _ E).
      destruct Hs as [Hs|[Hs|Hs]].
      * exists "", "+55", d. rewrite Hs. auto.
      * exists "", "55", d. rewrite Hs. auto.
      * exists "", "", d. rewrite Hs. auto.
    + rewrite replace_phone_miss by exact E.
      destruct IH as (pre & mid & rest & Hs & Hf & Hmid).
      exists (String c pre), mid, rest. rewrite Hf.
      split; [|auto]. rewrite Hs at 1. reflexivity.
Qed.

Section DateEdges.

Lemma match_here_date_nondigit c s :
  is_digit c = false -> match_here date_regex (String c s) = None.
Proof.
  intros H. unfold match_here, date_regex. cbn [matches in_class].
  rewrite H. reflexivity.
Qed.

Lemma match_here_time_digit_free s :
  digit_free s = true -> match_here time_regex s = None.
Proof.
  unfold match_here, time_regex.
  destruct s as [|c [|c' s]]; cbn [matches in_class digit_free];
    [reflexivity|destruct (is_space c); reflexivity|].
  intros H. apply andb_prop in H as [_ H]. apply andb_prop in H as [H _].
  apply negb_true_iff in H. rewrite H. destruct (is_space c); reflexivity.
Qed.

Lemma replace_time_digit_free s :
  digit_free s = true -> replace time_regex [] s = s.
Proof.
  induction s as [|c s IH]; intros H.
  - reflexivity.
  - cbn [replace]. rewrite (match_here_time_digit_free _ H).
    cbn [digit_free] in H. apply andb_prop in H as [_ H].
    rewrite (IH H). reflexivity.
Qed.

Lemma replace_date_digit_free tpl s :
  digit_free s = true -> replace date_regex tpl s = s.
Proof.
  induction s as [|c s IH]; intros H.
  - reflexivity.
  - cbn [digit_free] in H. apply andb_prop in H as [Hc H].
    apply negb_true_iff in Hc.
    cbn [replace]. rewrite (match_here_date_nondigit c s Hc).
    rewrite (IH H). reflexivity.
Qed.

End DateEdges.

(** X15. A date field in which no digit occurs comes through the date
    formatting of [get_payment_link] unchanged: the empty string, a dash,
    a word. *)
Theorem format_date_keeps_digit_free :
  forall s : string, digit_free s = true -> format_date s = s.
Proof.
  intros s H. unfold format_date.
  rewrite (replace_time_digit_free s H).
  apply replace_date_digit_free, H.
Qed.

Lemma format_date_keeps_digit_free_witness :
  digit_free "a definir" = true /\ format_date "a definir" = "a definir".
Proof.
  split; [reflexivity|].
  apply (format_date_keeps_digit_free "a definir"). reflexivity.
Defined.

(** X16. The date formatting swaps the first two fields without looking
    at their values, so it undoes itself: applied to its own result on a
    date DD/MM/YYYY it returns the original. *)
Theorem format_date_twice :
  forall dd mm yyyy : string,
    digits 2 dd -> digits 2 mm -> digits 4 yyyy ->
    format_date (format_date (dd +:+ "/" +:+ mm +:+ "/" +:+ yyyy)) =
    dd +:+ "/" +:+ mm +:+ "/" +:+ yyyy.
Proof.
  intros dd mm yyyy Hd Hm Hy.
  rewrite (format_date_without_time dd mm yyyy Hd Hm Hy).
  apply format_date_without_time; assumption.
Qed.

Lemma format_date_twice_witness :
  format_date (format_date ("05" +:+ "/" +:+ "10" +:+ "/" +:+ "2024")) =
  "05" +:+ "/" +:+ "10" +:+ "/" +:+ "2024".
Proof.
  apply (format_date_twice "05" "10" "2024"); split; reflexivity.
Defined.

(** * formatTime *)

Section FormatTimeFacts.

(** Two turns of the padding loop are all it ever takes. *)
Lemma pad_loop_enough k s : pad_loop (2 + k) s = pad_loop 2 s.
Proof.
  destruct s as [|a [|b s]]; destruct k; reflexivity.
Qed.





End FormatTimeFacts.



(** X18. When the start time or the timestamp is not a date, every field
    is NaN and [formatTime] returns "NaN:NaN.NaN"; nothing is thrown. *)
Theorem formatTime_of_invalid_date :
  forall (valueOf : string -> option Z) (startTime timestamp : string),
    valueOf startTime = None \/ valueOf timestamp = None ->
    formatTime valueOf startTime timestamp = "NaN:NaN.NaN".
Proof.
  intros valueOf startTime timestamp [H|H]; unfold formatTime; rewrite H;
    [destruct (valueOf timestamp)|]; reflexivity.
Qed.

Lemma formatTime_of_invalid_date_witness :
  formatTime (fun _ => None) "" "2024-10-05T13:01:23.456Z" = "NaN:NaN.NaN".
Proof.
  apply (formatTime_of_invalid_date (fun _ => None) ""
           "2024-10-05T13:01:23.456Z").
  left. reflexivity.
Defined.

(** * The controls of the two pages *)

Ltac wp_ctl_step :=
  first
    [ progress cbn [wp bind lift call modify get_opt get_prop]
    | match goal with
      | |- forall _, _ => intro
      | |- context [lift ?x] => is_var x; destruct x
      | |- context [get_opt ?v _] => is_var v; destruct v
      | |- context [get_prop ?v _] => is_var v; destruct v
      | |- context [match ?v with JUndefined => _ | _ => _ end] =>
          is_var v; destruct v
      | |- context [if strict_eq ?a ?b then _ else _] =>
          destruct (strict_eq a b)
      | |- context [if truthy ?v then _ else _] => destruct (truthy v)
      end ].
Ltac wp_ctl := repeat wp_ctl_step.

Ltac in_events :=
  repeat match goal with
         | |- _ /\ _ => split
         | |- _ -> _ => intro
         | H : In _ [] |- _ => destruct H
         | H : In _ (_ :: _) |- _ => destruct H
         | H : False |- _ => destruct H
         | H : ECall _ _ = ECall _ _ |- _ => try discriminate H; clear H
         end;
  try reflexivity; try congruence.

Section ControlFacts.

Context {S : Type}.
Variables (setCanPushToTalk setIsRecording : bool -> S -> S).

Lemma wp_changeTurnEndType value s :
  wp (Controls.changeTurnEndType setCanPushToTalk value) s
    (fun evs s' r =>
       match r with
       | Ok _ => s' = setCanPushToTalk (String.eqb value "none") s
       | Raise _ => s' = s
       end /\
       (In (ECall "wavRecorder.record" []) evs -> value = "server_vad") /\
       (In (ECall "wavRecorder.pause" []) evs -> value = "none")).
Proof.
  unfold Controls.changeTurnEndType.
  destruct (String.eqb_spec value "none") as [->|Hnone].
  - cbn [String.eqb Ascii.eqb Bool.eqb]. wp_ctl. all: in_events.
  - destruct (String.eqb_spec value "server_vad") as [->|Hvad];
      wp_ctl; in_events.
Qed.

Lemma wp_console_startRecording s :
  wp (Controls.console_startRecording setIsRecording) s
    (fun _ s' _ => s' = setIsRecording true s).
Proof. unfold Controls.console_startRecording, Controls.interrupt_and_cancel. wp_ctl. all: reflexivity. Qed.

Lemma wp_main_startRecording s :
  wp (Controls.main_startRecording setIsRecording) s
    (fun _ s' _ => s' = setIsRecording true s).
Proof. unfold Controls.main_startRecording. wp_ctl. all: reflexivity. Qed.

Lemma wp_stopRecording s :
  wp (Controls.stopRecording setIsRecording) s
    (fun evs s' r =>
       s' = setIsRecording false s /\
       (r = Ok tt -> In (ECall "client.createResponse" []) evs)).
Proof.
  unfold Controls.stopRecording. wp_ctl.
  all: split; [reflexivity|intros H; try discriminate H; cbn; auto].
Qed.

End ControlFacts.

(** X19. The switch between manual and automatic turn detection, on both
    pages and whatever the libraries answer.  When [changeTurnEndType]
    returns, [canPushToTalk] is true exactly for the value 'none' and the
    rest of the page state is as before; when a library call throws, the
    state is untouched, so the flag keeps its old value.  The recorder is
    started only for the value 'server_vad' and paused only for 'none'. *)
Theorem changeTurnEndType_outcome :
  forall (value : string) (w : World)
         (sc : ConsolePage.State) (sm : Main.State),
    turn_end_outcome Controls.console_setCanPushToTalk value sc
      (run w (Controls.changeTurnEndType Controls.console_setCanPushToTalk value)
         sc []) /\
    turn_end_outcome Controls.main_setCanPushToTalk value sm
      (run w (Controls.changeTurnEndType Controls.main_setCanPushToTalk value)
         sm []).
Proof.
  intros value w sc sm. unfold turn_end_outcome. split.
  - destruct (wp_run _ sc _
                (wp_changeTurnEndType Controls.console_setCanPushToTalk value sc)
                w []) as (evs & Ht & H).
    cbn [app] in Ht. rewrite Ht. exact H.
  - destruct (wp_run _ sm _
                (wp_changeTurnEndType Controls.main_setCanPushToTalk value sm)
                w []) as (evs & Ht & H).
    cbn [app] in Ht. rewrite Ht. exact H.
Qed.

(** X20. Push to talk, on both pages and whatever the libraries answer.
    [startRecording] and [stopRecording] write [isRecording] before they
    call any library, and nothing else of the page state: the flag is set
    (cleared) even when the call that should start (pause) the recorder
    throws.  A [stopRecording] that returns has asked the client for a
    response. *)
Theorem recording_flag_is_written_first :
  forall (w : World) (sc : ConsolePage.State) (sm : Main.State),
    final (run w (Controls.console_startRecording
                    Controls.console_setIsRecording) sc []) =
      Controls.console_setIsRecording true sc /\
    final (run w (Controls.main_startRecording
                    Controls.main_setIsRecording) sm []) =
      Controls.main_setIsRecording true sm /\
    final (run w (Controls.stopRecording Controls.console_setIsRecording) sc [])
      = Controls.console_setIsRecording false sc /\
    final (run w (Controls.stopRecording Controls.main_setIsRecording) sm [])
      = Controls.main_setIsRecording false sm /\
    (result (run w (Controls.stopRecording Controls.main_setIsRecording) sm [])
       = Ok tt ->
     In (ECall "client.createResponse" [])
        (trace (run w (Controls.stopRecording Controls.main_setIsRecording)
                  sm []))).
Proof.
  intros w sc sm.
  destruct (wp_run _ sc _
              (wp_console_startRecording Controls.console_setIsRecording sc)
              w []) as (_ & _ & H1).
  destruct (wp_run _ sm _
              (wp_main_startRecording Controls.main_setIsRecording sm)
              w []) as (_ & _ & H2).
  destruct (wp_run _ sc _
              (wp_stopRecording Controls.console_setIsRecording sc)
              w []) as (_ & _ & H3 & _).
  destruct (wp_run _ sm _
              (wp_stopRecording Controls.main_setIsRecording sm)
              w []) as (evs & Ht & H4 & H5).
  cbn [app] in Ht. rewrite Ht. auto.
Qed.

(** * The details toggle *)

Section ExpandedFacts.

Lemma toggle_flips id m :
  Expanded.inherited id = false ->
  Expanded.is_expanded id (Expanded.toggle id m) =
  negb (Expanded.is_expanded id m).
Proof.
  intros Hid. unfold Expanded.toggle, Expanded.is_expanded.
  destruct (m !! id) as [[]|] eqn:E; rewrite ?Hid; cbn [negb].
  - rewrite lookup_delete_eq. reflexivity.
  - rewrite lookup_insert_eq. reflexivity.
  - rewrite lookup_insert_eq. reflexivity.
Qed.

Lemma toggle_other id id' m :
  id <> id' -> Expanded.toggle id m !! id' = m !! id'.
Proof.
  intros Hne. unfold Expanded.toggle.
  destruct (Expanded.is_expanded id m).
  - apply lookup_delete_ne, Hne.
  - apply lookup_insert_ne, Hne.
Qed.

Lemma toggle_only_true id m :
  Expanded.only_true m -> Expanded.only_true (Expanded.toggle id m).
Proof.
  intros Hm k v. unfold Expanded.toggle.
  destruct (Expanded.is_expanded id m).
  - intros H. apply lookup_delete_Some in H as [_ H]. eapply Hm, H.
  - destruct (decide (id = k)) as [->|Hne].
    + rewrite lookup_insert_eq. congruence.
    + rewrite lookup_insert_ne by exact Hne. apply Hm.
Qed.

Lemma toggle_twice id m :
  Expanded.inherited id = false ->
  Expanded.only_true m -> Expanded.toggle id (Expanded.toggle id m) = m.
Proof.
  intros Hid Hm. unfold Expanded.toggle, Expanded.is_expanded.
  destruct (m !! id) as [b|] eqn:E.
  - rewrite (Hm id b E) in E |- *. rewrite lookup_delete_eq, Hid.
    rewrite insert_delete_eq. apply insert_id, E.
  - rewrite Hid, lookup_insert_eq.
    rewrite delete_insert_eq. apply delete_id, E.
Qed.

(** A member of Object.prototype always reads as expanded, and a click on
    it stores nothing. *)
Lemma toggle_inherited id m :
  Expanded.inherited id = true -> Expanded.only_true m ->
  Expanded.is_expanded id m = true /\
  Expanded.is_expanded id (Expanded.toggle id m) = true /\
  Expanded.toggle id m !! id = None.
Proof.
  intros Hid Hm.
  assert (H : Expanded.is_expanded id m = true).
  { unfold Expanded.is_expanded. destruct (m !! id) as [b|] eqn:E;
      [exact (Hm id b E)|exact Hid]. }
  unfold Expanded.toggle. rewrite H. split; [reflexivity|].
  unfold Expanded.is_expanded. rewrite lookup_delete_eq. auto.
Qed.

End ExpandedFacts.

(** X21. The details toggle of the event list.  The click handler calls
    nothing and touches no cell of the page state other than the object
    of expanded events, in which it leaves every other event as it was;
    that object never holds anything but [true] (collapsing deletes the
    key).  For an id that is not the name of a member of Object.prototype,
    a click flips whether the details are shown and a second click
    restores the page state exactly.  For an id that is such a name
    ('toString', 'constructor', '__proto__', ...) the details always
    read as shown, before and after a click, and the click stores
    nothing under that id. *)
Theorem toggle_event_details :
  forall (id : string) (w : World) (s : ConsolePage.State),
    Expanded.only_true (ConsolePage.expandedEvents s) ->
    let s' := final (run w (Expanded.on_summary_click id) s []) in
    run w (Expanded.on_summary_click id) s [] =
      mkOutcome [] (Expanded.setExpandedEvents
                      (Expanded.toggle id (ConsolePage.expandedEvents s)) s)
        (Ok tt) /\
    (forall id', id <> id' ->
       ConsolePage.expandedEvents s' !! id' =
       ConsolePage.expandedEvents s !! id') /\
    Expanded.only_true (ConsolePage.expandedEvents s') /\
    (Expanded.inherited id = false ->
     Expanded.is_expanded id (ConsolePage.expandedEvents s') =
       negb (Expanded.is_expanded id (ConsolePage.expandedEvents s)) /\
     final (run w (Expanded.on_summary_click id) s' []) = s) /\
    (Expanded.inherited id = true ->
     Expanded.is_expanded id (ConsolePage.expandedEvents s) = true /\
     Expanded.is_expanded id (ConsolePage.expandedEvents s') = true /\
     ConsolePage.expandedEvents s' !! id = None).
Proof.
  intros id w s Hm s'. subst s'.
  cbn [Expanded.on_summary_click run final ConsolePage.expandedEvents
       Expanded.setExpandedEvents].
  split; [reflexivity|].
  split; [intros id' Hne; apply toggle_other, Hne|].
  split; [apply toggle_only_true, Hm|].
  split.
  - intros Hid. split; [apply toggle_flips, Hid|].
    rewrite (toggle_twice id _ Hid Hm). destruct s. reflexivity.
  - intros Hid. apply toggle_inherited; assumption.
Qed.

Lemma toggle_event_details_witness :
  let s := ConsolePage.initial "" in
  let w := offline a_date in
  let s' := final (run w (Expanded.on_summary_click "event_1") s []) in
  let s'' := final (run w (Expanded.on_summary_click "toString") s []) in
  (Expanded.is_expanded "event_1" (ConsolePage.expandedEvents s) = false /\
   Expanded.is_expanded "event_1" (ConsolePage.expandedEvents s') = true /\
   final (run w (Expanded.on_summary_click "event_1") s' []) = s) /\
  (Expanded.is_expanded "toString" (ConsolePage.expandedEvents s) = true /\
   Expanded.is_expanded "toString" (ConsolePage.expandedEvents s'') = true /\
   ConsolePage.expandedEvents s'' !! "toString" = None).
Proof.
  intros s w s' s''.
  assert (Hm : Expanded.only_true (ConsolePage.expandedEvents s)).
  { intros k v H. cbn in H. rewrite lookup_empty in H. discriminate H. }
  split.
  - destruct (toggle_event_details "event_1" w s Hm)
      as (_ & _ & _ & Hflip & _).
    destruct (Hflip eq_refl) as [H1 H2].
    split; [reflexivity|]. split; [exact H1|exact H2].
  - destruct (toggle_event_details "toString" w s Hm)
      as (_ & _ & _ & _ & Hin).
    exact (Hin eq_refl).
Defined.

(** * Main.tsx and the avatar hook together *)

Section MainAndHook.

Variables apiKey serverUrl : string.

Lemma main_get_set t s : Main.heygen (Main.set_heygen t s) = t.
Proof. reflexivity. Qed.

Lemma main_set_set t t' s :
  Main.set_heygen t (Main.set_heygen t' s) = Main.set_heygen t s.
Proof. reflexivity. Qed.

Lemma wp_main_hook p s :
  hook_function apiKey serverUrl p ->
  wp (zoom Main.heygen Main.set_heygen p) s
    (fun evs s' r =>
       r = Ok tt /\ Forall (heygen_request apiKey serverUrl) (requests evs) /\
       Main.isVideoLoaded s' = Main.isVideoLoaded s).
Proof.
  intros Hp.
  apply (wp_zoom Main.heygen Main.set_heygen main_get_set heygen_set_get
           main_set_set).
  eapply wp_mono; [|apply (wp_hook_function apiKey serverUrl p _ Hp)].
  intros evs t r [-> H]. auto.
Qed.

Lemma wp_main_heygenStart s :
  wp (zoom Main.heygen Main.set_heygen (heygenStart apiKey serverUrl)) s
    (fun evs s' r =>
       r = Ok tt /\ Forall (heygen_request apiKey serverUrl) (requests evs)).
Proof.
  eapply wp_mono; [|apply wp_main_hook; constructor].
  intros evs s' r (-> & H & _). auto.
Qed.

Ltac wp_page_step :=
  first
    [ progress cbn [wp bind lift call console_log modify]
    | match goal with
      | |- forall _, _ => intro
      | |- context [lift ?x] => is_var x; destruct x
      | |- context [if strict_eq ?a ?b then _ else _] =>
          destruct (strict_eq a b)
      end ].
Ltac wp_page := repeat wp_page_step.

Ltac connect_done :=
  unfold connect_post;
  rewrite ?requests_app; cbn [requests app];
  rewrite ?app_nil_r;
  split; [assumption || constructor
         |intros _; rewrite ?in_app_iff; cbn [In]; tauto].

Lemma wp_main_connect hook s :
  useHeygen apiKey serverUrl = Ok hook ->
  wp (Main.connectConversation hook) s (connect_post apiKey serverUrl).
Proof.
  unfold useHeygen. destruct (_ || _); [discriminate|].
  intros H. injection H as <-.
  unfold Main.connectConversation, Main.heygenStart. cbn [hook_heygenStart].
  wp_page.
  all: try (split; [constructor|intros H; exfalso; apply H; reflexivity]).
  apply wp_bind.
  eapply wp_mono; [|apply wp_main_heygenStart].
  intros evs s' r [-> Hreq]. wp_page.
  all: unfold connect_post; cbn [requests app].
  all: rewrite ?requests_app; cbn [requests]; rewrite ?app_nil_r.
  all: split; [exact Hreq|].
  all: intros _; cbn [In]; do 3 right; apply in_or_app; right; left; reflexivity.
Qed.

End MainAndHook.

Section MainDisconnect.

Variables apiKey serverUrl : string.

Lemma wp_main_disconnect hook s :
  useHeygen apiKey serverUrl = Ok hook ->
  wp (Main.disconnectConversation hook) s (disconnect_post apiKey serverUrl).
Proof.
  unfold useHeygen. destruct (_ || _); [discriminate|].
  intros H. injection H as <-.
  unfold Main.disconnectConversation, Main.heygenEnd. cbn [hook_heygenEnd].
  cbn [wp bind console_log modify].
  apply wp_bind.
  eapply wp_mono; [|apply (wp_main_hook apiKey serverUrl); constructor].
  intros evs s' r (-> & Hreq & _).
  cbn [wp bind lift call modify]. intros r1.
  destruct r1; cbn [wp bind lift]; [intros r2; destruct r2; cbn [wp bind lift]|].
  all: unfold disconnect_post; cbn [requests app].
  all: rewrite ?requests_app; cbn [requests]; rewrite ?app_nil_r.
  all: split; [exact Hreq|split; [|reflexivity]].
  all: cbn [In]; right; apply in_or_app; right; left; reflexivity.
Qed.

End MainDisconnect.

(** X22. The avatar never blocks the realtime client.  With the hook that
    [useHeygen] returns, and whatever the avatar server, the browser and
    the libraries do: every HTTP request of [connectConversation] and of
    [disconnectConversation] in Main is one of the avatar service's; a
    [connectConversation] that got as far as the first of them goes on to
    call [client.connect]; and [disconnectConversation] always calls
    [client.disconnect], with [isVideoLoaded] cleared by then. *)
Theorem avatar_never_blocks_the_client :
  forall (apiKey serverUrl : string) (hook : Hook) (w : World)
         (s : Main.State),
    useHeygen apiKey serverUrl = Ok hook ->
    connect_post apiKey serverUrl
      (trace (run w (Main.connectConversation hook) s []))
      (final (run w (Main.connectConversation hook) s []))
      (result (run w (Main.connectConversation hook) s [])) /\
    disconnect_post apiKey serverUrl
      (trace (run w (Main.disconnectConversation hook) s []))
      (final (run w (Main.disconnectConversation hook) s []))
      (result (run w (Main.disconnectConversation hook) s [])).
Proof.
  intros apiKey serverUrl hook w s Hhook. split.
  - destruct (wp_run _ s _ (wp_main_connect apiKey serverUrl hook s Hhook) w [])
      as (evs & Ht & H).
    cbn [app] in Ht. rewrite Ht. exact H.
  - destruct (wp_run _ s _ (wp_main_disconnect apiKey serverUrl hook s Hhook)
                w []) as (evs & Ht & H).
    cbn [app] in Ht. rewrite Ht. exact H.
Qed.

Lemma avatar_never_blocks_the_client_witness :
  let w := offline a_date in
  let s := Main.initial in
  connect_post "key" "https://api.heygen.com"
    (trace (run w (Main.connectConversation a_hook) s []))
    (final (run w (Main.connectConversation a_hook) s []))
    (result (run w (Main.connectConversation a_hook) s [])) /\
  disconnect_post "key" "https://api.heygen.com"
    (trace (run w (Main.disconnectConversation a_hook) s []))
    (final (run w (Main.disconnectConversation a_hook) s []))
    (result (run w (Main.disconnectConversation a_hook) s [])).
Proof.
  intros w s.
  apply (avatar_never_blocks_the_client "key" "https://api.heygen.com" a_hook
           w s).
  reflexivity.
Defined.

(** * The report of a failed response in Main *)

(** X23. Main.tsx and a 'response.done' event whose response has the
    status 'failed', arriving on a mounted page whose log can be read.
    Without [status_details] the handler writes [undefined] to the error
    console; with [status_details] that carry an [error] it writes the
    error's [message]; in both cases that is all it writes, it returns,
    and the event is logged like any other typed event.  With
    [status_details] that carry no [error] the handler throws a TypeError
    before [setRealtimeEvents] is reached: nothing is written, the page
    state is unchanged and the event is not logged. *)
Theorem failed_response_report :
  forall (w : World) (h : Store) (evs : list loc) (r : loc)
         (ev : RealtimeEvent) (sm : Main.State) (response : JValue),
    h !! r = Some ev ->
    field (event ev) "type" = JStr "response.done" ->
    field (event ev) "response" = response ->
    field response "status" = JStr "failed" ->
    entries_readable h evs ->
    let details := field response "status_details" in
    let error := field details "error" in
    let s := Main.setRealtimeEvents h evs sm in
    let logged :=
      Mounted (Main.setRealtimeEvents
                 (log_after h evs r (JStr "response.done")).1
                 (log_after h evs r (JStr "response.done")).2 sm) in
    run w (Main.on_realtime_event r) (Mounted s) [] =
    if nullish details then
      mkOutcome [ELog "error" [JUndefined]] logged (Ok tt)
    else if nullish error then
      mkOutcome [] (Mounted s) (Raise TypeError)
    else
      mkOutcome [ELog "error" [field error "message"]] logged (Ok tt).
Proof.
  intros w h evs r ev sm response Hr Ht Hresp Hst Hall details error s logged.
  subst details error s logged.
  assert (Hev : exists props, event ev = JObj props).
  { destruct (event ev); try discriminate Ht. eauto. }
  destruct Hev as [props Hev].
  assert (Hrs : exists rprops, response = JObj rprops).
  { destruct response; try discriminate Hst. eauto. }
  destruct Hrs as [rprops ->].
  assert (Hlog : log_event r h evs =
                 Ok (log_after h evs r (JStr "response.done"))).
  { apply (log_event_typed h evs r ev); auto.
    rewrite Hev. cbn [get_prop]. rewrite Hev in Ht. cbn [field] in Ht.
    rewrite Ht. reflexivity. }
  rewrite Hev in Ht, Hresp. cbn [field] in Ht, Hresp, Hst.
  rewrite run_main_event. cbn zeta.
  unfold Main.apply_log_update.
  cbn [Main.heap Main.realtimeEvents Main.setRealtimeEvents].
  rewrite Hlog. destruct (log_after h evs r (JStr "response.done")) as [h' evs'].
  cbn [fst snd].
  unfold report_failed_response, deref. rewrite Hr. cbn [lift bind].
  rewrite Hev. cbn [get_prop lift bind]. rewrite Ht, Hresp.
  cbn [loose_eq_lit String.eqb Ascii.eqb Bool.eqb get_opt get_prop lift bind].
  rewrite Hst.
  cbn [loose_eq_lit String.eqb Ascii.eqb Bool.eqb bindR field].
  generalize (assoc "status_details" rprops). intros details.
  destruct details as [| |b|x|str|xs|dprops];
    cbn [nullish field get_prop bindR lift bind console_error run result
         final trace app];
    try reflexivity.
  generalize (assoc "error" dprops). intros error.
  destruct error;
    cbn [nullish field get_prop bindR lift bind console_error run result
         final trace app];
    reflexivity.
Qed.

Lemma failed_response_report_witness :
  let w := offline a_date in
  (run w (Main.on_realtime_event 0%N)
     (Mounted (Main.setRealtimeEvents failed_store [] Main.initial)) [] =
   mkOutcome []
     (Mounted (Main.setRealtimeEvents failed_store [] Main.initial))
     (Raise TypeError)) /\
  (run w (Main.on_realtime_event 0%N)
     (Mounted (Main.setRealtimeEvents failed_store_with_error [] Main.initial))
     [] =
   mkOutcome [ELog "error" [JStr "quota exceeded"]]
     (Mounted (Main.setRealtimeEvents failed_store_with_error [0%N]
                 Main.initial))
     (Ok tt)) /\
  (run w (Main.on_realtime_event 0%N)
     (Mounted (Main.setRealtimeEvents failed_store_without_details []
                 Main.initial)) [] =
   mkOutcome [ELog "error" [JUndefined]]
     (Mounted (Main.setRealtimeEvents failed_store_without_details [0%N]
                 Main.initial))
     (Ok tt)).
Proof.
  intros w. split; [|split].
  - apply (failed_response_report w failed_store [] 0%N failed_event
             Main.initial
             (JObj [("status", JStr "failed"); ("status_details", JObj [])]));
      try reflexivity. constructor.
  - apply (failed_response_report w failed_store_with_error [] 0%N
             failed_event_with_error Main.initial
             (JObj [("status", JStr "failed");
                    ("status_details",
                     JObj [("error",
                            JObj [("message", JStr "quota exceeded")])])]));
      try reflexivity. constructor.
  - apply (failed_response_report w failed_store_without_details [] 0%N
             failed_event_without_details Main.initial
             (JObj [("status", JStr "failed")]));
      try reflexivity. constructor.
Defined.

(** * StreamingSession.tsx *)

Ltac wp_ss_step :=
  first
    [ progress cbn [wp bind try_catch lift fetch call assign console_log
                    console_error now modify negb orb andb truthy
                    ref_object requests get_prop nullish field
                    sessionInfoRef peerConnectionRef mediaElementRef
                    set_sessionInfoRef set_peerConnectionRef
                    set_mediaElementRef
                    StreamingSession.status StreamingSession.avatarID
                    StreamingSession.voiceID StreamingSession.taskInput
                    StreamingSession.refs StreamingSession.setStatus
                    StreamingSession.setTaskInput StreamingSession.set_refs]
    | progress unfold response_json, invoke, StreamingSession.updateStatus
    | match goal with
      | |- forall _, _ => intro
      | |- context [get_prop ?v _] => is_var v; destruct v
      | |- context [lift (get_prop ?v _)] =>
          let x := fresh "v" in set (x := v) in *; clearbody x; destruct x
      | |- context [lift ?x] => is_var x; destruct x
      | |- context [match ?x with Ok _ => _ | Raise _ => _ end] =>
          is_var x; destruct x
      | |- context [json ?r] => destruct (json r)
      | |- context [match ?v with JUndefined => _ | _ => _ end] =>
          is_var v; destruct v
      | |- context [if truthy ?v then _ else _] => destruct (truthy v)
      end ].
Ltac wp_ss := repeat wp_ss_step.


Section SessionFacts.

Variables apiKey serverUrl : string.









Lemma wp_on_talk_click s :
  wp (StreamingSession.on_talk_click apiKey serverUrl) s
    (talk_post apiKey serverUrl s).
Proof.
  unfold StreamingSession.on_talk_click, StreamingSession.sendText,
    talk_post, task_request.
  destruct s as [st av vo ti [se pc me]].
  destruct se; cbn zeta;
    cbn [StreamingSession.refs sessionInfoRef nullish]; wp_ss.
  all: split; [reflexivity|split; [reflexivity|split; [eexists; reflexivity|]]].
  all: split; [reflexivity|auto].
Qed.

End SessionFacts.



(** X25. The Talk button of StreamingSession.tsx does not send what was
    typed.  Whatever [taskInput] holds and whatever the server answers, a
    click returns and adds exactly one status line, leaving the refs
    alone.  While the session ref holds null or undefined it sends nothing
    and keeps the typed text.  Otherwise it sends exactly one request, the
    POST to [streaming.task] with the empty text and the [session_id] of
    the session in the ref, and the typed text is either kept or
    cleared. *)
Theorem talk_button_sends_empty_text :
  forall (apiKey serverUrl : string) (w : World) (s : StreamingSession.State),
    talk_post apiKey serverUrl s
      (trace (run w (StreamingSession.on_talk_click apiKey serverUrl) s []))
      (final (run w (StreamingSession.on_talk_click apiKey serverUrl) s []))
      (result (run w (StreamingSession.on_talk_click apiKey serverUrl) s [])).
Proof.
  intros apiKey serverUrl w s.
  destruct (wp_run _ s _ (wp_on_talk_click apiKey serverUrl s) w [])
    as (evs & Ht & H).
  cbn [app] in Ht. rewrite Ht. exact H.
Qed.

(** * Button.tsx *)

(** X26. What [Button] renders, for every combination of props.  The
    class list has between one and four classes and its last one is the
    style class, [button-style-regular] when no style is given.  The icon
    is rendered exactly once when an icon is given, before the label
    unless [iconPosition] is 'end', and never otherwise.  The label is
    rendered exactly when [iconOnly] is not set and the label is not the
    empty string, with 'Okay' standing in for a label that was not given;
    so an icon-only button without an icon renders nothing at all. *)
Theorem Button_renders :
  forall (Icon : Type) (props : Button.ButtonProps Icon),
    let r := Button.Button Icon props in
    let label := default "Okay" (Button.label Icon props) in
    let shown :=
      negb (default false (Button.iconOnly Icon props)) &&
      negb (String.eqb label "") in
    (exists before,
        Button.classList Icon r =
        before ++ ["button-style-" +:+
                   Button.style_name
                     (default Button.regular (Button.buttonStyle Icon props))] /\
        (length before <= 3)%nat) /\
    Button.children Icon r =
      match Button.icon Icon props, Button.iconPosition Icon props with
      | Some i, Some Button.end_ =>
          (if shown then [Button.LabelSpan label] else []) ++ [Button.IconSpan i]
      | Some i, _ =>
          Button.IconSpan i :: (if shown then [Button.LabelSpan label] else [])
      | None, _ => if shown then [Button.LabelSpan label] else []
      end /\
    length (filter (fun c => Button.is_icon Icon c = true)
              (Button.children Icon r)) =
      match Button.icon Icon props with
      | Some _ => 1%nat
      | None => 0%nat
      end.
Proof.
  intros Icon [label icon position color fill style only] r lbl shown.
  subst r lbl shown. unfold Button.Button.
  cbn [Button.label Button.icon Button.iconPosition Button.iconColor
       Button.iconFill Button.buttonStyle Button.iconOnly
       Button.classList Button.children].
  split; [|split].
  - destruct color as [c|]; destruct fill as [[]|]; destruct only as [[]|];
      cbn [from_option Datatypes.id];
      eexists; (split; [reflexivity|cbn; lia]).
  - destruct icon as [i|]; destruct position as [[]|];
      cbn [from_option Datatypes.id app];
      rewrite ?app_nil_r; reflexivity.
  - destruct icon as [i|]; destruct position as [[]|];
      cbn [from_option Datatypes.id app];
      destruct (negb (default false only) &&
                negb (String.eqb (default "Okay" label) ""));
      reflexivity.
Qed.
